(** * The syslog adapter of logspout (adapters/syslog/syslog.go)

    A shallow embedding of the adapter: construction of the message
    template from the environment, rendering of a log record, TCP framing,
    the bounded retry loop and the stream loop with its recovery path.

    Go strings are byte strings: [string] is read as a sequence of bytes and
    [String.length] is Go's [len].  [uint] and [int] are 64 bits wide. *)

From Stdlib Require Import ZArith List Bool Lia Ascii String.
From Stdlib Require Import Decimal DecimalString DecimalN.
Import ListNotations.
Open Scope string_scope.
Open Scope Z_scope.

(* ================================================================= *)
(** * Go runtime and library functions used by the adapter *)

Module Go.

(** A value or an error, as Go's [(T, error)] results. *)
Inductive result (E A : Type) : Type :=
| Ok (a : A)
| Err (e : E).
Arguments Ok {E A} a.
Arguments Err {E A} e.

Definition LF : ascii := "010"%char.
Definition CR : ascii := "013"%char.

Definition byteOf (c : ascii) : Z := Z.of_N (N_of_ascii c).

Definition uintSize : Z := 64.
Definition maxUint : Z := 2 ^ uintSize - 1.
Definition minInt : Z := - 2 ^ (uintSize - 1).
Definition maxInt : Z := 2 ^ (uintSize - 1) - 1.

(** The conversion [uint(n)] of an [int]. *)
Definition uint (n : Z) : Z := n mod 2 ^ uintSize.

(** [x++] on a [uint]. *)
Definition uintSucc (x : Z) : Z := (x + 1) mod 2 ^ uintSize.

(** [s[n:]] for an [n] within bounds, and [s[:n]]. *)
Fixpoint drop (n : nat) (s : string) : string :=
  match n, s with
  | O, _ => s
  | S _, EmptyString => EmptyString
  | S n', String _ r => drop n' r
  end.

Fixpoint take (n : nat) (s : string) : string :=
  match n, s with
  | O, _ => EmptyString
  | S _, EmptyString => EmptyString
  | S n', String c r => String c (take n' r)
  end.

(** [strconv.Itoa] and the verb [%d]. *)
Definition utoa (n : N) : string := NilEmpty.string_of_uint (N.to_uint n).

Definition Itoa (z : Z) : string :=
  if z <? 0 then String "-"%char (utoa (Z.abs_N z)) else utoa (Z.to_N z).

(** [strconv.Atoi]: an optional sign, then one or more decimal digits,
    the value within the range of [int]; [None] stands for a non-nil
    error (syntax or range). *)
Definition digitVal (c : ascii) : option Z :=
  let b := byteOf c in
  if (48 <=? b) && (b <=? 57) then Some (b - 48) else None.

Fixpoint parseDigits (s : string) (acc : Z) : option Z :=
  match s with
  | EmptyString => Some acc
  | String c r =>
      match digitVal c with
      | Some d => parseDigits r (acc * 10 + d)
      | None => None
      end
  end.

Definition Atoi (s : string) : option Z :=
  match s with
  | EmptyString => None
  | String c r =>
      let neg := Ascii.eqb c "-"%char in
      let body := if neg || Ascii.eqb c "+"%char then r else s in
      match body with
      | EmptyString => None
      | _ =>
          match parseDigits body 0 with
          | Some n =>
              let v := if neg then - n else n in
              if (minInt <=? v) && (v <=? maxInt) then Some v else None
          | None => None
          end
      end
  end.

(** [strings.TrimRight(s, "\r\n")]. *)
Fixpoint TrimRightCRLF (s : string) : string :=
  match s with
  | EmptyString => EmptyString
  | String c r =>
      match TrimRightCRLF r with
      | EmptyString =>
          if Ascii.eqb c CR || Ascii.eqb c LF then EmptyString
          else String c EmptyString
      | r' => String c r'
      end
  end.

(** ** UTF-8 decoding, as [for i := range s] steps through a string *)

Definition inRange (lo hi b : Z) : bool := (lo <=? b) && (b <=? hi).

(** Size announced by a leading byte and the accepted range of the second
    byte (the tables [first] and [acceptRanges] of unicode/utf8); [None]
    for a byte that starts no sequence. *)
Definition leading (b0 : Z) : option (nat * (Z * Z)) :=
  if inRange 194 223 b0 then Some (2%nat, (128, 191))
  else if b0 =? 224 then Some (3%nat, (160, 191))
  else if inRange 225 236 b0 then Some (3%nat, (128, 191))
  else if b0 =? 237 then Some (3%nat, (128, 159))
  else if inRange 238 239 b0 then Some (3%nat, (128, 191))
  else if b0 =? 240 then Some (4%nat, (144, 191))
  else if inRange 241 243 b0 then Some (4%nat, (128, 191))
  else if b0 =? 244 then Some (4%nat, (128, 143))
  else None.

Definition isCont (c : ascii) : bool := inRange 128 191 (byteOf c).

(** Width in bytes of the first rune of a non-empty string; an invalid or
    short sequence is one byte wide (it decodes to [RuneError]). *)
Definition runeWidth (s : string) : nat :=
  match s with
  | EmptyString => 0%nat
  | String c0 r =>
      if byteOf c0 <? 128 then 1%nat
      else
        match leading (byteOf c0) with
        | None => 1%nat
        | Some (sz, (lo, hi)) =>
            match r with
            | String c1 r1 =>
                if negb (inRange lo hi (byteOf c1)) then 1%nat
                else if (sz <=? 2)%nat then 2%nat
                else
                  match r1 with
                  | String c2 r2 =>
                      if negb (isCont c2) then 1%nat
                      else if (sz <=? 3)%nat then 3%nat
                      else
                        match r2 with
                        | String c3 _ =>
                            if negb (isCont c3) then 1%nat else 4%nat
                        | EmptyString => 1%nat
                        end
                  | EmptyString => 1%nat
                  end
            | EmptyString => 1%nat
            end
        end
  end.

(** The precision of [%.Ns] in [fmt]: the first [n] runes of [s]
    ([truncateString] in fmt/format.go). *)
Fixpoint truncateString (n : nat) (s : string) : string :=
  match n with
  | O => EmptyString
  | S n' =>
      match s with
      | EmptyString => EmptyString
      | _ =>
          let w := runeWidth s in
          take w s ++ truncateString n' (drop w s)
      end
  end.

(** ** time.Time and [Format(time.RFC3339)]

    A time is given by its civil fields in its own location (years 0 to
    9999) and the offset of that location from UTC in minutes. *)
Record Time : Type := mkTime {
  year : Z; month : Z; day : Z;
  hour : Z; minute : Z; second : Z;
  zoneOffset : Z
}.

Definition pad (width : nat) (z : Z) : string :=
  let s := Itoa z in
  let fix zeros (k : nat) : string :=
    match k with O => EmptyString | S k' => String "0"%char (zeros k') end in
  zeros (width - String.length s)%nat ++ s.

Definition FormatRFC3339 (t : Time) : string :=
  pad 4 (year t) ++ "-" ++ pad 2 (month t) ++ "-" ++ pad 2 (day t) ++ "T"
  ++ pad 2 (hour t) ++ ":" ++ pad 2 (minute t) ++ ":" ++ pad 2 (second t)
  ++ (if zoneOffset t =? 0 then "Z"
      else
        let a := Z.abs (zoneOffset t) in
        (if zoneOffset t <? 0 then "-" else "+")
        ++ pad 2 (a / 60) ++ ":" ++ pad 2 (a mod 60)).

End Go.

Import Go.

(* ================================================================= *)
(** * Data model *)

(** The three settings that the package keeps in variables ([hostname],
    [retryCount], [tcpFraming]). *)
Record Globals : Type := mkGlobals {
  hostname : string;
  retryCount : Z;
  tcpFraming : string
}.

Definition TraditionalTCPFraming : string := "traditional".
Definition OctetCountedTCPFraming : string := "octet-counted".
Definition defaultRetryCount : Z := 10.

(** [fmt.Sprintf("write: %s", syscall.ECONNRESET.Error())]. *)
Definition econnResetErrStr : string := "write: connection reset by peer".

(** The process environment ([os.Getenv], the empty string for a variable
    that is not set) and the result of reading /etc/host_hostname ([None]
    when [ioutil.ReadFile] fails). *)
Record Env : Type := mkEnv {
  Getenv : string -> string;
  host_hostname : option string
}.

(** Modelled from the spec: [cfg.GetEnvDefault], the environment-style
    lookup with a default (package cfg is not part of the sources at hand):
    the value of the variable, or the default when it is empty or unset. *)
Definition GetEnvDefault (env : Env) (name dfault : string) : string :=
  let val := Getenv env name in
  if String.eqb val "" then dfault else val.

(** A [map[string]string]; a key that is absent reads as the empty string. *)
Definition Options : Type := list (string * string).

Fixpoint option_get (o : Options) (key : string) : string :=
  match o with
  | [] => ""
  | (k, v) :: rest => if String.eqb k key then v else option_get rest key
  end.

(** Modelled from the spec: [router.Route], declared in package router,
    which is not part of the sources at hand; the RouteConfig of the spec
    with the fields that the adapter reads (the adapter name with its
    transport, the destination address, the string options). *)
Record Route : Type := mkRoute {
  Route_Adapter : string;
  Route_Address : string;
  Route_Options : Options
}.

(** Modelled from the spec: [router.Message], declared in package router,
    and the [docker.Container] it points to; the LogRecord of the spec with
    the fields that the adapter and its default templates read (source,
    payload, time; name, host name and pid of the container).  The real
    records have more fields ([.Time], [.Container.ID], ...):
    [Message_Rest] is what a chain of names that leads to one of them
    renders to in a template, [None] where the chain does not evaluate. *)
Record Container : Type := mkContainer {
  Container_Name : string;
  Config_Hostname : string;
  State_Pid : Z
}.

Record Message : Type := mkMessage {
  Message_Container : Container;
  Message_Source : string;
  Message_Data : string;
  Message_Time : Time;
  Message_Rest : list string -> option string
}.

(** [*net.OpError]: what [Temporary()], [Timeout()] and [Err.Error()]
    return. *)
Record OpError : Type := mkOpError {
  Temporary : bool;
  Timeout : bool;
  Err_Error : string
}.

(** Go's [error] values, by their dynamic type and what can be asked of
    them: a [*net.OpError]; an error of another type that implements
    [net.Error] (a [syscall.Errno], the error of a TLS or of a custom
    transport), with what its [Temporary()] and [Timeout()] return; an
    error that has no such marks; and the errors of text/template. *)
Inductive error : Type :=
| ErrOp (e : OpError)                     (* a *net.OpError *)
| ErrNet (temporary timeout : bool) (msg : string)
                                          (* a net.Error of another type *)
| ErrOther (msg : string)                 (* any other error value *)
| ErrTemplateParse                        (* template.Parse failed *)
| ErrTemplateExec (field : list string).  (* Template.Execute failed *)

(** The dynamic type of a [net.Conn]. *)
Inductive ConnKind : Type := UDPConn | TCPConn | TLSConn | OtherConn.

Record Conn : Type := mkConn {
  connKind : ConnKind;
  connId : nat
}.

Definition isTCPConnecion (conn : Conn) : bool :=
  match connKind conn with
  | TCPConn => true
  | TLSConn => true
  | _ => false
  end.

(* ================================================================= *)
(** * Message methods *)

Definition LOG_ERR : Z := 3.
Definition LOG_INFO : Z := 6.
Definition LOG_USER : Z := Z.shiftl 1 3.
Definition LOG_DAEMON : Z := Z.shiftl 3 3.

Definition Priority (m : Message) : Z :=
  if String.eqb (Message_Source m) "stdout" then Z.lor LOG_USER LOG_INFO
  else if String.eqb (Message_Source m) "stderr" then Z.lor LOG_USER LOG_ERR
  else Z.lor LOG_DAEMON LOG_INFO.

Definition Hostname (g : Globals) (m : Message) : string := hostname g.

Definition Timestamp (m : Message) : string :=
  FormatRFC3339 (Message_Time m).

(** [Name[1:]]; slicing an empty name panics ([None]). *)
Definition ContainerName (m : Message) : option string :=
  match Container_Name (Message_Container m) with
  | EmptyString => None
  | String _ rest => Some rest
  end.

(* ================================================================= *)
(** * text/template

    A template is text interleaved with actions [{{ ... }}].  The part of
    the library that is modelled in full is the plain templates: text and
    the actions that are field chains ([{{.Data}}],
    [{{.Container.State.Pid}}]), which is what every default of the adapter
    is made of.  What the library makes of any other template text
    (pipelines, function calls, literals, comments, trim markers, control
    structures) is left to an [Engine]: whether [Parse] accepts the text,
    and what executing it on a record gives. *)

Class Engine : Type := mkEngine {
  parses : string -> bool;
  executes : string -> Globals -> Message -> result error string
}.

Module Template.

Inductive Node : Type :=
| Text (s : string)
| Field (chain : list string)
| Other (source : string).   (* a template that is not plain, as a whole *)

Definition t : Type := list Node.

(** [cut c1 c2 s]: the text before and after the first occurrence of the
    two-byte delimiter [c1 c2] in [s]. *)
Fixpoint cut (c1 c2 : ascii) (s : string) : option (string * string) :=
  match s with
  | EmptyString => None
  | String a r =>
      match r with
      | EmptyString => None
      | String b r' =>
          if Ascii.eqb a c1 && Ascii.eqb b c2 then Some (EmptyString, r')
          else
            match cut c1 c2 r with
            | Some (p, q) => Some (String a p, q)
            | None => None
            end
      end
  end.

Definition isSpace (c : ascii) : bool := Ascii.eqb c " "%char.

Fixpoint trimLeft (s : string) : string :=
  match s with
  | String c r => if isSpace c then trimLeft r else s
  | EmptyString => EmptyString
  end.

Fixpoint trimRight (s : string) : string :=
  match s with
  | EmptyString => EmptyString
  | String c r =>
      match trimRight r with
      | EmptyString => if isSpace c then EmptyString else String c EmptyString
      | r' => String c r'
      end
  end.

Definition isLetter (c : ascii) : bool :=
  let b := byteOf c in
  inRange 65 90 b || inRange 97 122 b || (b =? 95).

Definition isAlnum (c : ascii) : bool :=
  isLetter c || inRange 48 57 (byteOf c).

(** The longest prefix of identifier bytes, and what follows it. *)
Fixpoint ident (s : string) : string * string :=
  match s with
  | EmptyString => (EmptyString, EmptyString)
  | String c r =>
      if isAlnum c then let (i, rest) := ident r in (String c i, rest)
      else (EmptyString, s)
  end.

(** [.A.B.C] as the list of its names. *)
Fixpoint chain (fuel : nat) (s : string) : option (list string) :=
  match fuel with
  | O => None
  | S fuel' =>
      match s with
      | String dot (String c r) =>
          if Ascii.eqb dot "."%char && isLetter c then
            let (i, rest) := ident (String c r) in
            match rest with
            | EmptyString => Some [i]
            | _ =>
                match chain fuel' rest with
                | Some l => Some (i :: l)
                | None => None
                end
            end
          else None
      | _ => None
      end
  end.

Definition action (body : string) : option (list string) :=
  let b := trimRight (trimLeft body) in
  chain (String.length b) b.

Definition text (s : string) : t :=
  match s with
  | EmptyString => []
  | _ => [Text s]
  end.

Fixpoint parse (fuel : nat) (s : string) : option t :=
  match fuel with
  | O => None
  | S fuel' =>
      match cut "{" "{" s with
      | None => Some (text s)
      | Some (before, rest) =>
          match cut "}" "}" rest with
          | None => None
          | Some (body, after) =>
              match action body, parse fuel' after with
              | Some ch, Some nodes => Some (text before ++ Field ch :: nodes)%list
              | _, _ => None
              end
          end
      end
  end.

(** The nodes of a plain template, [None] for any other text. *)
Definition plain (s : string) : option t := parse (S (String.length s)) s.

Section Engine.

Context {eng : Engine}.

(** [template.New("syslog").Parse(s)]. *)
Definition Parse (s : string) : result error t :=
  match plain s with
  | Some nodes => Ok nodes
  | None => if parses s then Ok [Other s] else Err ErrTemplateParse
  end.

Definition names (c : list string) (l : list string) : bool :=
  if list_eq_dec string_dec c l then true else false.

(** Evaluation of a field chain on a [*Message]: its methods, then the
    fields of the embedded [*router.Message], the modelled ones first. *)
Definition field (g : Globals) (m : Message) (c : list string)
  : result error string :=
  if names c ["Priority"] then Ok (Itoa (Priority m))
  else if names c ["Hostname"] then Ok (Hostname g m)
  else if names c ["Timestamp"] then Ok (Timestamp m)
  else if names c ["ContainerName"] then
    match ContainerName m with
    | Some n => Ok n
    | None => Err (ErrTemplateExec c)
    end
  else if names c ["Source"] then Ok (Message_Source m)
  else if names c ["Data"] then Ok (Message_Data m)
  else if names c ["Container"; "Name"] then
    Ok (Container_Name (Message_Container m))
  else if names c ["Container"; "Config"; "Hostname"] then
    Ok (Config_Hostname (Message_Container m))
  else if names c ["Container"; "State"; "Pid"] then
    Ok (Itoa (State_Pid (Message_Container m)))
  else
    match Message_Rest m c with
    | Some v => Ok v
    | None => Err (ErrTemplateExec c)
    end.

(** [tmpl.Execute(buf, m)]: the output so far is in [buf]. *)
Fixpoint Execute (g : Globals) (nodes : t) (m : Message) (buf : string)
  : result error string :=
  match nodes with
  | [] => Ok buf
  | Text s :: rest => Execute g rest m (buf ++ s)
  | Field c :: rest =>
      match field g m c with
      | Ok v => Execute g rest m (buf ++ v)
      | Err e => Err e
      end
  | Other source :: rest =>
      match executes source g m with
      | Ok v => Execute g rest m (buf ++ v)
      | Err e => Err e
      end
  end.

End Engine.

End Template.

(** [Render]: the bytes of the buffer, or the error of the template. *)
Definition Render {eng : Engine} (g : Globals) (m : Message)
  (tmpl : Template.t)
  : result error string :=
  match Template.Execute g tmpl m "" with
  | Err e => Err e
  | Ok buf => Ok buf
  end.

(* ================================================================= *)
(** * The network, and the state the adapter runs in *)

(** Modelled from the spec: the collaborators behind
    [router.AdapterTransport] and [net.Conn], which the spec leaves to the
    host (a lookup of the transport by name and
    [dial(address, options) -> Connection | DialError]).  [Lookup route] is
    [router.AdapterTransports.Lookup(route.AdapterTransport("udp"))],
    [Dial] is [transport.Dial] and [Write] is [conn.Write], whose byte
    count the adapter ignores.  [None] is the nil error.  What the network
    answers depends on the state of the world, which each call may
    change. *)
Class Network : Type := mkNetwork {
  World : Type;
  Transport : Type;
  Lookup : Route -> option Transport;
  Dial : Transport -> string -> Options -> World -> result error Conn * World;
  Write : Conn -> string -> World -> option error * World
}.

(** What the adapter did to the network, in order.  The lines that the
    adapter writes to the process log are left out. *)
Inductive Event : Type :=
| EvDial (r : result error Conn)
| EvWrite (c : Conn) (buf : string) (err : option error).

Section Adapter.

Context {net : Network} {eng : Engine}.

Record State : Type := mkState {
  globals : Globals;
  world : World;
  trace : list Event
}.

Definition connWrite (c : Conn) (buf : string) (s : State)
  : option error * State :=
  let (err, w) := Write c buf (world s) in
  (err, mkState (globals s) w (trace s ++ [EvWrite c buf err])).

Definition transportDial (t : Transport) (r : Route) (s : State)
  : result error Conn * State :=
  let (res, w) := Dial t (Route_Address r) (Route_Options r) (world s) in
  (res, mkState (globals s) w (trace s ++ [EvDial res])).

Definition setGlobals (g : Globals) (s : State) : State :=
  mkState g (world s) (trace s).

(* ================================================================= *)
(** * Configuration *)

Definition setRetryCount (env : Env) (g : Globals) : Globals :=
  match Atoi (GetEnvDefault env "RETRY_COUNT" (Itoa defaultRetryCount)) with
  | None => mkGlobals (hostname g) (uint defaultRetryCount) (tcpFraming g)
  | Some count => mkGlobals (hostname g) (uint count) (tcpFraming g)
  end.

Definition getHostname (env : Env) (g : Globals) : string * Globals :=
  let h :=
    match host_hostname env with
    | Some content =>
        if (0 <? String.length content)%nat then TrimRightCRLF content
        else GetEnvDefault env "SYSLOG_HOSTNAME" "{{.Container.Config.Hostname}}"
    | None =>
        GetEnvDefault env "SYSLOG_HOSTNAME" "{{.Container.Config.Hostname}}"
    end in
  (h, mkGlobals h (retryCount g) (tcpFraming g)).

Definition setTCPFraming (env : Env) (g : Globals) : option error * Globals :=
  let s := GetEnvDefault env "SYSLOG_TCP_FRAMING" "traditional" in
  if String.eqb s "traditional" then
    (None, mkGlobals (hostname g) (retryCount g) TraditionalTCPFraming)
  else if String.eqb s "octet-counted" then
    (None, mkGlobals (hostname g) (retryCount g) OctetCountedTCPFraming)
  else (Some (ErrOther ("unknown SYSLOG_TCP_FRAMING value: " ++ s)), g).

(** The template text of the two formats: the two [fmt.Sprintf] calls. *)
Definition rfc5424Template
  (priority timestamp host tag pid structuredData data : string) : string :=
  "<" ++ priority ++ ">1 " ++ timestamp ++ " " ++ truncateString 255 host
  ++ " " ++ truncateString 48 tag ++ " " ++ truncateString 128 pid ++ " - "
  ++ structuredData ++ " " ++ data ++ String LF "".

Definition rfc3164Template
  (priority timestamp host tag pid data : string) : string :=
  "<" ++ priority ++ ">" ++ timestamp ++ " " ++ host ++ " "
  ++ truncateString 32 tag ++ "[" ++ pid ++ "]: " ++ data ++ String LF "".

Record Adapter : Type := mkAdapter {
  conn : Conn;
  route : Route;
  tmpl : Template.t;
  transport : Transport
}.

Definition NewSyslogAdapter (env : Env) (route : Route) (s : State)
  : result error Adapter * State :=
  match Lookup route with
  | None => (Err (ErrOther ("bad transport: " ++ Route_Adapter route)), s)
  | Some transport =>
      let (dialed, s) := transportDial transport route s in
      match dialed with
      | Err err => (Err err, s)
      | Ok conn =>
          let format := GetEnvDefault env "SYSLOG_FORMAT" "rfc5424" in
          let priority := GetEnvDefault env "SYSLOG_PRIORITY" "{{.Priority}}" in
          let pid := GetEnvDefault env "SYSLOG_PID" "{{.Container.State.Pid}}" in
          let (host, g) := getHostname env (globals s) in
          let s := setGlobals g s in
          let tag :=
            GetEnvDefault env "SYSLOG_TAG"
              ("{{.ContainerName}}"
               ++ option_get (Route_Options route) "append_tag") in
          let structuredData := GetEnvDefault env "SYSLOG_STRUCTURED_DATA" "" in
          let structuredData :=
            if negb (String.eqb (option_get (Route_Options route)
                                   "structured_data") "")
            then option_get (Route_Options route) "structured_data"
            else structuredData in
          let data := GetEnvDefault env "SYSLOG_DATA" "{{.Data}}" in
          let timestamp :=
            GetEnvDefault env "SYSLOG_TIMESTAMP" "{{.Timestamp}}" in
          let structuredData :=
            if String.eqb structuredData "" then "-"
            else "[" ++ structuredData ++ "]" in
          let (framingErr, g) :=
            if isTCPConnecion conn then setTCPFraming env (globals s)
            else (None, globals s) in
          let s := setGlobals g s in
          match framingErr with
          | Some err => (Err err, s)
          | None =>
              let tmplStr :=
                if String.eqb format "rfc5424" then
                  Ok (rfc5424Template priority timestamp host tag pid
                        structuredData data)
                else if String.eqb format "rfc3164" then
                  Ok (rfc3164Template priority timestamp host tag pid data)
                else Err (ErrOther ("unsupported syslog format: " ++ format)) in
              match tmplStr with
              | Err err => (Err err, s)
              | Ok tmplStr =>
                  match Template.Parse tmplStr with
                  | Err err => (Err err, s)
                  | Ok tmpl => (Ok (mkAdapter conn route tmpl transport), s)
                  end
              end
          end
      end
  end.

(* ================================================================= *)
(** * Retry *)

(** The loop of [retryExp]: [try] is the counter, a [uint].  [fun] is a
    closure over the adapter and the network, here a function on the state
    [S] it reads and writes.  The loop has no bound of its own, hence the
    fuel; [None] is "still running when the fuel ran out".  [time.Sleep]
    changes nothing that is modelled. *)
Fixpoint retryExpLoop {S : Type} (fuel : nat) (fn : S -> option error * S)
  (tries try : Z) (s : S) : option (option error * S) :=
  match fuel with
  | O => None
  | Datatypes.S fuel' =>
      let (err, s) := fn s in
      match err with
      | None => Some (None, s)
      | Some e =>
          let try := uintSucc try in
          if try >? tries then Some (Some e, s)
          else retryExpLoop fuel' fn tries try s
      end
  end.

Definition retryExp {S : Type} (fuel : nat) (fn : S -> option error * S)
  (tries : Z) (s : S) : option (option error * S) :=
  retryExpLoop fuel fn tries (uint 0) s.

(** The closure of [retryTemporary]. *)
Definition writeAgain (buf : string) (as_ : Adapter * State)
  : option error * (Adapter * State) :=
  let (a, s) := as_ in
  let (err, s) := connWrite (conn a) buf s in
  (err, (a, s)).

Definition retryTemporary (fuel : nat) (buf : string) (a : Adapter) (s : State)
  : option (option error * (Adapter * State)) :=
  retryExp fuel (writeAgain buf) (retryCount (globals s)) (a, s).

(** The closure of [reconnect]. *)
Definition dialAgain (as_ : Adapter * State)
  : option error * (Adapter * State) :=
  let (a, s) := as_ in
  let (res, s) := transportDial (transport a) (route a) s in
  match res with
  | Err err => (Some err, (a, s))
  | Ok c => (None, (mkAdapter c (route a) (tmpl a) (transport a), s))
  end.

Definition reconnect (fuel : nat) (a : Adapter) (s : State)
  : option (option error * (Adapter * State)) :=
  retryExp fuel dialAgain (retryCount (globals s)) (a, s).

(** The test of [retry] for retrying in place. *)
Definition retryInPlace (err : error) : bool :=
  match err with
  | ErrOp opError =>
      (Temporary opError
       && negb (String.eqb (Err_Error opError) econnResetErrStr))
      || Timeout opError
  | _ => false
  end.

Definition reconnectAndWrite (fuel : nat) (buf : string) (a : Adapter)
  (s : State) : option (option error * (Adapter * State)) :=
  match reconnect fuel a s with
  | None => None
  | Some (Some reconnErr, as_) => Some (Some reconnErr, as_)
  | Some (None, (a, s)) =>
      let (err, s) := connWrite (conn a) buf s in
      Some (err, (a, s))
  end.

Definition retry (fuel : nat) (buf : string) (err : error) (a : Adapter)
  (s : State) : option (option error * (Adapter * State)) :=
  if retryInPlace err then
    match retryTemporary fuel buf a s with
    | None => None
    | Some (None, as_) => Some (None, as_)
    | Some (Some _, (a, s)) => reconnectAndWrite fuel buf a s
    end
  else reconnectAndWrite fuel buf a s.

(* ================================================================= *)
(** * Stream *)

(** The framing switch of [Stream]; [Err] carries the value of the panic. *)
Definition framed (c : Conn) (framing : string) (buf : string)
  : result string string :=
  if isTCPConnecion c then
    if String.eqb framing OctetCountedTCPFraming then
      Ok (Itoa (Z.of_nat (String.length buf)) ++ " " ++ buf)
    else if String.eqb framing TraditionalTCPFraming then Ok buf
    else Err ("unknown framing format: " ++ framing)
  else Ok buf.

(** How [Stream] ends. *)
Inductive Outcome : Type :=
| Closed                          (* the channel was closed and drained *)
| RenderFailed (err : error)      (* the [return] after a failed Render *)
| FramingPanic (value : string)   (* [panic("unknown framing format: ...")] *)
| RetryPanic (err : error).       (* [log.Panicf("syslog retry err: ...")] *)

(** [logstream] is what the channel delivers until it is closed. *)
Fixpoint Stream (fuel : nat) (a : Adapter) (logstream : list Message)
  (s : State) : option (Outcome * (Adapter * State)) :=
  match logstream with
  | [] => Some (Closed, (a, s))
  | message :: rest =>
      match Render (globals s) message (tmpl a) with
      | Err err => Some (RenderFailed err, (a, s))
      | Ok buf =>
          match framed (conn a) (tcpFraming (globals s)) buf with
          | Err v => Some (FramingPanic v, (a, s))
          | Ok buf =>
              let (err, s) := connWrite (conn a) buf s in
              match err with
              | None => Stream fuel a rest s
              | Some err =>
                  match connKind (conn a) with
                  | UDPConn => Stream fuel a rest s
                  | _ =>
                      match retry fuel buf err a s with
                      | None => None
                      | Some (Some err, as_) => Some (RetryPanic err, as_)
                      | Some (None, (a, s)) => Stream fuel a rest s
                      end
                  end
              end
          end
      end
  end.

End Adapter.

Arguments State {net}.
Arguments Adapter {net}.

(** [init]: the host name of the machine, no framing yet, and the retry
    budget from the environment. *)
Definition init (env : Env) (osHostname : string) : Globals :=
  setRetryCount env (mkGlobals osHostname 0 "").

(* ================================================================= *)
(** * A scripted network, for concrete runs

    The world is the list of the results that the coming writes and dials
    will have; when a list is used up, writes succeed and dials fail.  Every
    transport name resolves, and connections are told apart by [connId]. *)

Record Script : Type := mkScript {
  writes : list (option error);
  dials : list (result error Conn)
}.

Definition scriptedDial (w : Script) : result error Conn * Script :=
  match dials w with
  | [] => (Err (ErrOther "dial: connection refused"), w)
  | r :: rest => (r, mkScript (writes w) rest)
  end.

Definition scriptedWrite (w : Script) : option error * Script :=
  match writes w with
  | [] => (None, w)
  | r :: rest => (r, mkScript rest (dials w))
  end.

Definition scripted : Network :=
  mkNetwork Script unit (fun _ => Some tt)
    (fun _ _ _ w => scriptedDial w) (fun _ _ w => scriptedWrite w).

Definition noEnv : Env := mkEnv (fun _ => "") None.

Definition setenv (name value : string) (env : Env) : Env :=
  mkEnv (fun n => if String.eqb n name then value else Getenv env n)
        (host_hostname env).

(* ================================================================= *)
(** * The backoff of the retry loop *)

(** [int64] arithmetic: the result modulo [2^64], read as a signed value. *)
Definition int64 (z : Z) : Z := (z + 2 ^ 63) mod 2 ^ 64 - 2 ^ 63.

(** [time.Millisecond], in nanoseconds. *)
Definition Millisecond : Z := 1000000.

(** [(1 << try) * 10 * time.Millisecond], a [time.Duration]: the constant 1
    takes the type of the product, [int64], and a shift by 64 or more
    leaves 0. *)
Definition backoff (try : Z) : Z :=
  int64 (int64 (int64 (if try <? 64 then Z.shiftl 1 try else 0) * 10)
         * Millisecond).

(** What the loop of [retryExp] does, in order: an invocation of the
    operation, or a call of [time.Sleep] with its argument ([time.Sleep]
    returns at once for a duration that is not positive). *)
Inductive Tick : Type :=
| Invoked
| Slept (d : Z).

(** The loop of [retryExp] again, with its ticks. *)
Fixpoint retryExpSleeping {S : Type} (fuel : nat)
  (fn : S -> option error * S) (tries try : Z) (s : S) (log : list Tick)
  : option (option error * S * list Tick) :=
  match fuel with
  | O => None
  | Datatypes.S fuel' =>
      let (err, s) := fn s in
      let log := (log ++ [Invoked])%list in
      match err with
      | None => Some (None, s, log)
      | Some e =>
          let try := uintSucc try in
          if try >? tries then Some (Some e, s, log)
          else
            retryExpSleeping fuel' fn tries try s
              (log ++ [Slept (backoff try)])
      end
  end.

(** The values of [try] at the sleeps after [k] failures: 1, ..., k. *)
Definition attempts (k : nat) : list Z := map Z.of_nat (seq 1 k).

(** [k] invocations, each followed by its pause; and the ticks of a run of
    [k + 1] invocations: a pause between two invocations, none before the
    first and none after the last. *)
Definition pauses (k : nat) : list Tick :=
  flat_map (fun try => [Invoked; Slept (backoff try)]) (attempts k).

Definition ticks (k : nat) : list Tick := (pauses k ++ [Invoked])%list.

(* ================================================================= *)
(** * ContainerNameSplitN *)

(** [strings.HasPrefix] with what follows the prefix. *)
Fixpoint stripPrefix (p s : string) : option string :=
  match p with
  | EmptyString => Some s
  | String a p' =>
      match s with
      | EmptyString => None
      | String b s' => if Ascii.eqb a b then stripPrefix p' s' else None
      end
  end.

(** [strings.Index(s, sep)], as [s[:m]] and [s[m+len(sep):]] for the index
    [m] of the first occurrence of [sep]. *)
Fixpoint cutSep (sep s : string) {struct s} : option (string * string) :=
  match stripPrefix sep s with
  | Some rest => Some (EmptyString, rest)
  | None =>
      match s with
      | EmptyString => None
      | String c r =>
          match cutSep sep r with
          | Some (before, rest) => Some (String c before, rest)
          | None => None
          end
      end
  end.

(** [strings.Count(s, sep)] for a [sep] that is not empty: the occurrences
    that do not overlap. *)
Fixpoint countSep (fuel : nat) (s sep : string) : Z :=
  match fuel with
  | O => 0
  | S fuel' =>
      match cutSep sep s with
      | Some (_, rest) => 1 + countSep fuel' rest sep
      | None => 0
      end
  end.

Definition Count (s sep : string) : Z := countSep (S (String.length s)) s sep.

(** The loop of [genSplit] with [k] turns left, and its [a[i] = s]. *)
Fixpoint splitLoop (k : nat) (s sep : string) : list string :=
  match k with
  | O => [s]
  | S k' =>
      match cutSep sep s with
      | Some (before, rest) => before :: splitLoop k' rest sep
      | None => [s]
      end
  end.

(** [strings.SplitN(s, sep, n)].  With an empty [sep] the string is cut
    into its UTF-8 sequences by [explode], which is taken as it comes: what
    it does with a byte that is not UTF-8 has changed between releases of
    Go. *)
Definition SplitN (explode : string -> Z -> list string) (s sep : string)
  (n : Z) : list string :=
  if n =? 0 then []
  else if String.eqb sep "" then explode s n
  else
    let n := if n <? 0 then Count s sep + 1 else n in
    let n :=
      if n >? Z.of_nat (String.length s) + 1
      then Z.of_nat (String.length s) + 1 else n in
    splitLoop (Z.to_nat (n - 1)) s sep.

(** [strings.Join]. *)
Definition Join (elems : list string) (sep : string) : string :=
  String.concat sep elems.

(** [ContainerNameSplitN]; [None] when [ContainerName] panics. *)
Definition ContainerNameSplitN (explode : string -> Z -> list string)
  (m : Message) (sep : string) (n : Z) : option (list string) :=
  match ContainerName m with
  | Some name => Some (SplitN explode name sep n)
  | None => None
  end.

(* ================================================================= *)
(** * Vocabulary of the statements *)

(** The state after [k] invocations of an operation, and the error that
    invocation number [k + 1] returns. *)
Fixpoint after {S : Type} (fn : S -> option error * S) (k : nat) (s : S) : S :=
  match k with
  | O => s
  | Datatypes.S k' => after fn k' (snd (fn s))
  end.

Definition errAt {S : Type} (fn : S -> option error * S) (k : nat) (s : S)
  : option error :=
  fst (fn (after fn k s)).

(** An operation together with the count of its invocations. *)
Definition counted {S : Type} (fn : S -> option error * S)
  : S * nat -> option error * (S * nat) :=
  fun sn =>
    let (err, s) := fn (fst sn) in (err, (s, Datatypes.S (snd sn))).

(** The operation that fails on every invocation. *)
Definition failing (e : error) : unit -> option error * unit :=
  fun u => (Some e, u).

(** The receiving side of octet counting (RFC 6587, 3.4.1): the digits of
    MSG-LEN up to the first space, then the message. *)
Fixpoint cutSpace (s : string) : option (string * string) :=
  match s with
  | EmptyString => None
  | String c r =>
      if Ascii.eqb c " "%char then Some (EmptyString, r)
      else
        match cutSpace r with
        | Some (p, q) => Some (String c p, q)
        | None => None
        end
  end.

Definition unframe (frame : string) : option (Z * string) :=
  match cutSpace frame with
  | Some (EmptyString, _) => None
  | Some (digits, msg) =>
      match parseDigits digits 0 with
      | Some n => Some (n, msg)
      | None => None
      end
  | None => None
  end.

(** The value of a decimal numeral read from the left. *)
Fixpoint uintVal (d : Decimal.uint) (acc : Z) : Z :=
  match d with
  | Decimal.Nil => acc
  | Decimal.D0 l => uintVal l (acc * 10 + 0)
  | Decimal.D1 l => uintVal l (acc * 10 + 1)
  | Decimal.D2 l => uintVal l (acc * 10 + 2)
  | Decimal.D3 l => uintVal l (acc * 10 + 3)
  | Decimal.D4 l => uintVal l (acc * 10 + 4)
  | Decimal.D5 l => uintVal l (acc * 10 + 5)
  | Decimal.D6 l => uintVal l (acc * 10 + 6)
  | Decimal.D7 l => uintVal l (acc * 10 + 7)
  | Decimal.D8 l => uintVal l (acc * 10 + 8)
  | Decimal.D9 l => uintVal l (acc * 10 + 9)
  end.

(** Writes of [buf] on [c] that failed, and dials that failed. *)
Definition failedWrites (c : Conn) (buf : string) (errs : list error)
  : list Event :=
  map (fun e => EvWrite c buf (Some e)) errs.

Definition failedDials (errs : list error) : list Event :=
  map (fun e => EvDial (Err e)) errs.

(** A [uint] value. *)
Definition isUint (x : Z) : Prop := 0 <= x <= maxUint.

(** What one recovery from a failed write of [buf] on [c] does to the
    network under the budget [tries], the error it ends with and the
    connection it leaves.  [inPlace] tells whether the write is first
    retried on [c].  In place, all retries but the last have failed; they
    are [tries + 1] when the adapter then reconnects.  Dialing stops at the
    first connection, or after [tries + 1] failures. *)
Inductive Recovery (tries : Z) (c : Conn) (buf : string)
  : bool -> list Event -> option error -> Conn -> Prop :=
| RetriedInPlace (errs : list error) :
    (tries < maxUint -> Z.of_nat (List.length errs) <= tries) ->
    Recovery tries c buf true
      (failedWrites c buf errs ++ [EvWrite c buf None]) None c
| Reconnected (inPlace : bool) (errs derrs : list error) (c' : Conn)
    (res : option error) :
    (if inPlace then Z.of_nat (List.length errs) = tries + 1 else errs = []) ->
    (tries < maxUint -> Z.of_nat (List.length derrs) <= tries) ->
    Recovery tries c buf inPlace
      (failedWrites c buf errs ++ failedDials derrs
       ++ [EvDial (Ok c'); EvWrite c' buf res]) res c'
| DialingExhausted (inPlace : bool) (errs derrs : list error) (e : error) :
    (if inPlace then Z.of_nat (List.length errs) = tries + 1 else errs = []) ->
    Z.of_nat (List.length derrs) = tries ->
    Recovery tries c buf inPlace
      (failedWrites c buf errs ++ failedDials derrs ++ [EvDial (Err e)])
      (Some e) c.

(** The same adapter but for its connection. *)
Definition sameButConn {net : Network} (a a' : Adapter) : Prop :=
  route a' = route a /\ tmpl a' = tmpl a /\ transport a' = transport a.

(** One write on [c] for each pair of bytes and result. *)
Definition writesOn (c : Conn) (results : list (string * option error))
  : list Event :=
  map (fun br => EvWrite c (fst br) (snd br)) results.

(** The settings that [NewSyslogAdapter] reads, by name. *)
Definition formatOf (env : Env) : string :=
  GetEnvDefault env "SYSLOG_FORMAT" "rfc5424".

Definition framingOf (env : Env) : string :=
  GetEnvDefault env "SYSLOG_TCP_FRAMING" "traditional".

Definition validFraming (framing : string) : Prop :=
  framing = TraditionalTCPFraming \/ framing = OctetCountedTCPFraming.

Definition startsWith (c : ascii) (s : string) : bool :=
  match s with
  | String a _ => Ascii.eqb a c
  | EmptyString => false
  end.

(** The template texts that [NewSyslogAdapter] reads or builds, by name:
    the host name, the tag and its precision, the structured data, and the
    text of the template before the space that precedes the tag and after
    the tag. *)
Definition hostnameText (env : Env) : string :=
  fst (getHostname env (mkGlobals "" 0 "")).

Definition tagText (env : Env) (r : Route) : string :=
  GetEnvDefault env "SYSLOG_TAG"
    ("{{.ContainerName}}" ++ option_get (Route_Options r) "append_tag").

Definition tagPrecision (format : string) : nat :=
  if String.eqb format "rfc5424" then 48%nat else 32%nat.

Definition structuredDataText (env : Env) (r : Route) : string :=
  let structuredData := GetEnvDefault env "SYSLOG_STRUCTURED_DATA" "" in
  let structuredData :=
    if negb (String.eqb (option_get (Route_Options r) "structured_data") "")
    then option_get (Route_Options r) "structured_data"
    else structuredData in
  if String.eqb structuredData "" then "-"
  else "[" ++ structuredData ++ "]".

Definition textBeforeTag (env : Env) : string :=
  let priority := GetEnvDefault env "SYSLOG_PRIORITY" "{{.Priority}}" in
  let timestamp := GetEnvDefault env "SYSLOG_TIMESTAMP" "{{.Timestamp}}" in
  if String.eqb (formatOf env) "rfc5424" then
    "<" ++ priority ++ ">1 " ++ timestamp ++ " "
    ++ truncateString 255 (hostnameText env)
  else "<" ++ priority ++ ">" ++ timestamp ++ " " ++ hostnameText env.

Definition textAfterTag (env : Env) (r : Route) : string :=
  let pid := GetEnvDefault env "SYSLOG_PID" "{{.Container.State.Pid}}" in
  let data := GetEnvDefault env "SYSLOG_DATA" "{{.Data}}" in
  if String.eqb (formatOf env) "rfc5424" then
    " " ++ truncateString 128 pid ++ " - " ++ structuredDataText env r
    ++ " " ++ data ++ String LF ""
  else "[" ++ pid ++ "]: " ++ data ++ String LF "".

(** The fields of a line: the text between its spaces. *)
Fixpoint fields (s : string) : list string :=
  match s with
  | EmptyString => [EmptyString]
  | String c r =>
      if Ascii.eqb c " "%char then EmptyString :: fields r
      else
        match fields r with
        | f :: fs => String c f :: fs
        | [] => [String c EmptyString]
        end
  end.

(** An event that writes nothing but [buf]. *)
Definition writesOnly (buf : string) (ev : Event) : Prop :=
  match ev with
  | EvWrite _ b _ => b = buf
  | EvDial _ => True
  end.

(** [buf] is what a record among [msgs] renders to under [tmpl], framed
    for some connection. *)
Definition recordBytes {eng : Engine} (g : Globals) (tmpl : Template.t)
  (msgs : list Message) (buf : string) : Prop :=
  exists m b c,
    In m msgs /\ Render g m tmpl = Ok b /\ framed c (tcpFraming g) b = Ok buf.

Definition writesRecords {eng : Engine} (g : Globals) (tmpl : Template.t)
  (msgs : list Message) (ev : Event) : Prop :=
  match ev with
  | EvWrite _ buf _ => recordBytes g tmpl msgs buf
  | EvDial _ => True
  end.

(** [fb] is what [m] renders to under the template of [a], framed for the
    connection of [a]. *)
Definition framedRender {net : Network} {eng : Engine}
  (g : Globals) (a : Adapter)
  (m : Message) (fb : string) : Prop :=
  exists b,
    Render g m (tmpl a) = Ok b /\ framed (conn a) (tcpFraming g) b = Ok fb.

(** A text made of line ends only, and the last byte of a text. *)
Fixpoint allCRLF (s : string) : bool :=
  match s with
  | EmptyString => true
  | String c r => (Ascii.eqb c CR || Ascii.eqb c LF) && allCRLF r
  end.

Fixpoint lastByte (s : string) : option ascii :=
  match s with
  | EmptyString => None
  | String c EmptyString => Some c
  | String _ r => lastByte r
  end.

(** The settings of the line are the defaults: /etc/host_hostname is
    missing or empty, none of the variables that make the line is set, and
    the route has neither option. *)
Definition lineVariables : list string :=
  ["SYSLOG_PRIORITY"; "SYSLOG_PID"; "SYSLOG_HOSTNAME"; "SYSLOG_TAG";
   "SYSLOG_STRUCTURED_DATA"; "SYSLOG_DATA"; "SYSLOG_TIMESTAMP"].

Definition defaults (env : Env) (r : Route) : Prop :=
  (host_hostname env = None \/ host_hostname env = Some "")
  /\ (forall v, In v lineVariables -> Getenv env v = "")
  /\ option_get (Route_Options r) "append_tag" = ""
  /\ option_get (Route_Options r) "structured_data" = "".

(** The line of a record under the defaults, in the two formats; [name] is
    the container name without its first byte. *)
Definition rfc5424Line (m : Message) (name : string) : string :=
  "<" ++ Itoa (Priority m) ++ ">1 " ++ Timestamp m ++ " "
  ++ Config_Hostname (Message_Container m) ++ " " ++ name ++ " "
  ++ Itoa (State_Pid (Message_Container m)) ++ " - - " ++ Message_Data m
  ++ String LF "".

Definition rfc3164Line (m : Message) (name : string) : string :=
  "<" ++ Itoa (Priority m) ++ ">" ++ Timestamp m ++ " "
  ++ Config_Hostname (Message_Container m) ++ " " ++ name ++ "["
  ++ Itoa (State_Pid (Message_Container m)) ++ "]: " ++ Message_Data m
  ++ String LF "".

(** A record that renders under a template, and one that has a container
    name to slice. *)
Definition renders {eng : Engine} (g : Globals) (tmpl : Template.t)
  (m : Message) : Prop :=
  exists b, Render g m tmpl = Ok b.

Definition named (m : Message) : Prop := ContainerName m <> None.

(** The line of a record in the format that [env] selects. *)
Definition defaultLine (env : Env) (m : Message) (name : string) : string :=
  if String.eqb (formatOf env) "rfc5424" then rfc5424Line m name
  else rfc3164Line m name.

(** The marks of an error, whatever its type: what [Temporary()] and
    [Timeout()] return when the error has these methods, and whether its
    text is that of a write on a connection that the peer has reset.
    [isOpError] is the type assertion of [retry], to [*net.OpError]. *)
Definition markedTemporary (err : error) : bool :=
  match err with
  | ErrOp op => Temporary op
  | ErrNet temporary _ _ => temporary
  | _ => false
  end.

Definition markedTimeout (err : error) : bool :=
  match err with
  | ErrOp op => Timeout op
  | ErrNet _ timeout _ => timeout
  | _ => false
  end.

Definition connectionReset (err : error) : bool :=
  match err with
  | ErrOp op => String.eqb (Err_Error op) econnResetErrStr
  | ErrNet _ _ msg => String.eqb msg econnResetErrStr
  | ErrOther msg => String.eqb msg econnResetErrStr
  | _ => false
  end.

Definition isOpError (err : error) : bool :=
  match err with
  | ErrOp _ => true
  | _ => false
  end.

(* ================================================================= *)
(** * Sample data *)

Definition sampleTime : Time := mkTime 2024 1 2 3 4 5 0.

(** A record with no field but the modelled ones, and an engine that
    accepts the plain templates only. *)
Definition noRest : list string -> option string := fun _ => None.

Definition plainOnly : Engine :=
  mkEngine (fun _ => false) (fun _ _ _ => Err ErrTemplateParse).

Definition sampleMessage : Message :=
  mkMessage (mkContainer "/web-1" "host1" 4242) "stdout" "hello" sampleTime
    noRest.

Definition udpRoute : Route := mkRoute "syslog" "10.0.0.1:514" [].
Definition tcpRoute : Route := mkRoute "syslog+tcp" "10.0.0.1:514" [].

Definition udp0 : Conn := mkConn UDPConn 0.
Definition tcp1 : Conn := mkConn TCPConn 1.
Definition tcp2 : Conn := mkConn TCPConn 2.

(** A timeout, and the reset of the connection by the peer. *)
Definition timeoutErr : error := ErrOp (mkOpError true true "i/o timeout").
Definition resetErr : error :=
  ErrOp (mkOpError true false "write: connection reset by peer").

(** The state of a scripted run: the settings after [init] in an empty
    environment, with a framing and a budget. *)
Definition scriptedState (budget : Z) (framing : string) (w : Script)
  : @State scripted :=
  @mkState scripted (mkGlobals "box" budget framing) w [].

(** [NewSyslogAdapter] in [env] for [r] when the dial returns [c], and the
    adapter it builds; the template is empty if it builds none. *)
Definition build (env : Env) (r : Route) (c : Conn)
  : result error (@Adapter scripted) * @State scripted :=
  @NewSyslogAdapter scripted plainOnly env r
    (scriptedState 10 "" (mkScript [] [Ok c])).

Definition adapterFor (env : Env) (r : Route) (c : Conn) : @Adapter scripted :=
  match fst (build env r c) with
  | Ok a => a
  | Err _ => @mkAdapter scripted c r [] tt
  end.

(** What [sampleMessage] renders to under the defaults. *)
Definition sampleLine : string :=
  "<14>1 2024-01-02T03:04:05Z host1 web-1 4242 - - hello" ++ String LF "".

(** A record of a container without a name: [{{.ContainerName}}] fails. *)
Definition namelessMessage : Message :=
  mkMessage (mkContainer "" "host1" 4242) "stdout" "hello" sampleTime noRest.

(** A route with an append_tag option. *)
Definition taggedRoute : Route :=
  mkRoute "syslog" "10.0.0.1:514" [("append_tag", ".prod")].

(** A record of a container with a long name, as an orchestrator gives. *)
Definition longName : string :=
  "k8s_nginx-ingress-controller_nginx-ingress-controller-7d9f8b6c4-x2x9k_prod_0".

Definition longNameMessage : Message :=
  mkMessage (mkContainer ("/" ++ longName) "host1" 4242) "stdout" "hello"
    sampleTime noRest.

(** The two bytes of U+00E9, and a text repeated. *)
Definition eAcute : string := String "195"%char (String "169"%char "").

Fixpoint repeatString (n : nat) (s : string) : string :=
  match n with
  | O => EmptyString
  | S n' => s ++ repeatString n' s
  end.

(** An operation that fails [k] times and then succeeds; its state counts
    its invocations. *)
Definition flaky (k : nat) : nat -> option error * nat :=
  fun n => (if (n <? k)%nat then Some timeoutErr else None, S n).

(** A route whose append_tag option holds an action. *)
Definition actionRoute : Route :=
  mkRoute "syslog" "10.0.0.1:514" [("append_tag", "{{.Data}}")].

(** An error with the mark of a timeout that is not a [*net.OpError]. *)
Definition foreignTimeout : error := ErrNet false true "i/o timeout".

(* ================================================================= *)
(** * Properties *)

(** ** Priority *)

(** C9. The priority of a record depends on its source alone: 14
    (user.info) for "stdout", 11 (user.err) for "stderr", 30 (daemon.info)
    for every other source. *)
Theorem Priority_of_source (m : Message) :
  (Message_Source m = "stdout" -> Priority m = 14)
  /\ (Message_Source m = "stderr" -> Priority m = 11)
  /\ (Message_Source m <> "stdout" -> Message_Source m <> "stderr" ->
      Priority m = 30)
  /\ (forall m', Message_Source m' = Message_Source m ->
                 Priority m' = Priority m).
Proof.
  unfold Priority. repeat split.
  - intros ->. reflexivity.
  - intros ->. reflexivity.
  - intros Hout Herr.
    destruct (String.eqb_spec (Message_Source m) "stdout"); [contradiction|].
    destruct (String.eqb_spec (Message_Source m) "stderr"); [contradiction|].
    reflexivity.
  - intros m' ->. reflexivity.
Qed.

Lemma Priority_of_source_witness :
  Priority (mkMessage (mkContainer "/web-1" "host1" 4242) "stdout" "hello"
              (mkTime 2024 1 2 3 4 5 0) noRest) = 14
  /\ Priority (mkMessage (mkContainer "/web-1" "host1" 4242) "stderr" "oops"
                 (mkTime 2024 1 2 3 4 5 0) noRest) = 11
  /\ Priority (mkMessage (mkContainer "/web-1" "host1" 4242) "syslog" "x"
                 (mkTime 2024 1 2 3 4 5 0) noRest) = 30.
Proof.
  split; [|split].
  - apply (Priority_of_source _); reflexivity.
  - apply (Priority_of_source _); reflexivity.
  - apply (Priority_of_source _); simpl; discriminate.
Defined.

(** ** The retry budget *)

Lemma Atoi_range (s : string) (n : Z) :
  Atoi s = Some n -> minInt <= n <= maxInt.
Proof.
  unfold Atoi. destruct s as [|c r]; [discriminate|].
  cbv zeta.
  destruct (if (Ascii.eqb c "-" || Ascii.eqb c "+")%bool then r else String c r);
    [discriminate|].
  destruct (parseDigits _ 0) as [v|]; [|discriminate].
  destruct (andb _ _) eqn:E; [|discriminate].
  intros [= <-]. apply andb_true_iff in E. lia.
Qed.

(** C10. A RETRY_COUNT that parses as a negative [n] is stored as
    [uint(n)], that is [2^64 + n], a budget of at least [2^63]; "-1" gives
    [2^64 - 1]; a value that does not parse gives the default, 10. *)
Theorem setRetryCount_negative (env : Env) (g : Globals) :
  (forall n, Atoi (GetEnvDefault env "RETRY_COUNT" "10") = Some n -> n < 0 ->
     retryCount (setRetryCount env g) = n mod 2 ^ 64
     /\ retryCount (setRetryCount env g) = 2 ^ 64 + n
     /\ 2 ^ 63 <= retryCount (setRetryCount env g) <= maxUint)
  /\ (Getenv env "RETRY_COUNT" = "-1" ->
      retryCount (setRetryCount env g) = 2 ^ 64 - 1)
  /\ (Atoi (GetEnvDefault env "RETRY_COUNT" "10") = None ->
      retryCount (setRetryCount env g) = 10).
Proof.
  unfold setRetryCount.
  change (Itoa defaultRetryCount) with "10".
  split; [|split].
  - intros n Hn Hneg. rewrite Hn. cbn [retryCount].
    pose proof (Atoi_range _ _ Hn) as Hr.
    unfold minInt, maxInt, uintSize in Hr.
    unfold uint, maxUint, uintSize.
    assert (Hm : n mod 2 ^ 64 = 2 ^ 64 + n).
    { symmetry. apply Z.mod_unique with (q := -1); lia. }
    rewrite Hm. lia.
  - intros H. unfold GetEnvDefault. rewrite H. reflexivity.
  - intros ->. reflexivity.
Qed.

Lemma setRetryCount_negative_witness :
  retryCount (setRetryCount (setenv "RETRY_COUNT" "-5" noEnv)
                (mkGlobals "box" 0 "")) = 18446744073709551611
  /\ retryCount (setRetryCount (setenv "RETRY_COUNT" "-1" noEnv)
                   (mkGlobals "box" 0 "")) = 18446744073709551615
  /\ retryCount (setRetryCount (setenv "RETRY_COUNT" "ten" noEnv)
                   (mkGlobals "box" 0 "")) = 10.
Proof.
  split; [|split].
  - apply (proj1 (setRetryCount_negative _ _) (-5)); [reflexivity | lia].
  - apply (proj1 (proj2 (setRetryCount_negative _ _))); reflexivity.
  - apply (proj2 (proj2 (setRetryCount_negative _ _))); reflexivity.
Defined.

(** ** The retry loop *)

Lemma gtb_false (a b : Z) : a <= b -> (a >? b) = false.
Proof. intros H. rewrite Z.gtb_ltb. apply Z.ltb_ge. exact H. Qed.

Lemma gtb_true (a b : Z) : b < a -> (a >? b) = true.
Proof. intros H. rewrite Z.gtb_ltb. apply Z.ltb_lt. exact H. Qed.

Lemma uintSucc_small (x : Z) : 0 <= x < maxUint -> uintSucc x = x + 1.
Proof.
  unfold uintSucc, maxUint, uintSize. intros H.
  apply Z.mod_small. lia.
Qed.

Lemma uintSucc_range (x : Z) : 0 <= uintSucc x <= maxUint.
Proof.
  unfold uintSucc, maxUint, uintSize.
  pose proof (Z.mod_pos_bound (x + 1) (2 ^ 64) ltac:(lia)). lia.
Qed.

Lemma errAt_succ {S : Type} (fn : S -> option error * S) (i : nat) (s : S) :
  errAt fn (Datatypes.S i) s = errAt fn i (snd (fn s)).
Proof. reflexivity. Qed.

Lemma after_succ_r {S : Type} (fn : S -> option error * S) (k : nat) (s : S) :
  after fn (Datatypes.S k) s = snd (fn (after fn k s)).
Proof.
  revert s. induction k as [|k IH]; intros s; [reflexivity|].
  change (after fn (Datatypes.S (Datatypes.S k)) s)
    with (after fn (Datatypes.S k) (snd (fn s))).
  rewrite IH. reflexivity.
Qed.

(** [j] failures below the budget are [j] turns of the loop. *)
Lemma retryExpLoop_failures {S : Type} (fn : S -> option error * S)
  (tries : Z) (j : nat) :
  tries <= maxUint ->
  forall (fuel : nat) (try : Z) (s : S),
    0 <= try -> try + Z.of_nat j <= tries ->
    (forall i, (i < j)%nat -> errAt fn i s <> None) ->
    retryExpLoop (j + fuel) fn tries try s
    = retryExpLoop fuel fn tries (try + Z.of_nat j) (after fn j s).
Proof.
  intros Hmax. induction j as [|j IH]; intros fuel try s Htry Hle Hfail.
  - cbn [Nat.add after]. f_equal. cbn. lia.
  - cbn [Nat.add retryExpLoop].
    pose proof (Hfail 0%nat ltac:(lia)) as H0. unfold errAt in H0.
    cbn [after] in H0 |- *.
    destruct (fn s) as [err s1] eqn:Efn. cbn [fst snd] in *.
    destruct err as [e|]; [|congruence].
    rewrite uintSucc_small by lia.
    rewrite gtb_false by lia.
    rewrite IH.
    + f_equal. lia.
    + lia.
    + lia.
    + intros i Hi. specialize (Hfail (Datatypes.S i) ltac:(lia)).
      rewrite errAt_succ, Efn in Hfail. exact Hfail.
Qed.

(** An operation that keeps failing is invoked [tries + 1] times and its
    last error is returned, for a budget below the largest [uint]. *)
Lemma retryExp_exhausts {S : Type} (fn : S -> option error * S)
  (tries : Z) (s : S) (fuel : nat) :
  0 <= tries < maxUint ->
  (forall i, (i <= Z.to_nat tries)%nat -> errAt fn i s <> None) ->
  (Z.to_nat tries < fuel)%nat ->
  exists e,
    errAt fn (Z.to_nat tries) s = Some e
    /\ retryExp fuel fn tries s
       = Some (Some e, after fn (Datatypes.S (Z.to_nat tries)) s).
Proof.
  intros Ht Hfail Hfuel.
  set (n := Z.to_nat tries) in *.
  destruct (errAt fn n s) as [e|] eqn:Ee;
    [|exfalso; apply (Hfail n); [lia | exact Ee]].
  exists e. split; [reflexivity|].
  unfold retryExp. change (uint 0) with 0.
  replace fuel with (n + Datatypes.S (fuel - Datatypes.S n))%nat by lia.
  rewrite retryExpLoop_failures; try lia.
  - cbn [retryExpLoop]. rewrite after_succ_r.
    unfold errAt in Ee.
    destruct (fn (after fn n s)) as [err s1]. cbn [fst snd] in *. subst err.
    replace (0 + Z.of_nat n) with tries by lia.
    rewrite uintSucc_small by lia.
    rewrite gtb_true by lia.
    reflexivity.
  - intros i Hi. apply Hfail. lia.
Qed.

(** An operation that first succeeds at its invocation number [k], within
    the budget, is invoked [k] times, for every budget. *)
Lemma retryExp_succeeds {S : Type} (fn : S -> option error * S)
  (tries : Z) (s : S) (k fuel : nat) :
  0 <= tries <= maxUint ->
  (0 < k)%nat -> Z.of_nat k <= tries + 1 ->
  (forall i, (i < k - 1)%nat -> errAt fn i s <> None) ->
  errAt fn (k - 1) s = None ->
  (k <= fuel)%nat ->
  retryExp fuel fn tries s = Some (None, after fn k s).
Proof.
  intros Ht Hk Hle Hfail Hok Hfuel.
  unfold retryExp. change (uint 0) with 0.
  replace fuel with ((k - 1) + Datatypes.S (fuel - k))%nat by lia.
  rewrite retryExpLoop_failures; try lia; [|exact Hfail].
  cbn [retryExpLoop].
  replace (after fn k s) with (after fn (Datatypes.S (k - 1)) s)
    by (f_equal; lia).
  rewrite after_succ_r. unfold errAt in Hok.
  destruct (fn (after fn (k - 1) s)) as [err s1]. cbn [fst snd] in *.
  subst err. reflexivity.
Qed.

Lemma after_counted {S : Type} (fn : S -> option error * S) (k : nat) :
  forall (s : S) (c : nat),
    after (counted fn) k (s, c) = (after fn k s, (c + k)%nat).
Proof.
  induction k as [|k IH]; intros s c.
  - cbn. f_equal. lia.
  - cbn [after]. unfold counted at 2. cbn [fst snd].
    destruct (fn s) as [err s1]. cbn [snd]. rewrite IH. f_equal. lia.
Qed.

Lemma errAt_counted {S : Type} (fn : S -> option error * S) (k : nat)
  (s : S) (c : nat) :
  errAt (counted fn) k (s, c) = errAt fn k s.
Proof.
  unfold errAt. rewrite after_counted. unfold counted. cbn [fst].
  destruct (fn (after fn k s)); reflexivity.
Qed.

(** The claim of the Retry Policy for every budget below [2^64 - 1]: a
    failing operation is invoked [tries + 1] times and its last error
    comes back; an operation that first succeeds at invocation [k], with
    [k <= tries + 1], is invoked [k] times. *)
Lemma retryExp_invocations {S : Type} (fn : S -> option error * S)
  (tries : Z) (s : S) :
  0 <= tries < maxUint ->
  ((forall i, errAt fn i s <> None) ->
   exists e,
     errAt fn (Z.to_nat tries) s = Some e
     /\ retryExp (Datatypes.S (Z.to_nat tries)) (counted fn) tries (s, 0%nat)
        = Some (Some e, (after fn (Datatypes.S (Z.to_nat tries)) s,
                         Datatypes.S (Z.to_nat tries))))
  /\ (forall k, (0 < k)%nat -> Z.of_nat k <= tries + 1 ->
        (forall i, (i < k - 1)%nat -> errAt fn i s <> None) ->
        errAt fn (k - 1) s = None ->
        retryExp k (counted fn) tries (s, 0%nat)
        = Some (None, (after fn k s, k))).
Proof.
  intros Ht. split.
  - intros Hfail.
    destruct (retryExp_exhausts (counted fn) tries (s, 0%nat)
                (Datatypes.S (Z.to_nat tries)) Ht) as [e [He Hr]].
    + intros i _. rewrite errAt_counted. apply Hfail.
    + lia.
    + exists e. rewrite errAt_counted in He. split; [exact He|].
      rewrite Hr, after_counted. reflexivity.
  - intros k Hk Hle Hfail Hok.
    rewrite (retryExp_succeeds (counted fn) tries (s, 0%nat) k k);
      try lia.
    + rewrite after_counted. reflexivity.
    + intros i Hi. rewrite errAt_counted. auto.
    + rewrite errAt_counted. exact Hok.
Qed.

Lemma retryExpLoop_failing_maxUint (e : error) (fuel : nat) :
  forall (try : Z) (st : unit * nat),
    0 <= try <= maxUint ->
    retryExpLoop fuel (counted (failing e)) maxUint try st = None.
Proof.
  induction fuel as [|fuel IH]; intros try st Htry; [reflexivity|].
  cbn [retryExpLoop]. unfold counted at 1, failing at 1.
  pose proof (uintSucc_range try) as Hr.
  rewrite gtb_false by lia.
  apply IH. exact Hr.
Qed.

(** C2. With the budget [2^64 - 1], the largest [uint], the counter wraps
    to 0 before it can exceed the budget: on an operation that fails on
    every invocation [retryExp] is still running after any number of
    turns, where the claim has it return after [2^64] invocations. *)
Theorem retryExp_maxUint_never_returns (e : error) (fuel : nat) :
  retryExp fuel (counted (failing e)) maxUint (tt, 0%nat) = None.
Proof.
  unfold retryExp. apply retryExpLoop_failing_maxUint.
  unfold uint, maxUint, uintSize. cbn. lia.
Qed.

(** ** Octet counting *)

Lemma parseDigits_string_of_uint (d : Decimal.uint) :
  forall acc, parseDigits (NilEmpty.string_of_uint d) acc = Some (uintVal d acc).
Proof.
  induction d; intros acc; cbn [NilEmpty.string_of_uint parseDigits uintVal];
    [reflexivity | ..];
    match goal with
    | |- context [digitVal ?c] => change (digitVal c) with (Some (byteOf c - 48))
    end; apply IHd.
Qed.

Lemma uintVal_pos (d : Decimal.uint) :
  forall p, uintVal d (Z.pos p) = Z.pos (Pos.of_uint_acc d p).
Proof.
  induction d; intros p; cbn [uintVal Pos.of_uint_acc]; [reflexivity | ..];
    rewrite <- IHd; f_equal; lia.
Qed.

Lemma uintVal_0 (d : Decimal.uint) : uintVal d 0 = Z.of_N (Pos.of_uint d).
Proof.
  induction d; cbn [uintVal Pos.of_uint]; [reflexivity | exact IHd | ..];
    cbn [Z.mul Z.add Z.of_N]; apply uintVal_pos.
Qed.

Lemma parseDigits_utoa (n : N) : parseDigits (utoa n) 0 = Some (Z.of_N n).
Proof.
  unfold utoa. rewrite parseDigits_string_of_uint, uintVal_0.
  change (Pos.of_uint (N.to_uint n)) with (N.of_uint (N.to_uint n)).
  rewrite DecimalN.Unsigned.of_to. reflexivity.
Qed.

Lemma cutSpace_string_of_uint (d : Decimal.uint) (b : string) :
  cutSpace (NilEmpty.string_of_uint d ++ String " " b)
  = Some (NilEmpty.string_of_uint d, b).
Proof.
  induction d; cbn [NilEmpty.string_of_uint append cutSpace];
    [reflexivity | ..];
    match goal with
    | |- context [Ascii.eqb ?c " "] => change (Ascii.eqb c " ") with false
    end; cbv iota; rewrite IHd; reflexivity.
Qed.

Lemma utoa_nonempty (n : N) : utoa n <> EmptyString.
Proof.
  unfold utoa. destruct n as [|p]; [discriminate|].
  cbn [N.to_uint]. pose proof (DecimalPos.Unsigned.to_uint_nonnil p) as H.
  destruct (Pos.to_uint p); [congruence | discriminate..].
Qed.

Lemma Itoa_of_nat (n : nat) : Itoa (Z.of_nat n) = utoa (N.of_nat n).
Proof.
  unfold Itoa. destruct (Z.ltb_spec (Z.of_nat n) 0); [lia|].
  f_equal. lia.
Qed.

(** A frame of octet counting decodes to the length of the message and the
    message. *)
Lemma unframe_octet_counted (b : string) :
  unframe (Itoa (Z.of_nat (String.length b)) ++ " " ++ b)
  = Some (Z.of_nat (String.length b), b).
Proof.
  rewrite Itoa_of_nat. unfold unframe.
  change (" " ++ b) with (String " " b).
  unfold utoa at 1. rewrite cutSpace_string_of_uint.
  fold (utoa (N.of_nat (String.length b))).
  pose proof (utoa_nonempty (N.of_nat (String.length b))) as Hne.
  destruct (utoa (N.of_nat (String.length b))) eqn:E; [congruence|].
  rewrite <- E, parseDigits_utoa. do 2 f_equal. lia.
Qed.

(** ** Writes, dials and the two retry loops *)

Section Recovery.

Context {net : Network} {eng : Engine}.
Local Open Scope list_scope.

Lemma connWrite_spec (c : Conn) (buf : string) (s s' : State)
  (err : option error) :
  connWrite c buf s = (err, s') ->
  globals s' = globals s /\ trace s' = trace s ++ [EvWrite c buf err].
Proof.
  unfold connWrite. destruct (Write c buf (world s)) as [e w].
  intros [= <- <-]. split; reflexivity.
Qed.

Lemma transportDial_spec (t : Transport) (r : Route) (s s' : State)
  (res : result error Conn) :
  transportDial t r s = (res, s') ->
  globals s' = globals s /\ trace s' = trace s ++ [EvDial res].
Proof.
  unfold transportDial.
  destruct (Dial t (Route_Address r) (Route_Options r) (world s)) as [d w].
  intros [= <- <-]. split; reflexivity.
Qed.

(** The counter after a failure, within a budget. *)
Lemma uintSucc_step (tries try : Z) :
  isUint tries -> 0 <= try <= tries ->
  (uintSucc try >? tries) = false ->
  0 <= uintSucc try <= tries
  /\ (tries < maxUint -> uintSucc try = try + 1).
Proof.
  intros Ht Htry Hgt. rewrite Z.gtb_ltb in Hgt. apply Z.ltb_ge in Hgt.
  pose proof (uintSucc_range try). split; [lia|].
  intros Hlt. apply uintSucc_small. lia.
Qed.

Lemma uintSucc_stop (tries try : Z) :
  isUint tries -> 0 <= try <= tries ->
  (uintSucc try >? tries) = true -> try = tries /\ tries < maxUint.
Proof.
  intros Ht Htry Hgt. rewrite Z.gtb_ltb in Hgt. apply Z.ltb_lt in Hgt.
  pose proof (uintSucc_range try) as Hr. unfold isUint in Ht.
  assert (try < maxUint) by lia.
  rewrite uintSucc_small in Hgt by lia. lia.
Qed.

(** With the largest budget the loop returns no error. *)
Lemma retryExpLoop_maxUint {S : Type} (fn : S -> option error * S)
  (fuel : nat) :
  forall (try : Z) (s s' : S) (res : option error),
    retryExpLoop fuel fn maxUint try s = Some (res, s') -> res = None.
Proof.
  induction fuel as [|fuel IH]; intros try s s' res H; [discriminate|].
  cbn [retryExpLoop] in H. destruct (fn s) as [[e|] s1].
  - rewrite gtb_false in H by apply uintSucc_range.
    apply IH in H. exact H.
  - injection H as <- _. reflexivity.
Qed.

Lemma writeAgain_loop (buf : string) (tries : Z) (fuel : nat) :
  forall (try : Z) (a a' : Adapter) (s s' : State) (res : option error),
    retryExpLoop fuel (writeAgain buf) tries try (a, s) = Some (res, (a', s')) ->
    a' = a /\ globals s' = globals s
    /\ exists errs,
        trace s' = trace s ++ failedWrites (conn a) buf errs
                             ++ [EvWrite (conn a) buf res]
        /\ (tries < maxUint -> 0 <= try <= tries ->
            try + Z.of_nat (List.length errs) <= tries
            /\ (res <> None -> try + Z.of_nat (List.length errs) = tries)).
Proof.
  induction fuel as [|fuel IH]; intros try a a' s s' res H; [discriminate|].
  cbn [retryExpLoop] in H. unfold writeAgain at 1 in H.
  destruct (connWrite (conn a) buf s) as [err s1] eqn:Ew.
  apply connWrite_spec in Ew. destruct Ew as [Hg Htr].
  destruct err as [e|].
  - destruct (uintSucc try >? tries) eqn:Hgt.
    + injection H as <- <- <-. repeat split; [assumption|].
      exists []. cbn [failedWrites map List.length List.app].
      split; [assumption|]. intros Hlt Htry.
      rewrite uintSucc_small in Hgt by lia.
      rewrite Z.gtb_ltb in Hgt. apply Z.ltb_lt in Hgt. lia.
    + apply IH in H. destruct H as (-> & Hg' & errs & Htr' & Hcount).
      repeat split; [congruence|].
      exists (e :: errs). cbn [failedWrites map List.length].
      rewrite Htr', Htr, <- app_assoc. split; [reflexivity|].
      intros Hlt Htry.
      rewrite uintSucc_small in Hgt, Hcount by lia.
      rewrite Z.gtb_ltb in Hgt. apply Z.ltb_ge in Hgt.
      specialize (Hcount Hlt ltac:(lia)). destruct Hcount as [Hle Hex].
      split; [lia|]. intros Hn. specialize (Hex Hn). lia.
  - injection H as <- <- <-. repeat split; [assumption|].
    exists []. cbn [failedWrites map List.length List.app].
    split; [assumption|]. intros Hlt Htry. split; [lia | congruence].
Qed.

(** Dialing again leaves the settings, and the adapter but for its
    connection, which is the one of the dial that succeeded. *)
Lemma dialAgain_loop (tries : Z) (fuel : nat) :
  forall (try : Z) (a a' : Adapter) (s s' : State) (res : option error),
    retryExpLoop fuel dialAgain tries try (a, s) = Some (res, (a', s')) ->
    sameButConn a a' /\ globals s' = globals s
    /\ exists derrs last,
        trace s' = trace s ++ failedDials derrs ++ [EvDial last]
        /\ match res with
           | None => last = Ok (conn a')
           | Some e => last = Err e /\ a' = a
           end
        /\ (tries < maxUint -> 0 <= try <= tries ->
            try + Z.of_nat (List.length derrs) <= tries
            /\ (res <> None -> try + Z.of_nat (List.length derrs) = tries)).
Proof.
  induction fuel as [|fuel IH]; intros try a a' s s' res H; [discriminate|].
  cbn [retryExpLoop] in H. unfold dialAgain at 1 in H.
  destruct (transportDial (transport a) (route a) s) as [d s1] eqn:Ed.
  apply transportDial_spec in Ed. destruct Ed as [Hg Htr].
  destruct d as [c|e].
  - injection H as <- <- <-.
    split; [unfold sameButConn; cbn; auto|]. split; [assumption|].
    exists [], (Ok c). cbn [failedDials map List.length List.app conn].
    split; [assumption|]. split; [reflexivity|].
    intros Hlt Htry. split; [lia | congruence].
  - destruct (uintSucc try >? tries) eqn:Hgt.
    + injection H as <- <- <-.
      split; [unfold sameButConn; auto|]. split; [assumption|].
      exists [], (Err e). cbn [failedDials map List.length List.app].
      split; [assumption|]. split; [auto|].
      intros Hlt Htry. rewrite uintSucc_small in Hgt by lia.
      rewrite Z.gtb_ltb in Hgt. apply Z.ltb_lt in Hgt. lia.
    + apply IH in H.
      destruct H as (Hsame & Hg' & derrs & last & Htr' & Hres & Hcount).
      split; [exact Hsame|]. split; [congruence|].
      exists (e :: derrs), last. cbn [failedDials map List.length].
      rewrite Htr', Htr, <- app_assoc.
      split; [reflexivity|]. split; [exact Hres|].
      intros Hlt Htry.
      rewrite uintSucc_small in Hgt, Hcount by lia.
      rewrite Z.gtb_ltb in Hgt. apply Z.ltb_ge in Hgt.
      specialize (Hcount Hlt ltac:(lia)). destruct Hcount as [Hle Hex].
      split; [lia|]. intros Hn. specialize (Hex Hn). lia.
Qed.

(** With a budget below the largest [uint] the loop returns within
    [tries - try + 1] turns. *)
Lemma retryExpLoop_returns {S : Type} (fn : S -> option error * S)
  (tries : Z) (fuel : nat) :
  tries < maxUint ->
  forall (try : Z) (s : S),
    0 <= try <= tries -> (Z.to_nat (tries - try) < fuel)%nat ->
    exists r, retryExpLoop fuel fn tries try s = Some r.
Proof.
  intros Ht. induction fuel as [|fuel IH]; intros try s Htry Hfuel; [lia|].
  cbn [retryExpLoop]. destruct (fn s) as [[e|] s1]; [|eauto].
  rewrite uintSucc_small by lia.
  destruct (try + 1 >? tries) eqn:Hgt; [eauto|].
  rewrite Z.gtb_ltb in Hgt. apply Z.ltb_ge in Hgt.
  apply IH; lia.
Qed.

Lemma failedWrites_snoc (c : Conn) (buf : string) (errs : list error)
  (e : error) :
  failedWrites c buf errs ++ [EvWrite c buf (Some e)]
  = failedWrites c buf (errs ++ [e]).
Proof. unfold failedWrites. rewrite map_app. reflexivity. Qed.

Lemma reconnectAndWrite_spec (fuel : nat) (buf : string) (a a' : Adapter)
  (s s' : State) (res : option error) :
  isUint (retryCount (globals s)) ->
  reconnectAndWrite fuel buf a s = Some (res, (a', s')) ->
  sameButConn a a' /\ globals s' = globals s
  /\ exists derrs,
      (retryCount (globals s) < maxUint ->
       Z.of_nat (List.length derrs) <= retryCount (globals s))
      /\ (trace s' = trace s ++ failedDials derrs
                              ++ [EvDial (Ok (conn a'));
                                  EvWrite (conn a') buf res]
          \/ exists e,
               res = Some e /\ a' = a
               /\ Z.of_nat (List.length derrs) = retryCount (globals s)
               /\ trace s' = trace s ++ failedDials derrs ++ [EvDial (Err e)]).
Proof.
  intros Hu H. unfold reconnectAndWrite, reconnect, retryExp in H.
  change (uint 0) with 0 in H.
  destruct (retryExpLoop fuel dialAgain (retryCount (globals s)) 0 (a, s))
    as [[[e|] [a1 s1]]|] eqn:El; [| |discriminate].
  - injection H as <- <- <-.
    assert (Hlt : retryCount (globals s) < maxUint).
    { destruct Hu as [_ Hu].
      assert (retryCount (globals s) < maxUint
              \/ retryCount (globals s) = maxUint) as [?|Heq] by lia;
        [assumption|].
      rewrite Heq in El. apply retryExpLoop_maxUint in El. discriminate. }
    apply dialAgain_loop in El.
    destruct El as (Hsame & Hg & derrs & last & Htr & [-> ->] & Hcount).
    destruct Hu as [Hu0 _].
    destruct (Hcount Hlt ltac:(lia)) as [Hle Hex].
    specialize (Hex ltac:(discriminate)).
    split; [exact Hsame|]. split; [exact Hg|].
    exists derrs. split; [lia|]. right. exists e. repeat split; [lia | exact Htr].
  - apply dialAgain_loop in El.
    destruct El as (Hsame & Hg & derrs & last & Htr & -> & Hcount).
    destruct (connWrite (conn a1) buf s1) as [err s2] eqn:Ew.
    apply connWrite_spec in Ew. destruct Ew as [Hg2 Htr2].
    injection H as <- <- <-.
    split; [exact Hsame|]. split; [congruence|].
    exists derrs. split.
    + intros Hlt. destruct Hu as [Hu0 _].
      destruct (Hcount Hlt ltac:(lia)) as [Hle _]. lia.
    + left. rewrite Htr2, Htr, <- !app_assoc. reflexivity.
Qed.

(** One recovery: what [retry] does and how it ends. *)
Lemma retry_Recovery (fuel : nat) (buf : string) (err : error)
  (a a' : Adapter) (s s' : State) (res : option error) :
  isUint (retryCount (globals s)) ->
  retry fuel buf err a s = Some (res, (a', s')) ->
  sameButConn a a' /\ globals s' = globals s
  /\ exists evs,
      trace s' = trace s ++ evs
      /\ Recovery (retryCount (globals s)) (conn a) buf (retryInPlace err)
           evs res (conn a').
Proof.
  intros Hu H. unfold retry in H.
  assert (Hreconn : forall errs a1 s1,
    a1 = a -> globals s1 = globals s ->
    trace s1 = trace s ++ failedWrites (conn a) buf errs ->
    (if retryInPlace err
     then Z.of_nat (List.length errs) = retryCount (globals s) + 1
     else errs = []) ->
    reconnectAndWrite fuel buf a1 s1 = Some (res, (a', s')) ->
    sameButConn a a' /\ globals s' = globals s
    /\ exists evs,
        trace s' = trace s ++ evs
        /\ Recovery (retryCount (globals s)) (conn a) buf (retryInPlace err)
             evs res (conn a')).
  { intros errs a1 s1 -> Hg1 Htr1 Herrs Hr.
    apply reconnectAndWrite_spec in Hr; [|rewrite Hg1; exact Hu].
    destruct Hr as (Hsame & Hg & derrs & Hle & Hcase). rewrite Hg1 in *.
    split; [exact Hsame|]. split; [exact Hg|].
    destruct Hcase as [Htr | (e & -> & -> & Hlen & Htr)].
    - eexists. split; [rewrite Htr, Htr1, <- app_assoc; reflexivity|].
      apply Reconnected; assumption.
    - eexists. split; [rewrite Htr, Htr1, <- app_assoc; reflexivity|].
      apply DialingExhausted; assumption. }
  destruct (retryInPlace err) eqn:Ein.
  - unfold retryTemporary, retryExp in H. change (uint 0) with 0 in H.
    destruct (retryExpLoop fuel (writeAgain buf) (retryCount (globals s)) 0
                (a, s)) as [[[e|] [a1 s1]]|] eqn:El; [| |discriminate].
    + assert (Hlt : retryCount (globals s) < maxUint).
      { destruct Hu as [_ Hu].
        assert (retryCount (globals s) < maxUint
                \/ retryCount (globals s) = maxUint) as [?|Heq] by lia;
          [assumption|].
        rewrite Heq in El. apply retryExpLoop_maxUint in El. discriminate. }
      apply writeAgain_loop in El.
      destruct El as (-> & Hg & errs & Htr & Hcount).
      destruct Hu as [Hu0 Hu1].
      destruct (Hcount Hlt ltac:(lia)) as [_ Hex].
      specialize (Hex ltac:(discriminate)).
      apply (Hreconn (errs ++ [e]) a s1); try assumption; try reflexivity.
      * rewrite Htr, <- failedWrites_snoc. reflexivity.
      * rewrite length_app. cbn [List.length]. lia.
    + injection H as <- <- <-.
      apply writeAgain_loop in El.
      destruct El as (-> & Hg & errs & Htr & Hcount).
      split; [unfold sameButConn; auto|]. split; [exact Hg|].
      eexists. split; [exact Htr|].
      apply RetriedInPlace. intros Hlt. destruct Hu as [Hu0 _].
      destruct (Hcount Hlt ltac:(lia)) as [Hle _]. lia.
  - apply (Hreconn [] a s); try reflexivity; try assumption.
    cbn [failedWrites map]. rewrite app_nil_r. reflexivity.
Qed.

(** With a budget below the largest [uint], one recovery returns on fuel
    above the budget. *)
Lemma retry_returns (fuel : nat) (buf : string) (err : error)
  (a : Adapter) (s : State) :
  0 <= retryCount (globals s) < maxUint ->
  (Z.to_nat (retryCount (globals s)) < fuel)%nat ->
  exists r, retry fuel buf err a s = Some r.
Proof.
  intros Hu Hfuel.
  assert (Hre : forall a1 s1, globals s1 = globals s ->
            exists r, reconnectAndWrite fuel buf a1 s1 = Some r).
  { intros a1 s1 Hg. unfold reconnectAndWrite, reconnect, retryExp.
    change (uint 0) with 0. rewrite Hg.
    destruct (retryExpLoop_returns dialAgain (retryCount (globals s)) fuel
                ltac:(lia) 0 (a1, s1) ltac:(lia)) as [[r [a2 s2]] ->];
      [rewrite Z.sub_0_r; exact Hfuel|].
    destruct r; [eauto|].
    destruct (connWrite (conn a2) buf s2). eauto. }
  unfold retry. destruct (retryInPlace err); [|apply Hre; reflexivity].
  unfold retryTemporary, retryExp. change (uint 0) with 0.
  destruct (retryExpLoop_returns (writeAgain buf) (retryCount (globals s)) fuel
              ltac:(lia) 0 (a, s) ltac:(lia)) as [[r [a2 s2]] Hr];
    [rewrite Z.sub_0_r; exact Hfuel|].
  rewrite Hr. destruct r; [|eauto].
  apply writeAgain_loop in Hr. destruct Hr as (_ & Hg & _).
  apply Hre. exact Hg.
Qed.

End Recovery.

(** ** The stream loop *)

Section StreamLoop.

Context {net : Network} {eng : Engine}.
Local Open Scope list_scope.

Lemma Stream_app (fuel : nat) (pre post : list Message) :
  forall (a : Adapter) (s : State),
    Stream fuel a (pre ++ post) s
    = match Stream fuel a pre s with
      | Some (Closed, (a', s')) => Stream fuel a' post s'
      | r => r
      end.
Proof.
  induction pre as [|m pre IH]; intros a s; [destruct (Stream fuel a post s) as [[[] []]|]; reflexivity|].
  rewrite <- app_comm_cons. cbn [Stream].
  destruct (Render (globals s) m (tmpl a)) as [buf|e]; [|reflexivity].
  destruct (framed (conn a) (tcpFraming (globals s)) buf) as [fb|v];
    [|reflexivity].
  destruct (connWrite (conn a) fb s) as [[err|] s1]; [|apply IH].
  destruct (connKind (conn a)); try apply IH;
    destruct (retry fuel fb err a s1) as [[[e|] [a2 s2]]|];
    try reflexivity; apply IH.
Qed.

(** C6. When rendering a record fails, the loop ends there: the state is
    the one the records before it left, so nothing is written for the
    record and none of the records after it is looked at. *)
Theorem Stream_stops_at_render_error (fuel : nat) (a a' : Adapter)
  (pre rest : list Message) (m : Message) (s s' : State) (e : error) :
  Stream fuel a pre s = Some (Closed, (a', s')) ->
  Render (globals s') m (tmpl a') = Err e ->
  Stream fuel a (pre ++ m :: rest) s = Some (RenderFailed e, (a', s')).
Proof.
  intros Hpre Hrender. rewrite Stream_app, Hpre.
  cbn [Stream]. rewrite Hrender. reflexivity.
Qed.

Lemma framed_datagram (c : Conn) (framing buf : string) :
  connKind c = UDPConn -> framed c framing buf = Ok buf.
Proof. unfold framed, isTCPConnecion. intros ->. reflexivity. Qed.

(** C5. On a UDP connection the loop makes one write for each record it
    renders, in order and whatever the writes return, and nothing else: no
    write is repeated, nothing is dialed and the adapter keeps its
    connection.  It ends when the channel is closed, or at a record that
    does not render. *)
Theorem Stream_datagram (fuel : nat) (a : Adapter) (msgs : list Message) :
  connKind (conn a) = UDPConn ->
  forall s : State,
  exists out s' results,
    Stream fuel a msgs s = Some (out, (a, s'))
    /\ globals s' = globals s
    /\ trace s' = trace s ++ writesOn (conn a) results
    /\ match out with
       | Closed =>
           Forall2 (fun m br => Render (globals s) m (tmpl a) = Ok (fst br))
             msgs results
       | RenderFailed e =>
           exists pre m post,
             msgs = pre ++ m :: post
             /\ Forall2 (fun m br =>
                           Render (globals s) m (tmpl a) = Ok (fst br))
                  pre results
             /\ Render (globals s) m (tmpl a) = Err e
       | _ => False
       end.
Proof.
  intros Hudp. induction msgs as [|m msgs IH]; intros s.
  - exists Closed, s, []. cbn [Stream writesOn map].
    rewrite app_nil_r. repeat split. constructor.
  - cbn [Stream].
    destruct (Render (globals s) m (tmpl a)) as [buf|e] eqn:Er.
    + rewrite framed_datagram by exact Hudp.
      destruct (connWrite (conn a) buf s) as [err s1] eqn:Ew.
      apply connWrite_spec in Ew. destruct Ew as [Hg Htr].
      destruct (IH s1) as (out & s' & results & Hs & Hg' & Htr' & Hout).
      exists out, s', ((buf, err) :: results).
      rewrite Hudp.
      split; [destruct err; exact Hs|]. split; [congruence|].
      split; [rewrite Htr', Htr, <- app_assoc; reflexivity|].
      rewrite Hg in Hout. destruct out; try assumption.
      * constructor; [exact Er | exact Hout].
      * destruct Hout as (pre & m' & post & -> & Hpre & Hm').
        exists (m :: pre), m', post. repeat split; [|exact Hm'].
        constructor; [exact Er | exact Hpre].
    + exists (RenderFailed e), s, []. cbn [writesOn map].
      rewrite app_nil_r. repeat split.
      exists [], m, msgs. repeat split; [constructor | exact Er].
Qed.

Lemma sameButConn_trans (a b c : Adapter) :
  sameButConn a b -> sameButConn b c -> sameButConn a c.
Proof.
  unfold sameButConn. intros (? & ? & ?) (? & ? & ?).
  repeat split; congruence.
Qed.

(** The loop only adds to the trace, and leaves the settings and the
    adapter but for its connection. *)
Lemma Stream_extends (fuel : nat) (msgs : list Message) :
  forall (a a' : Adapter) (s s' : State) (out : Outcome),
    isUint (retryCount (globals s)) ->
    Stream fuel a msgs s = Some (out, (a', s')) ->
    sameButConn a a' /\ globals s' = globals s
    /\ exists evs, trace s' = trace s ++ evs.
Proof.
  induction msgs as [|m msgs IH]; intros a a' s s' out Hu H.
  - injection H as <- <- <-. repeat split. exists []. now rewrite app_nil_r.
  - cbn [Stream] in H.
    destruct (Render (globals s) m (tmpl a)) as [buf|e];
      [|injection H as <- <- <-; repeat split; exists [];
        now rewrite app_nil_r].
    destruct (framed (conn a) (tcpFraming (globals s)) buf) as [fb|v];
      [|injection H as <- <- <-; repeat split; exists [];
        now rewrite app_nil_r].
    destruct (connWrite (conn a) fb s) as [err s1] eqn:Ew.
    apply connWrite_spec in Ew. destruct Ew as [Hg Htr].
    assert (Hnext : forall a2 s2 evs2,
              sameButConn a a2 -> globals s2 = globals s ->
              trace s2 = trace s1 ++ evs2 ->
              Stream fuel a2 msgs s2 = Some (out, (a', s')) ->
              sameButConn a a' /\ globals s' = globals s
              /\ exists evs, trace s' = trace s ++ evs).
    { intros a2 s2 evs2 Hsame Hg2 Htr2 Hs.
      apply IH in Hs; [|rewrite Hg2; exact Hu].
      destruct Hs as (Hsame' & Hg' & evs & Htr').
      split; [eapply sameButConn_trans; eassumption|].
      split; [congruence|].
      eexists. rewrite Htr', Htr2, Htr, <- !app_assoc. reflexivity. }
    assert (Hhere : sameButConn a a) by (unfold sameButConn; auto).
    destruct err as [err|];
      [|apply (Hnext a s1 []); auto; now rewrite app_nil_r].
    assert (Hretry :
      match retry fuel fb err a s1 with
      | Some (Some err0, as_) => Some (RetryPanic err0, as_)
      | Some (None, (a0, s0)) => Stream fuel a0 msgs s0
      | None => None
      end = Some (out, (a', s')) ->
      sameButConn a a' /\ globals s' = globals s
      /\ exists evs, trace s' = trace s ++ evs).
    { clear H. intros H.
      destruct (retry fuel fb err a s1) as [[res [a2 s2]]|] eqn:Er;
        [|discriminate].
      apply retry_Recovery in Er; [|rewrite Hg; exact Hu].
      destruct Er as (Hsame & Hg2 & evs & Htr2 & _).
      destruct res as [e|].
      - injection H as <- <- <-. split; [exact Hsame|].
        split; [congruence|].
        eexists. rewrite Htr2, Htr, <- app_assoc. reflexivity.
      - apply (Hnext a2 s2 evs); auto. congruence. }
    destruct (connKind (conn a)); try (apply Hretry; exact H).
    apply (Hnext a s1 []); auto. now rewrite app_nil_r.
Qed.

(** With a budget below the largest [uint] the loop returns, on fuel above
    the budget. *)
Lemma Stream_returns (fuel : nat) (msgs : list Message) :
  forall (a : Adapter) (s : State),
    0 <= retryCount (globals s) < maxUint ->
    (Z.to_nat (retryCount (globals s)) < fuel)%nat ->
    exists r, Stream fuel a msgs s = Some r.
Proof.
  induction msgs as [|m msgs IH]; intros a s Hu Hfuel; [cbn; eauto|].
  cbn [Stream].
  destruct (Render (globals s) m (tmpl a)) as [buf|e]; [|eauto].
  destruct (framed (conn a) (tcpFraming (globals s)) buf) as [fb|v]; [|eauto].
  destruct (connWrite (conn a) fb s) as [err s1] eqn:Ew.
  apply connWrite_spec in Ew. destruct Ew as [Hg _].
  assert (Hnext : forall a2 s2, globals s2 = globals s ->
            exists r, Stream fuel a2 msgs s2 = Some r)
    by (intros a2 s2 Hg2; apply IH; rewrite Hg2; assumption).
  destruct err as [err|]; [|apply Hnext; exact Hg].
  assert (Hretry : exists r,
      match retry fuel fb err a s1 with
      | Some (Some err0, as_) => Some (RetryPanic err0, as_)
      | Some (None, (a0, s0)) => Stream fuel a0 msgs s0
      | None => None
      end = Some r).
  { destruct (retry_returns fuel fb err a s1) as [[res [a2 s2]] Hr];
      try (rewrite Hg; assumption).
    rewrite Hr. destruct res; [eauto|].
    apply retry_Recovery in Hr; [|rewrite Hg; unfold isUint; lia].
    destruct Hr as (_ & Hg2 & _). apply Hnext. congruence. }
  destruct (connKind (conn a)); try exact Hretry. apply Hnext. exact Hg.
Qed.

(** The first thing the loop does with a record that renders is to write
    its framed bytes on the connection of the adapter. *)
Lemma Stream_first_write (fuel : nat) (a a' : Adapter) (m : Message)
  (rest : list Message) (s s' : State) (out : Outcome) (b fb : string) :
  isUint (retryCount (globals s)) ->
  Render (globals s) m (tmpl a) = Ok b ->
  framed (conn a) (tcpFraming (globals s)) b = Ok fb ->
  Stream fuel a (m :: rest) s = Some (out, (a', s')) ->
  exists r evs, trace s' = trace s ++ EvWrite (conn a) fb r :: evs.
Proof.
  intros Hu Hr Hf H. cbn [Stream] in H. rewrite Hr, Hf in H.
  destruct (connWrite (conn a) fb s) as [err s1] eqn:Ew.
  apply connWrite_spec in Ew. destruct Ew as [Hg Htr].
  exists err.
  assert (Hnext : forall a2 s2 evs2,
            trace s2 = trace s1 ++ evs2 -> globals s2 = globals s ->
            Stream fuel a2 rest s2 = Some (out, (a', s')) ->
            exists evs, trace s' = trace s ++ EvWrite (conn a) fb err :: evs).
  { intros a2 s2 evs2 Htr2 Hg2 Hs.
    apply Stream_extends in Hs; [|rewrite Hg2; exact Hu].
    destruct Hs as (_ & _ & evs & Htr').
    exists (evs2 ++ evs).
    rewrite Htr', Htr2, Htr, <- !app_assoc. reflexivity. }
  destruct err as [err|];
    [|apply (Hnext a s1 []); auto; now rewrite app_nil_r].
  assert (Hretry :
    match retry fuel fb err a s1 with
    | Some (Some err0, as_) => Some (RetryPanic err0, as_)
    | Some (None, (a0, s0)) => Stream fuel a0 rest s0
    | None => None
    end = Some (out, (a', s')) ->
    exists evs, trace s' = trace s ++ EvWrite (conn a) fb (Some err) :: evs).
  { clear H. intros H.
    destruct (retry fuel fb err a s1) as [[res [a2 s2]]|] eqn:Er;
      [|discriminate].
    apply retry_Recovery in Er; [|rewrite Hg; exact Hu].
    destruct Er as (_ & Hg2 & evs & Htr2 & _).
    destruct res as [e|].
    - injection H as <- <- <-. exists evs.
      rewrite Htr2, Htr, <- app_assoc. reflexivity.
    - apply (Hnext a2 s2 evs); auto. congruence. }
  destruct (connKind (conn a)); try (apply Hretry; exact H).
  apply (Hnext a s1 []); auto. now rewrite app_nil_r.
Qed.

End StreamLoop.

(** ** Framing and recovery in the loop *)

(** C4. For a record that renders to [b], the bytes of the first write are
    the decimal length of [b], one space and [b] on a TCP or TLS connection
    with octet counting, and that frame decodes to the length of [b] and
    [b]; they are [b] with the traditional framing and on a UDP connection.
    The loop returns when the budget is below the largest [uint]. *)
Theorem Stream_writes_framed {net : Network} {eng : Engine}
  (fuel : nat) (a : Adapter)
  (m : Message) (rest : list Message) (s : State) (b : string) :
  isUint (retryCount (globals s)) ->
  Render (globals s) m (tmpl a) = Ok b ->
  let written (fb : string) :=
    forall out a' s',
      Stream fuel a (m :: rest) s = Some (out, (a', s')) ->
      exists r evs,
        trace s' = (trace s ++ EvWrite (conn a) fb r :: evs)%list in
  (isTCPConnecion (conn a) = true ->
   tcpFraming (globals s) = OctetCountedTCPFraming ->
   written (Itoa (Z.of_nat (String.length b)) ++ " " ++ b)
   /\ unframe (Itoa (Z.of_nat (String.length b)) ++ " " ++ b)
      = Some (Z.of_nat (String.length b), b))
  /\ (isTCPConnecion (conn a) = true ->
      tcpFraming (globals s) = TraditionalTCPFraming -> written b)
  /\ (connKind (conn a) = UDPConn -> written b)
  /\ (retryCount (globals s) < maxUint ->
      (Z.to_nat (retryCount (globals s)) < fuel)%nat ->
      exists r, Stream fuel a (m :: rest) s = Some r).
Proof.
  intros Hu Hr written. subst written. cbv beta.
  split; [|split; [|split]].
  - intros Htcp Hf. split; [|apply unframe_octet_counted].
    intros out a' s' H.
    eapply Stream_first_write; try eassumption.
    unfold framed. rewrite Htcp, Hf. reflexivity.
  - intros Htcp Hf out a' s' H.
    eapply Stream_first_write; try eassumption.
    unfold framed. rewrite Htcp, Hf. reflexivity.
  - intros Hudp out a' s' H.
    eapply Stream_first_write; try eassumption.
    apply framed_datagram. exact Hudp.
  - intros Hlt Hfuel. apply Stream_returns; [|exact Hfuel].
    unfold isUint in Hu. lia.
Qed.

(** C3. After a failed write of the framed bytes [fb] on a TCP or TLS
    connection, the write is retried in place exactly when the error is a
    [*net.OpError] that is marked as a timeout, or as temporary and is not
    a reset; the marks of an error of another type are not looked at.
    What follows is one recovery: the retries in place, on the same
    connection and within the
    budget, and, unless one of them succeeds, the dials, within the budget,
    then one write of [fb] on the connection dialed, which the adapter now
    owns.  If that write fails, or no dial succeeds, the loop ends in a
    panic there; otherwise it goes on with the next record.  The loop
    returns when the budget is below the largest [uint]. *)
Theorem Stream_recovers {net : Network} {eng : Engine} (fuel : nat)
  (a : Adapter) (m : Message) (rest : list Message) (s s1 : State) (b fb : string)
  (err : error) :
  isTCPConnecion (conn a) = true ->
  isUint (retryCount (globals s)) ->
  Render (globals s) m (tmpl a) = Ok b ->
  framed (conn a) (tcpFraming (globals s)) b = Ok fb ->
  connWrite (conn a) fb s = (Some err, s1) ->
  (retryInPlace err = true <->
   isOpError err = true
   /\ ((markedTemporary err = true /\ connectionReset err = false)
       \/ markedTimeout err = true))
  /\ (forall out a' s',
        Stream fuel a (m :: rest) s = Some (out, (a', s')) ->
        exists evs res a1 s2,
          sameButConn a a1 /\ globals s2 = globals s
          /\ trace s2 = (trace s1 ++ evs)%list
          /\ Recovery (retryCount (globals s)) (conn a) fb (retryInPlace err)
               evs res (conn a1)
          /\ match res with
             | Some e => out = RetryPanic e /\ a' = a1 /\ s' = s2
             | None => Stream fuel a1 rest s2 = Some (out, (a', s'))
             end)
  /\ (retryCount (globals s) < maxUint ->
      (Z.to_nat (retryCount (globals s)) < fuel)%nat ->
      exists r, Stream fuel a (m :: rest) s = Some r).
Proof.
  intros Htcp Hu Hr Hf Hw. split; [|split].
  - unfold retryInPlace, isOpError, markedTemporary, markedTimeout,
      connectionReset.
    destruct err as [op|tm to msg|msg| |c];
      try (split; [discriminate | intros [? _]; discriminate]).
    split.
    + intros H. split; [reflexivity|].
      apply orb_true_iff in H. destruct H as [H|H]; [left|right; exact H].
      apply andb_true_iff in H. destruct H as [Ht Hn].
      split; [exact Ht|]. apply negb_true_iff in Hn. exact Hn.
    + intros [_ [[Ht Hn]|Hto]].
      * rewrite Ht, Hn. reflexivity.
      * rewrite Hto. apply orb_true_r.
  - intros out a' s' H. cbn [Stream] in H. rewrite Hr, Hf, Hw in H.
    pose proof (connWrite_spec _ _ _ _ _ Hw) as [Hg _].
    assert (Hk : connKind (conn a) <> UDPConn)
      by (unfold isTCPConnecion in Htcp; destruct (connKind (conn a));
          congruence).
    assert (H' : match retry fuel fb err a s1 with
                 | Some (Some err0, as_) => Some (RetryPanic err0, as_)
                 | Some (None, (a0, s0)) => Stream fuel a0 rest s0
                 | None => None
                 end = Some (out, (a', s')))
      by (destruct (connKind (conn a)); [congruence | exact H..]).
    clear H.
    destruct (retry fuel fb err a s1) as [[res [a1 s2]]|] eqn:Er;
      [|discriminate].
    apply retry_Recovery in Er; [|rewrite Hg; exact Hu].
    destruct Er as (Hsame & Hg2 & evs & Htr & Hrec).
    exists evs, res, a1, s2. rewrite Hg in Hrec, Hg2.
    repeat (split; [assumption|]).
    destruct res as [e|]; [|exact H'].
    injection H' as <- <- <-. repeat split.
  - intros Hlt Hfuel. apply Stream_returns; [|exact Hfuel].
    unfold isUint in Hu. lia.
Qed.

Lemma isUint_10 : isUint 10.
Proof. unfold isUint, maxUint, uintSize. cbn. lia. Qed.

Lemma Stream_writes_framed_witness :
  unframe (Itoa (Z.of_nat (String.length sampleLine)) ++ " " ++ sampleLine)
  = Some (Z.of_nat (String.length sampleLine), sampleLine).
Proof.
  assert (Hr : Render (eng := plainOnly)
      (globals (scriptedState 10 "octet-counted"
                                  (mkScript [] [])))
                 sampleMessage (tmpl (adapterFor noEnv tcpRoute tcp1)) = Ok sampleLine)
    by (vm_compute; reflexivity).
  assert (Htcp : isTCPConnecion (conn (adapterFor noEnv tcpRoute tcp1)) = true)
    by (vm_compute; reflexivity).
  exact (proj2 (proj1 (Stream_writes_framed (net := scripted) (eng := plainOnly)
      11
                         (adapterFor noEnv tcpRoute tcp1) sampleMessage []
                         (scriptedState 10 "octet-counted" (mkScript [] []))
                         sampleLine isUint_10 Hr)
                 Htcp eq_refl)).
Defined.

Lemma Stream_stops_at_render_error_witness :
  exists s',
    Stream (net := scripted) (eng := plainOnly)
        11 (adapterFor noEnv udpRoute udp0)
      ([sampleMessage] ++ namelessMessage :: [sampleMessage])
      (scriptedState 10 "" (mkScript [] []))
    = Some (RenderFailed (ErrTemplateExec ["ContainerName"]),
            (adapterFor noEnv udpRoute udp0, s'))
    /\ trace s' = [EvWrite udp0 sampleLine None].
Proof.
  eexists. split.
  - apply (Stream_stops_at_render_error (net := scripted) (eng := plainOnly));
      vm_compute; reflexivity.
  - vm_compute. reflexivity.
Defined.

Lemma Stream_datagram_witness :
  exists s',
    Stream (net := scripted) (eng := plainOnly)
        0 (adapterFor noEnv udpRoute udp0)
      [sampleMessage; sampleMessage]
      (scriptedState 10 "" (mkScript [Some resetErr; Some timeoutErr] []))
    = Some (Closed, (adapterFor noEnv udpRoute udp0, s'))
    /\ trace s' = [EvWrite udp0 sampleLine (Some resetErr);
                   EvWrite udp0 sampleLine (Some timeoutErr)].
Proof.
  assert (Hudp : connKind (conn (adapterFor noEnv udpRoute udp0)) = UDPConn)
    by (vm_compute; reflexivity).
  destruct (Stream_datagram (net := scripted) (eng := plainOnly)
      0 (adapterFor noEnv udpRoute udp0)
              [sampleMessage; sampleMessage] Hudp
              (scriptedState 10 "" (mkScript [Some resetErr; Some timeoutErr] [])))
    as (out & s' & results & Hs & _).
  exists s'. vm_compute in Hs. injection Hs as <- <-.
  split; vm_compute; reflexivity.
Defined.

Lemma Stream_recovers_witness :
  exists r,
    Stream (net := scripted) (eng := plainOnly)
        11 (adapterFor noEnv tcpRoute tcp1)
      [sampleMessage]
      (scriptedState 1 "octet-counted"
         (mkScript [Some timeoutErr; Some timeoutErr; Some resetErr]
            [Err (ErrOther "refused"); Ok tcp2]))
    = Some r.
Proof.
  assert (Htcp : isTCPConnecion (conn (adapterFor noEnv tcpRoute tcp1)) = true)
    by (vm_compute; reflexivity).
  assert (Hu : isUint 1) by (unfold isUint, maxUint, uintSize; cbn; lia).
  assert (Hlt : 1 < maxUint) by (unfold maxUint, uintSize; cbn; lia).
  refine (proj2 (proj2
    (Stream_recovers (net := scripted) (eng := plainOnly)
        11 (adapterFor noEnv tcpRoute tcp1)
       sampleMessage []
       (scriptedState 1 "octet-counted"
          (mkScript [Some timeoutErr; Some timeoutErr; Some resetErr]
             [Err (ErrOther "refused"); Ok tcp2]))
       (@mkState scripted (mkGlobals "box" 1 "octet-counted")
          (mkScript [Some timeoutErr; Some resetErr]
             [Err (ErrOther "refused"); Ok tcp2])
          [EvWrite tcp1 ("54 " ++ sampleLine) (Some timeoutErr)])
       sampleLine ("54 " ++ sampleLine) timeoutErr Htcp Hu _ _ _)) Hlt _);
    try (vm_compute; reflexivity).
  cbn. lia.
Defined.

(** C3, as stated, fails for an error that is marked as a timeout and is
    not a [*net.OpError]: the write is not retried in place, the adapter
    dials at once and writes on the new connection.  The same marks on a
    [*net.OpError] lead to the retry in place. *)
Lemma marked_error_of_another_type_reconnects :
  isTCPConnecion tcp1 = true
  /\ markedTimeout foreignTimeout = true
  /\ (exists a' s',
        Stream (net := scripted) (eng := plainOnly) 11
          (adapterFor noEnv tcpRoute tcp1) [sampleMessage]
          (scriptedState 10 "traditional"
             (mkScript [Some foreignTimeout] [Ok tcp2]))
        = Some (Closed, (a', s'))
        /\ conn a' = tcp2
        /\ trace s' = [EvWrite tcp1 sampleLine (Some foreignTimeout);
                       EvDial (Ok tcp2); EvWrite tcp2 sampleLine None])
  /\ markedTimeout timeoutErr = true
  /\ (exists a' s',
        Stream (net := scripted) (eng := plainOnly) 11
          (adapterFor noEnv tcpRoute tcp1) [sampleMessage]
          (scriptedState 10 "traditional"
             (mkScript [Some timeoutErr] [Ok tcp2]))
        = Some (Closed, (a', s'))
        /\ conn a' = tcp1
        /\ trace s' = [EvWrite tcp1 sampleLine (Some timeoutErr);
                       EvWrite tcp1 sampleLine None]).
Proof.
  split; [reflexivity|]. split; [reflexivity|]. split.
  - eexists. eexists. split; [vm_compute; reflexivity|].
    split; reflexivity.
  - split; [reflexivity|].
    eexists. eexists. split; [vm_compute; reflexivity|].
    split; reflexivity.
Qed.

(** ** Templates *)

Section Templates.

Context {eng : Engine}.
Implicit Types (s p q x : string) (c : ascii).

Lemma append_assoc s p q : (s ++ p) ++ q = s ++ (p ++ q).
Proof. induction s as [|a s IH]; cbn; [reflexivity | now rewrite IH]. Qed.

Lemma append_nil_r s : s ++ "" = s.
Proof. induction s as [|a s IH]; cbn; [reflexivity | now rewrite IH]. Qed.

Lemma length_append s p :
  String.length (s ++ p) = (String.length s + String.length p)%nat.
Proof. induction s as [|a s IH]; cbn; [reflexivity | now rewrite IH]. Qed.

Lemma cut_cons c1 c2 (a b : ascii) s :
  Template.cut c1 c2 (String a (String b s))
  = if (Ascii.eqb a c1 && Ascii.eqb b c2)%bool then Some (EmptyString, s)
    else
      match Template.cut c1 c2 (String b s) with
      | Some (p, q) => Some (String a p, q)
      | None => None
      end.
Proof. reflexivity. Qed.

(** The first delimiter of [s] is the first one of [s ++ x]. *)
Lemma cut_app_l c1 c2 s x p q :
  Template.cut c1 c2 s = Some (p, q) ->
  Template.cut c1 c2 (s ++ x) = Some (p, q ++ x).
Proof.
  revert p q. induction s as [|a r IH]; intros p q H; [discriminate|].
  destruct r as [|b r']; [discriminate|].
  rewrite cut_cons in H.
  change (String a (String b r') ++ x) with (String a (String b (r' ++ x))).
  rewrite cut_cons.
  destruct (Ascii.eqb a c1 && Ascii.eqb b c2)%bool.
  - injection H as <- <-. reflexivity.
  - destruct (Template.cut c1 c2 (String b r')) as [[p' q']|] eqn:E;
      [|discriminate].
    injection H as <- <-.
    change (String b (r' ++ x)) with (String b r' ++ x).
    rewrite (IH p' q' eq_refl). reflexivity.
Qed.

(** Text without a delimiter, before text that does not start with the
    second byte of the delimiter. *)
Lemma cut_none_app c1 c2 s x :
  Template.cut c1 c2 s = None ->
  startsWith c2 x = false ->
  Template.cut c1 c2 (s ++ x)
  = match Template.cut c1 c2 x with
    | Some (p, q) => Some (s ++ p, q)
    | None => None
    end.
Proof.
  intros H Hx. induction s as [|a r IH].
  - cbn [append]. destruct (Template.cut c1 c2 x) as [[p q]|]; reflexivity.
  - destruct r as [|b r'].
    + cbn [append]. destruct x as [|b x']; [reflexivity|].
      rewrite cut_cons. cbn [startsWith] in Hx. rewrite Hx, andb_false_r.
      destruct (Template.cut c1 c2 (String b x')) as [[p q]|]; reflexivity.
    + rewrite cut_cons in H.
      destruct (Ascii.eqb a c1 && Ascii.eqb b c2)%bool eqn:Eab;
        [discriminate|].
      destruct (Template.cut c1 c2 (String b r')) as [[p' q']|] eqn:E;
        [discriminate|].
      change (String a (String b r') ++ x)
        with (String a (String b (r' ++ x))).
      rewrite cut_cons, Eab.
      change (String b (r' ++ x)) with (String b r' ++ x).
      rewrite (IH eq_refl).
      destruct (Template.cut c1 c2 x) as [[p q]|]; reflexivity.
Qed.

Lemma cut_length c1 c2 s p q :
  Template.cut c1 c2 s = Some (p, q) ->
  String.length s = (String.length p + 2 + String.length q)%nat.
Proof.
  revert p q. induction s as [|a r IH]; intros p q H; [discriminate|].
  destruct r as [|b r']; [discriminate|].
  rewrite cut_cons in H.
  destruct (Ascii.eqb a c1 && Ascii.eqb b c2)%bool.
  - injection H as <- <-. reflexivity.
  - destruct (Template.cut c1 c2 (String b r')) as [[p' q']|] eqn:E;
      [|discriminate].
    injection H as <- <-.
    change (String.length (String a (String b r')))
      with (S (String.length (String b r'))).
    rewrite (IH p' q' eq_refl). reflexivity.
Qed.

(** More fuel parses the same. *)
Lemma parse_mono (f : nat) :
  forall (f' : nat) s nodes,
    Template.parse f s = Some nodes -> (f <= f')%nat ->
    Template.parse f' s = Some nodes.
Proof.
  induction f as [|f IH]; intros f' s nodes H Hle; [discriminate|].
  destruct f' as [|f']; [lia|].
  cbn [Template.parse] in H |- *.
  destruct (Template.cut "{" "{" s) as [[before rest]|]; [|exact H].
  destruct (Template.cut "}" "}" rest) as [[body after]|]; [|exact H].
  destruct (Template.action body) as [ch|]; [|exact H].
  destruct (Template.parse f after) as [nodes'|] eqn:E; [|discriminate].
  rewrite (IH f' after nodes' E ltac:(lia)). exact H.
Qed.

(** Fuel above the length of the text is enough. *)
Lemma parse_enough (f : nat) :
  forall s (f' : nat) nodes,
    (String.length s < f)%nat ->
    Template.parse f' s = Some nodes ->
    Template.parse f s = Some nodes.
Proof.
  induction f as [|f IH]; intros s f' nodes Hlen H; [lia|].
  destruct f' as [|f']; [discriminate|].
  cbn [Template.parse] in H |- *.
  destruct (Template.cut "{" "{" s) as [[before rest]|] eqn:E1; [|exact H].
  destruct (Template.cut "}" "}" rest) as [[body after]|] eqn:E2; [|exact H].
  destruct (Template.action body) as [ch|]; [|exact H].
  destruct (Template.parse f' after) as [nodes'|] eqn:E; [|discriminate].
  apply cut_length in E1, E2.
  rewrite (IH after f' nodes' ltac:(lia) E). exact H.
Qed.

Lemma Execute_app (g : Globals) (m : Message) (n1 n2 : Template.t) :
  forall buf,
    Template.Execute g (n1 ++ n2)%list m buf
    = match Template.Execute g n1 m buf with
      | Ok b => Template.Execute g n2 m b
      | Err e => Err e
      end.
Proof.
  induction n1 as [|[t|ch|src] n1 IH]; intros buf;
    cbn [List.app Template.Execute].
  - reflexivity.
  - apply IH.
  - destruct (Template.field g m ch); [apply IH | reflexivity].
  - destruct (executes src g m); [apply IH | reflexivity].
Qed.

Lemma Execute_text (g : Globals) (m : Message) s buf :
  Template.Execute g (Template.text s) m buf = Ok (buf ++ s).
Proof.
  destruct s; cbn [Template.text Template.Execute];
    [rewrite append_nil_r|]; reflexivity.
Qed.

(** The output is appended to the buffer. *)
Lemma Execute_buf (g : Globals) (m : Message) (nodes : Template.t) :
  forall buf,
    Template.Execute g nodes m buf
    = match Template.Execute g nodes m "" with
      | Ok out => Ok (buf ++ out)
      | Err e => Err e
      end.
Proof.
  induction nodes as [|[t|ch|src] nodes IH]; intros buf;
    cbn [Template.Execute].
  - rewrite append_nil_r. reflexivity.
  - rewrite (IH (buf ++ t)), (IH ("" ++ t)). cbn [append].
    destruct (Template.Execute g nodes m "") as [out|e]; [|reflexivity].
    rewrite append_assoc. reflexivity.
  - destruct (Template.field g m ch) as [v|e]; [|reflexivity].
    rewrite (IH (buf ++ v)), (IH ("" ++ v)). cbn [append].
    destruct (Template.Execute g nodes m "") as [out|e]; [|reflexivity].
    rewrite append_assoc. reflexivity.
  - destruct (executes src g m) as [v|e]; [|reflexivity].
    rewrite (IH (buf ++ v)), (IH ("" ++ v)). cbn [append].
    destruct (Template.Execute g nodes m "") as [out|e]; [|reflexivity].
    rewrite append_assoc. reflexivity.
Qed.

Lemma parse_S (f : nat) s :
  Template.parse (S f) s
  = match Template.cut "{" "{" s with
    | None => Some (Template.text s)
    | Some (before, rest) =>
        match Template.cut "}" "}" rest with
        | None => None
        | Some (body, after) =>
            match Template.action body, Template.parse f after with
            | Some ch, Some nodes =>
                Some (Template.text before ++ Template.Field ch :: nodes)%list
            | _, _ => None
            end
        end
    end.
Proof. reflexivity. Qed.

(** Two templates side by side, the second not starting with a brace, are
    one template, which writes what the first writes and then what the
    second writes. *)
Lemma parse_app (f1 : nat) :
  forall s (n1 : Template.t),
    Template.parse f1 s = Some n1 ->
    forall (f2 : nat) x (n2 : Template.t),
      Template.parse f2 x = Some n2 ->
      startsWith "{" x = false ->
      exists n,
        Template.parse (f1 + f2) (s ++ x) = Some n
        /\ forall g m buf,
            Template.Execute g n m buf
            = match Template.Execute g n1 m buf with
              | Ok b => Template.Execute g n2 m b
              | Err e => Err e
              end.
Proof.
  induction f1 as [|f IH]; intros s n1 H1 f2 x n2 H2 Hx; [discriminate|].
  rewrite parse_S in H1.
  change (S f + f2)%nat with (S (f + f2)). rewrite parse_S.
  destruct (Template.cut "{" "{" s) as [[before rest]|] eqn:E1.
  - destruct (Template.cut "}" "}" rest) as [[body after]|] eqn:E2;
      [|discriminate].
    destruct (Template.action body) as [ch|] eqn:Ea; [|discriminate].
    destruct (Template.parse f after) as [nodes|] eqn:E3; [|discriminate].
    injection H1 as <-.
    rewrite (cut_app_l _ _ _ x _ _ E1), (cut_app_l _ _ _ x _ _ E2).
    destruct (IH after nodes E3 f2 x n2 H2 Hx) as (n & Hn & Hexec).
    rewrite Hn, Ea. eexists. split; [reflexivity|].
    intros g m buf. rewrite !Execute_app, !Execute_text.
    cbn [Template.Execute].
    destruct (Template.field g m ch); [apply Hexec | reflexivity].
  - injection H1 as <-.
    rewrite (cut_none_app _ _ _ _ E1 Hx).
    destruct f2 as [|f2]; [discriminate|]. rewrite parse_S in H2.
    destruct (Template.cut "{" "{" x) as [[before rest]|] eqn:E2.
    + destruct (Template.cut "}" "}" rest) as [[body after]|] eqn:E3;
        [|discriminate].
      destruct (Template.action body) as [ch|] eqn:Ea; [|discriminate].
      destruct (Template.parse f2 after) as [nodes|] eqn:E4; [|discriminate].
      injection H2 as <-.
      rewrite (parse_mono f2 (f + S f2) after nodes E4 ltac:(lia)).
      eexists. split; [reflexivity|].
      intros g m buf. rewrite !Execute_app, !Execute_text, Execute_app,
        Execute_text, append_assoc. reflexivity.
    + injection H2 as <-. eexists. split; [reflexivity|].
      intros g m buf. rewrite !Execute_text, append_assoc. reflexivity.
Qed.

(** [Parse] gives a plain template its nodes, whatever the engine. *)
Lemma plain_Parse s (n : Template.t) :
  Template.plain s = Some n -> Template.Parse s = Ok n.
Proof. unfold Template.Parse. intros ->. reflexivity. Qed.

Lemma plain_app s x (n1 n2 : Template.t) :
  Template.plain s = Some n1 -> Template.plain x = Some n2 ->
  startsWith "{" x = false ->
  exists n,
    Template.plain (s ++ x) = Some n
    /\ forall g m buf,
        Template.Execute g n m buf
        = match Template.Execute g n1 m buf with
          | Ok b => Template.Execute g n2 m b
          | Err e => Err e
          end.
Proof.
  unfold Template.plain. intros H1 H2 Hx.
  destruct (parse_app _ _ _ H1 _ _ _ H2 Hx) as (n & Hn & Hexec).
  exists n. split; [|exact Hexec].
  eapply parse_enough; [|exact Hn]. lia.
Qed.

(** The default tag with a suffix that opens no action. *)
Lemma plain_ContainerName suffix :
  Template.cut "{" "{" suffix = None ->
  Template.plain (" {{.ContainerName}}" ++ suffix)
  = Some ([Template.Text " "; Template.Field ["ContainerName"]]
          ++ Template.text suffix)%list.
Proof.
  intros H. unfold Template.plain. rewrite parse_S.
  rewrite (cut_app_l "{" "{" " {{.ContainerName}}" suffix " "
             ".ContainerName}}" eq_refl).
  rewrite (cut_app_l "}" "}" ".ContainerName}}" suffix ".ContainerName"
             "" eq_refl).
  change (Template.action ".ContainerName") with (Some ["ContainerName"]).
  cbn [append String.length]. rewrite parse_S, H. reflexivity.
Qed.

End Templates.

(** ** Construction *)

Section Construction.

Context {net : Network} {eng : Engine}.
Local Open Scope list_scope.
Local Arguments truncateString : simpl never.

Lemma rfc5424_assoc (p t h tg pd sd d : string) :
  (("<" ++ p ++ ">1 " ++ t ++ " " ++ h) ++ " " ++ tg
   ++ (" " ++ pd ++ " - " ++ sd ++ " " ++ d ++ String LF ""))%string
  = ("<" ++ p ++ ">1 " ++ t ++ " " ++ h ++ " " ++ tg ++ " " ++ pd ++ " - "
     ++ sd ++ " " ++ d ++ String LF "")%string.
Proof.
  repeat (progress cbn [append] || rewrite append_assoc). reflexivity.
Qed.

Lemma rfc3164_assoc (p t h tg pd d : string) :
  (("<" ++ p ++ ">" ++ t ++ " " ++ h) ++ " " ++ tg
   ++ ("[" ++ pd ++ "]: " ++ d ++ String LF ""))%string
  = ("<" ++ p ++ ">" ++ t ++ " " ++ h ++ " " ++ tg ++ "[" ++ pd ++ "]: "
     ++ d ++ String LF "")%string.
Proof.
  repeat (progress cbn [append] || rewrite append_assoc). reflexivity.
Qed.

Lemma rfc5424Template_split (env : Env) (r : Route) :
  formatOf env = "rfc5424"%string ->
  (textBeforeTag env ++ " "
     ++ truncateString (tagPrecision (formatOf env)) (tagText env r)
     ++ textAfterTag env r)%string
  = rfc5424Template (GetEnvDefault env "SYSLOG_PRIORITY" "{{.Priority}}")
    (GetEnvDefault env "SYSLOG_TIMESTAMP" "{{.Timestamp}}")
    (hostnameText env) (tagText env r)
    (GetEnvDefault env "SYSLOG_PID" "{{.Container.State.Pid}}")
    (structuredDataText env r) (GetEnvDefault env "SYSLOG_DATA" "{{.Data}}").
Proof.
  intros Hf. unfold textBeforeTag, textAfterTag. rewrite Hf.
  change (tagPrecision "rfc5424") with 48%nat.
  change ("rfc5424" =? "rfc5424")%string with true. cbv iota zeta.
  apply rfc5424_assoc.
Qed.

Lemma rfc3164Template_split (env : Env) (r : Route) :
  formatOf env = "rfc3164"%string ->
  (textBeforeTag env ++ " "
     ++ truncateString (tagPrecision (formatOf env)) (tagText env r)
     ++ textAfterTag env r)%string
  = rfc3164Template (GetEnvDefault env "SYSLOG_PRIORITY" "{{.Priority}}")
    (GetEnvDefault env "SYSLOG_TIMESTAMP" "{{.Timestamp}}")
    (hostnameText env) (tagText env r)
    (GetEnvDefault env "SYSLOG_PID" "{{.Container.State.Pid}}")
    (GetEnvDefault env "SYSLOG_DATA" "{{.Data}}").
Proof.
  intros Hf. unfold textBeforeTag, textAfterTag. rewrite Hf.
  change (tagPrecision "rfc3164") with 32%nat.
  change ("rfc3164" =? "rfc5424")%string with false. cbv iota zeta.
  apply rfc3164_assoc.
Qed.
Lemma setTCPFraming_spec (env : Env) (g : Globals) :
  (validFraming (framingOf env)
   /\ setTCPFraming env g
      = (None, mkGlobals (hostname g) (retryCount g) (framingOf env)))
  \/ (~ validFraming (framingOf env)
      /\ setTCPFraming env g
         = (Some (ErrOther ("unknown SYSLOG_TCP_FRAMING value: "
                            ++ framingOf env)%string), g)).
Proof.
  unfold setTCPFraming, validFraming, framingOf,
    TraditionalTCPFraming, OctetCountedTCPFraming.
  destruct (String.eqb_spec
              (GetEnvDefault env "SYSLOG_TCP_FRAMING" "traditional")
              "traditional") as [E|N1].
  - left. rewrite E. auto.
  - destruct (String.eqb_spec
                (GetEnvDefault env "SYSLOG_TCP_FRAMING" "traditional")
                "octet-counted") as [E|N2].
    + left. rewrite E. auto.
    + right. split; [intros [?|?]; contradiction | reflexivity].
Qed.

(** What a successful construction has done. *)
Lemma NewSyslogAdapter_Ok (env : Env) (r : Route) (s s' : State)
  (a : Adapter) :
  NewSyslogAdapter env r s = (Ok a, s') ->
  exists t w,
    Lookup r = Some t
    /\ Dial t (Route_Address r) (Route_Options r) (world s) = (Ok (conn a), w)
    /\ route a = r /\ transport a = t
    /\ trace s' = trace s ++ [EvDial (Ok (conn a))]
    /\ retryCount (globals s') = retryCount (globals s)
    /\ hostname (globals s') = fst (getHostname env (globals s))
    /\ (if isTCPConnecion (conn a)
        then validFraming (framingOf env)
             /\ tcpFraming (globals s') = framingOf env
        else tcpFraming (globals s') = tcpFraming (globals s))
    /\ (formatOf env = "rfc5424"%string \/ formatOf env = "rfc3164"%string)
    /\ Template.Parse
         (textBeforeTag env ++ " "
          ++ truncateString (tagPrecision (formatOf env)) (tagText env r)
          ++ textAfterTag env r)%string
       = Ok (tmpl a).
Proof.
  unfold NewSyslogAdapter. intros H.
  destruct (Lookup r) as [t|]; [|discriminate].
  unfold transportDial in H.
  destruct (Dial t (Route_Address r) (Route_Options r) (world s))
    as [[c|e] w] eqn:Ed; [|discriminate].
  exists t, w. cbn [globals getHostname setGlobals world trace] in H.
  fold (formatOf env) in H.
  assert (Hfmt : formatOf env = "rfc5424"%string
                 \/ formatOf env = "rfc3164"%string
                 \/ (String.eqb (formatOf env) "rfc5424" = false
                     /\ String.eqb (formatOf env) "rfc3164" = false)).
  { destruct (String.eqb_spec (formatOf env) "rfc5424"); [auto|].
    destruct (String.eqb_spec (formatOf env) "rfc3164"); auto. }
  destruct (isTCPConnecion c) eqn:Etcp.
  - destruct (setTCPFraming_spec env
                (mkGlobals (fst (getHostname env (globals s)))
                   (retryCount (globals s)) (tcpFraming (globals s))))
      as [[Hv Hs]|[Hv Hs]]; unfold getHostname in Hs; cbn [fst] in Hs;
      rewrite Hs in H; cbn [globals setGlobals world trace hostname
                              retryCount tcpFraming] in H;
      [|discriminate].
    destruct Hfmt as [Hf|[Hf|[Hf1 Hf2]]].
    + rewrite Hf in H. cbn [String.eqb Ascii.eqb Bool.eqb] in H.
      cbv iota in H.
      match type of H with
      | context [Template.Parse ?x] => destruct (Template.Parse x) eqn:Ep
      end; [|discriminate].
      injection H as <- <-. cbn. rewrite Etcp.
      repeat (split; [auto; fail|]).
      rewrite <- Ep. f_equal.
      first [ exact (rfc5424Template_split env r Hf)
            | exact (rfc3164Template_split env r Hf) ].
    + rewrite Hf in H. cbn [String.eqb Ascii.eqb Bool.eqb] in H.
      cbv iota in H.
      match type of H with
      | context [Template.Parse ?x] => destruct (Template.Parse x) eqn:Ep
      end; [|discriminate].
      injection H as <- <-. cbn. rewrite Etcp.
      repeat (split; [auto; fail|]).
      rewrite <- Ep. f_equal.
      first [ exact (rfc5424Template_split env r Hf)
            | exact (rfc3164Template_split env r Hf) ].
    + rewrite Hf1, Hf2 in H. discriminate.
  - cbn [globals setGlobals world trace hostname retryCount tcpFraming] in H.
    destruct Hfmt as [Hf|[Hf|[Hf1 Hf2]]].
    + rewrite Hf in H. cbn [String.eqb Ascii.eqb Bool.eqb] in H.
      cbv iota in H.
      match type of H with
      | context [Template.Parse ?x] => destruct (Template.Parse x) eqn:Ep
      end; [|discriminate].
      injection H as <- <-. cbn. rewrite Etcp.
      repeat (split; [auto; fail|]).
      rewrite <- Ep. f_equal.
      first [ exact (rfc5424Template_split env r Hf)
            | exact (rfc3164Template_split env r Hf) ].
    + rewrite Hf in H. cbn [String.eqb Ascii.eqb Bool.eqb] in H.
      cbv iota in H.
      match type of H with
      | context [Template.Parse ?x] => destruct (Template.Parse x) eqn:Ep
      end; [|discriminate].
      injection H as <- <-. cbn. rewrite Etcp.
      repeat (split; [auto; fail|]).
      rewrite <- Ep. f_equal.
      first [ exact (rfc5424Template_split env r Hf)
            | exact (rfc3164Template_split env r Hf) ].
    + rewrite Hf1, Hf2 in H. discriminate.
Qed.

Lemma framed_valid (c : Conn) (framing buf : string) :
  validFraming framing -> exists fb, framed c framing buf = Ok fb.
Proof.
  unfold framed. intros [-> | ->]; destruct (isTCPConnecion c); cbn; eauto.
Qed.

(** With a framing that [setTCPFraming] accepts, or on a UDP connection,
    the loop does not reach the panic of its framing switch. *)
Lemma Stream_no_framing_panic (fuel : nat) (msgs : list Message) :
  forall (a a' : Adapter) (s s' : State) (out : Outcome),
    isUint (retryCount (globals s)) ->
    validFraming (tcpFraming (globals s)) \/ connKind (conn a) = UDPConn ->
    Stream fuel a msgs s = Some (out, (a', s')) ->
    forall v, out <> FramingPanic v.
Proof.
  induction msgs as [|m msgs IH]; intros a a' s s' out Hu Hinv H v.
  - injection H as <- _ _. discriminate.
  - cbn [Stream] in H.
    destruct (Render (globals s) m (tmpl a)) as [buf|e];
      [|injection H as <- _ _; discriminate].
    assert (Hf : exists fb, framed (conn a) (tcpFraming (globals s)) buf
                            = Ok fb).
    { destruct Hinv as [Hv|Hudp]; [apply framed_valid; exact Hv|].
      exists buf. apply framed_datagram. exact Hudp. }
    destruct Hf as [fb Hf]. rewrite Hf in H.
    destruct (connWrite (conn a) fb s) as [err s1] eqn:Ew.
    apply connWrite_spec in Ew. destruct Ew as [Hg _].
    assert (Hsame : forall s2, globals s2 = globals s ->
              Stream fuel a msgs s2 = Some (out, (a', s')) ->
              out <> FramingPanic v).
    { intros s2 Hg2 Hs. eapply IH; [| |exact Hs]; rewrite Hg2; assumption. }
    destruct err as [err|]; [|apply (Hsame s1); assumption].
    destruct (connKind (conn a)) eqn:Ek;
      try (apply (Hsame s1); assumption);
      (destruct Hinv as [Hv|Hudp]; [|discriminate];
       destruct (retry fuel fb err a s1) as [[res [a2 s2]]|] eqn:Er;
         [|discriminate];
       apply retry_Recovery in Er; [|rewrite Hg; exact Hu];
       destruct Er as (_ & Hg2 & _);
       destruct res as [e|]; [injection H as <- _ _; discriminate|];
       eapply IH; [| |exact H]; rewrite Hg2, Hg; auto).
Qed.

End Construction.

(** The variables of the environment are read by name. *)
Lemma GetEnvDefault_setenv (env : Env) (k v name dfault : string) :
  String.eqb name k = false ->
  GetEnvDefault (setenv k v env) name dfault = GetEnvDefault env name dfault.
Proof.
  intros H. unfold GetEnvDefault, setenv. cbn [Getenv]. rewrite H.
  reflexivity.
Qed.

(** C7. Construction fails, and builds no adapter, when the format is
    neither rfc5424 nor rfc3164, and when the connection dialed is a TCP or
    TLS connection and the framing is neither traditional nor
    octet-counted; the errors are the ones of the format and of the
    framing.  On any other connection the framing is not read:
    construction returns what it returns with any other framing.  An
    adapter that was built, on a UDP, TCP or TLS connection, never meets
    an unknown framing in its stream loop. *)
Theorem NewSyslogAdapter_config_errors {net : Network} {eng : Engine}
  (env : Env)
  (r : Route) (s : State) :
  (formatOf env <> "rfc5424" -> formatOf env <> "rfc3164" ->
   exists e s', NewSyslogAdapter env r s = (Err e, s'))
  /\ (forall t c w,
        Lookup r = Some t ->
        Dial t (Route_Address r) (Route_Options r) (world s) = (Ok c, w) ->
        isTCPConnecion c = true ->
        ~ validFraming (framingOf env) ->
        exists s',
          NewSyslogAdapter env r s
          = (Err (ErrOther ("unknown SYSLOG_TCP_FRAMING value: "
                            ++ framingOf env)), s'))
  /\ (forall t c w,
        Lookup r = Some t ->
        Dial t (Route_Address r) (Route_Options r) (world s) = (Ok c, w) ->
        isTCPConnecion c = false \/ validFraming (framingOf env) ->
        formatOf env <> "rfc5424" -> formatOf env <> "rfc3164" ->
        exists s',
          NewSyslogAdapter env r s
          = (Err (ErrOther ("unsupported syslog format: " ++ formatOf env)),
             s'))
  /\ (forall t c w v,
        Lookup r = Some t ->
        Dial t (Route_Address r) (Route_Options r) (world s) = (Ok c, w) ->
        isTCPConnecion c = false ->
        NewSyslogAdapter (setenv "SYSLOG_TCP_FRAMING" v env) r s
        = NewSyslogAdapter env r s)
  /\ (forall a s',
        NewSyslogAdapter env r s = (Ok a, s') ->
        connKind (conn a) <> OtherConn ->
        isUint (retryCount (globals s')) ->
        forall fuel msgs out a2 s2,
          Stream fuel a msgs s' = Some (out, (a2, s2)) ->
          forall v, out <> FramingPanic v).
Proof.
  split; [|split; [|split; [|split]]].
  - intros N1 N2.
    destruct (NewSyslogAdapter env r s) as [[a|e] s'] eqn:E; [|eauto].
    apply NewSyslogAdapter_Ok in E.
    destruct E as (t & w & _ & _ & _ & _ & _ & _ & _ & _ & [Hf|Hf] & _);
      contradiction.
  - intros t c w Hl Hd Htcp Hnv.
    unfold NewSyslogAdapter, transportDial. rewrite Hl, Hd.
    cbn [globals getHostname setGlobals world trace]. rewrite Htcp.
    match goal with
    | |- context [setTCPFraming env ?g] =>
        destruct (setTCPFraming_spec env g) as [[Hv _]|[_ Hs]];
          [contradiction|rewrite Hs]
    end.
    eexists. reflexivity.
  - intros t c w Hl Hd Hok N1 N2.
    apply String.eqb_neq in N1, N2.
    unfold NewSyslogAdapter, transportDial. rewrite Hl, Hd.
    cbn [globals getHostname setGlobals world trace].
    fold (formatOf env). rewrite N1, N2.
    destruct (isTCPConnecion c).
    + destruct Hok as [?|Hv]; [discriminate|].
      match goal with
      | |- context [setTCPFraming env ?g] =>
          destruct (setTCPFraming_spec env g) as [[_ Hs]|[Hnv _]];
            [rewrite Hs|contradiction]
      end.
      eexists. reflexivity.
    + eexists. reflexivity.
  - intros t c w v Hl Hd Htcp.
    unfold NewSyslogAdapter, transportDial. rewrite Hl, Hd.
    cbn [globals getHostname setGlobals world trace]. rewrite Htcp.
    change (host_hostname (setenv "SYSLOG_TCP_FRAMING" v env))
      with (host_hostname env).
    rewrite !GetEnvDefault_setenv by reflexivity. reflexivity.
  - intros a s' Hok Hkind Hu fuel msgs out a2 s2 Hs v.
    apply NewSyslogAdapter_Ok in Hok.
    destruct Hok as (t & w & _ & _ & _ & _ & _ & _ & _ & Hfr & _ & _).
    eapply Stream_no_framing_panic; [exact Hu| |exact Hs].
    unfold isTCPConnecion in Hfr.
    destruct (connKind (conn a)); [right; reflexivity | | | contradiction];
      destruct Hfr as [Hv ->]; left; exact Hv.
Qed.

(** C7, as stated, fails on a UDP connection: with a framing that is
    neither traditional nor octet-counted the adapter is built. *)
Lemma NewSyslogAdapter_udp_unknown_framing :
  framingOf (setenv "SYSLOG_TCP_FRAMING" "bogus" noEnv) = "bogus"
  /\ ~ validFraming "bogus"
  /\ exists a s',
      build (setenv "SYSLOG_TCP_FRAMING" "bogus" noEnv) udpRoute udp0
      = (Ok a, s').
Proof.
  split; [reflexivity|]. split.
  - intros [H|H]; discriminate H.
  - eexists. eexists. vm_compute. reflexivity.
Qed.

Lemma NewSyslogAdapter_config_errors_witness :
  (exists e s',
     build (setenv "SYSLOG_FORMAT" "json" noEnv) tcpRoute tcp1 = (Err e, s'))
  /\ (exists s',
        build (setenv "SYSLOG_TCP_FRAMING" "bogus" noEnv) tcpRoute tcp1
        = (Err (ErrOther "unknown SYSLOG_TCP_FRAMING value: bogus"), s')).
Proof.
  split.
  - apply (proj1 (NewSyslogAdapter_config_errors (net := scripted) (eng := plainOnly)
                    (setenv "SYSLOG_FORMAT" "json" noEnv) tcpRoute
                    (scriptedState 10 "" (mkScript [] [Ok tcp1]))));
      discriminate.
  - apply (proj1 (proj2 (NewSyslogAdapter_config_errors (net := scripted) (eng := plainOnly)
                    (setenv "SYSLOG_TCP_FRAMING" "bogus" noEnv) tcpRoute
                    (scriptedState 10 "" (mkScript [] [Ok tcp1]))))
             tt tcp1 (mkScript [] []));
      try reflexivity.
    intros [H|H]; discriminate H.
Defined.


(** ** The tag *)

Lemma textAfterTag_start (env : Env) (r : Route) :
  startsWith "{" (textAfterTag env r) = false.
Proof.
  unfold textAfterTag.
  destruct (String.eqb (formatOf env) "rfc5424"); reflexivity.
Qed.

Lemma field_ContainerName (g : Globals) (m : Message) (c : ascii)
  (name : string) :
  Container_Name (Message_Container m) = String c name ->
  Template.field g m ["ContainerName"] = Ok name.
Proof.
  intros H. unfold Template.field.
  change (Template.names ["ContainerName"] ["Priority"]) with false.
  change (Template.names ["ContainerName"] ["Hostname"]) with false.
  change (Template.names ["ContainerName"] ["Timestamp"]) with false.
  change (Template.names ["ContainerName"] ["ContainerName"]) with true.
  cbv iota. unfold ContainerName. rewrite H. reflexivity.
Qed.

(** C8. When SYSLOG_TAG is not set, the append_tag option opens no action
    and the tag template fits its precision, and the template texts before
    and after the tag are plain templates (text and field chains) that
    render for the record, the record of a container with a name renders
    to what the text before renders to, a space, the name without its
    first byte followed by the append_tag option, and what the text after
    renders to. *)
Theorem tag_is_name_and_suffix {net : Network} {eng : Engine}
  (env : Env) (r : Route)
  (s s' : State) (a : Adapter) (m : Message) (c : ascii) (name : string)
  (nA nB : Template.t) (outA outB : string) :
  NewSyslogAdapter env r s = (Ok a, s') ->
  Getenv env "SYSLOG_TAG" = "" ->
  Template.cut "{" "{" (option_get (Route_Options r) "append_tag") = None ->
  truncateString (tagPrecision (formatOf env))
    ("{{.ContainerName}}" ++ option_get (Route_Options r) "append_tag")
  = "{{.ContainerName}}" ++ option_get (Route_Options r) "append_tag" ->
  Template.plain (textBeforeTag env) = Some nA ->
  Template.plain (textAfterTag env r) = Some nB ->
  Container_Name (Message_Container m) = String c name ->
  Template.Execute (globals s') nA m "" = Ok outA ->
  Template.Execute (globals s') nB m "" = Ok outB ->
  Render (globals s') m (tmpl a)
  = Ok (outA ++ " " ++ name ++ option_get (Route_Options r) "append_tag"
        ++ outB).
Proof.
  intros Hok Htag Hcut Htrunc HA HB Hname HoutA HoutB.
  apply NewSyslogAdapter_Ok in Hok.
  destruct Hok as (t & w & _ & _ & _ & _ & _ & _ & _ & _ & _ & Hparse).
  set (suffix := option_get (Route_Options r) "append_tag") in *.
  assert (Htt : tagText env r = "{{.ContainerName}}" ++ suffix).
  { unfold tagText, GetEnvDefault. rewrite Htag. reflexivity. }
  rewrite Htt, Htrunc in Hparse.
  rewrite <- (append_assoc " " ("{{.ContainerName}}" ++ suffix)
                (textAfterTag env r)) in Hparse.
  change (" " ++ "{{.ContainerName}}" ++ suffix)
    with (" {{.ContainerName}}" ++ suffix) in Hparse.
  destruct (plain_app _ _ _ _ (plain_ContainerName suffix Hcut) HB
              (textAfterTag_start env r)) as (nTB & HTB & ExTB).
  destruct (plain_app _ _ _ _ HA HTB eq_refl) as (n & Hn & Ex).
  rewrite (plain_Parse _ _ Hn) in Hparse. injection Hparse as <-.
  unfold Render. rewrite Ex, HoutA, ExTB, Execute_app.
  cbn [Template.Execute]. rewrite (field_ContainerName _ _ _ _ Hname).
  rewrite Execute_text, Execute_buf, HoutB.
  rewrite !append_assoc. reflexivity.
Qed.

Lemma tag_is_name_and_suffix_witness :
  Render (eng := plainOnly)
      (globals (snd (build noEnv taggedRoute udp0))) sampleMessage
    (tmpl (adapterFor noEnv taggedRoute udp0))
  = Ok ("<14>1 2024-01-02T03:04:05Z host1" ++ " " ++ "web-1" ++ ".prod"
        ++ " 4242 - - hello" ++ String LF "").
Proof.
  refine (tag_is_name_and_suffix (net := scripted) (eng := plainOnly)
      noEnv taggedRoute
            (scriptedState 10 "" (mkScript [] [Ok udp0]))
            (snd (build noEnv taggedRoute udp0))
            (adapterFor noEnv taggedRoute udp0) sampleMessage "/" "web-1"
            [Template.Text "<"; Template.Field ["Priority"];
             Template.Text ">1 "; Template.Field ["Timestamp"];
             Template.Text " ";
             Template.Field ["Container"; "Config"; "Hostname"]]
            [Template.Text " "; Template.Field ["Container"; "State"; "Pid"];
             Template.Text " - - "; Template.Field ["Data"];
             Template.Text (String LF "")]
            "<14>1 2024-01-02T03:04:05Z host1"
            (" 4242 - - hello" ++ String LF "") _ _ _ _ _ _ _ _ _);
    vm_compute; reflexivity.
Defined.

(** C8, as stated, fails with the default tag template: an append_tag
    option that holds an action is not a literal suffix, the tag carries
    what the action renders to; and the record of a container without a
    name has no line, hence no tag.  It also fails when SYSLOG_TAG is
    set, where the tag is what the variable says, and when another part
    of the line does not render. *)
Lemma tag_not_name_and_suffix :
  (Getenv noEnv "SYSLOG_TAG" = ""
   /\ option_get (Route_Options actionRoute) "append_tag" = "{{.Data}}"
   /\ ContainerName sampleMessage = Some "web-1"
   /\ exists line,
        Render (eng := plainOnly)
          (globals (snd (build noEnv actionRoute udp0))) sampleMessage
          (tmpl (adapterFor noEnv actionRoute udp0)) = Ok line
        /\ nth 3 (fields line) "" = "web-1hello"
        /\ "web-1hello" <> "web-1" ++ "{{.Data}}")
  /\ (Container_Name (Message_Container namelessMessage) = ""
      /\ Render (eng := plainOnly)
           (globals (snd (build noEnv udpRoute udp0))) namelessMessage
           (tmpl (adapterFor noEnv udpRoute udp0))
         = Err (ErrTemplateExec ["ContainerName"]))
  /\ (exists line,
        Render (eng := plainOnly)
          (globals (snd (build (setenv "SYSLOG_TAG" "app" noEnv)
                           udpRoute udp0)))
          sampleMessage
          (tmpl (adapterFor (setenv "SYSLOG_TAG" "app" noEnv) udpRoute udp0))
        = Ok line
        /\ nth 3 (fields line) "" = "app"
        /\ option_get (Route_Options udpRoute) "append_tag" = ""
        /\ "app" <> "web-1" ++ "")
  /\ Render (eng := plainOnly)
       (globals (snd (build (setenv "SYSLOG_DATA" "{{.Secret}}" noEnv)
                        udpRoute udp0)))
       sampleMessage
       (tmpl (adapterFor (setenv "SYSLOG_DATA" "{{.Secret}}" noEnv)
                udpRoute udp0))
     = Err (ErrTemplateExec ["Secret"]).
Proof.
  split; [|split; [|split]].
  - split; [reflexivity|]. split; [reflexivity|]. split; [reflexivity|].
    eexists. split; [vm_compute; reflexivity|].
    split; [vm_compute; reflexivity | discriminate].
  - split; [reflexivity | vm_compute; reflexivity].
  - eexists. split; [vm_compute; reflexivity|].
    split; [vm_compute; reflexivity|]. split; [reflexivity | discriminate].
  - vm_compute. reflexivity.
Qed.

(** C1. Under the defaults the precision of the tag cuts the text of the
    template, [{{.ContainerName}}], and not what it renders to: a record
    of a container whose name has 76 bytes carries that name whole as its
    tag, under RFC 5424 (limit 48) as under RFC 3164 (limit 32).  And the
    precision counts runes: a SYSLOG_TAG of 50 two-byte characters leaves
    a tag of 96 bytes under RFC 5424. *)
Theorem tag_longer_than_its_limit :
  String.length longName = 76%nat
  /\ (exists line,
        Render (eng := plainOnly)
            (globals (snd (build noEnv udpRoute udp0))) longNameMessage
          (tmpl (adapterFor noEnv udpRoute udp0)) = Ok line
        /\ nth 3 (fields line) "" = longName)
  /\ (exists line,
        Render (eng := plainOnly)
            (globals (snd (build (setenv "SYSLOG_FORMAT" "rfc3164" noEnv)
                                udpRoute udp0)))
          longNameMessage
          (tmpl (adapterFor (setenv "SYSLOG_FORMAT" "rfc3164" noEnv)
                   udpRoute udp0)) = Ok line
        /\ nth 2 (fields line) "" = longName ++ "[4242]:")
  /\ (exists line,
        Render (eng := plainOnly) (globals (snd (build (setenv "SYSLOG_TAG"
                                       (repeatString 50 eAcute) noEnv)
                                udpRoute udp0)))
          sampleMessage
          (tmpl (adapterFor (setenv "SYSLOG_TAG" (repeatString 50 eAcute)
                               noEnv) udpRoute udp0)) = Ok line
        /\ String.length (nth 3 (fields line) "") = 96%nat).
Proof.
  split; [vm_compute; reflexivity|].
  split; [|split];
    (eexists; split; [vm_compute; reflexivity | vm_compute; reflexivity]).
Qed.

(* ================================================================= *)
(** * Further properties of the adapter *)

(** ** The retry loop, for every operation *)

Lemma first_success {S : Type} (fn : S -> option error * S) (s : S) (n : nat) :
  (forall i, (i <= n)%nat -> errAt fn i s <> None)
  \/ exists j, (j <= n)%nat /\ errAt fn j s = None
               /\ forall i, (i < j)%nat -> errAt fn i s <> None.
Proof.
  induction n as [|n IH].
  - destruct (errAt fn 0 s) eqn:E.
    + left. intros i Hi. replace i with 0%nat by lia. congruence.
    + right. exists 0%nat. repeat split; [lia | exact E | intros; lia].
  - destruct IH as [Hall | (j & Hj & Hok & Hbefore)].
    + destruct (errAt fn (Datatypes.S n) s) eqn:E.
      * left. intros i Hi.
        destruct (Nat.eq_dec i (Datatypes.S n)) as [->|]; [congruence|].
        apply Hall. lia.
      * right. exists (Datatypes.S n). repeat split; [lia | exact E|].
        intros i Hi. apply Hall. lia.
    + right. exists j. repeat split; [lia | exact Hok | exact Hbefore].
Qed.

(** X1. With a budget below the largest [uint], and on fuel above it,
    [retryExp] returns after [k] invocations of the operation, with
    [1 <= k <= tries + 1]: it returns what invocation [k] returned, every
    invocation before failed, and an error comes back only from invocation
    [tries + 1]. *)
Theorem retryExp_bounded {S : Type} (fn : S -> option error * S)
  (tries : Z) (s : S) (fuel : nat) :
  0 <= tries < maxUint ->
  (Z.to_nat tries < fuel)%nat ->
  exists (k : nat) (res : option error),
    retryExp fuel (counted fn) tries (s, 0%nat)
    = Some (res, (after fn k s, k))
    /\ (1 <= k)%nat /\ Z.of_nat k <= tries + 1
    /\ res = errAt fn (k - 1) s
    /\ (forall i, (i < k - 1)%nat -> errAt fn i s <> None)
    /\ (res <> None -> Z.of_nat k = tries + 1).
Proof.
  intros Ht Hfuel.
  destruct (first_success fn s (Z.to_nat tries))
    as [Hall | (j & Hj & Hok & Hbefore)].
  - destruct (retryExp_exhausts (counted fn) tries (s, 0%nat) fuel Ht)
      as (e & He & Hr).
    + intros i Hi. rewrite errAt_counted. apply Hall. exact Hi.
    + exact Hfuel.
    + exists (Datatypes.S (Z.to_nat tries)), (Some e).
      rewrite Hr, after_counted. rewrite errAt_counted in He.
      split; [reflexivity|]. split; [lia|]. split; [lia|].
      split; [rewrite Nat.sub_1_r; cbn [Nat.pred]; congruence|].
      split; [|lia].
      intros i Hi. apply Hall. lia.
  - exists (Datatypes.S j), None.
    rewrite (retryExp_succeeds (counted fn) tries (s, 0%nat)
               (Datatypes.S j) fuel); try lia.
    + rewrite after_counted.
      split; [reflexivity|]. split; [lia|]. split; [lia|].
      split; [rewrite Nat.sub_1_r; cbn [Nat.pred]; congruence|].
      split; [|congruence].
      intros i Hi. apply Hbefore. lia.
    + intros i Hi. rewrite errAt_counted. apply Hbefore. lia.
    + rewrite errAt_counted, Nat.sub_1_r. exact Hok.
Qed.

Lemma retryExp_bounded_witness :
  exists (k : nat) (res : option error),
    retryExp 11 (counted (flaky 2)) 10 (0%nat, 0%nat)
    = Some (res, (after (flaky 2) k 0%nat, k)).
Proof.
  assert (Ht : 0 <= 10 < maxUint) by (unfold maxUint, uintSize; cbn; lia).
  assert (Hf : (Z.to_nat 10 < 11)%nat) by (cbn; lia).
  destruct (retryExp_bounded (flaky 2) 10 0%nat 11 Ht Hf)
    as (k & res & H & _).
  exists k, res. exact H.
Defined.

(** ** The pauses of the retry loop *)

Lemma int64_small (z : Z) : - 2 ^ 63 <= z < 2 ^ 63 -> int64 z = z.
Proof.
  intros H. unfold int64. rewrite Z.mod_small; lia.
Qed.

Lemma pow2_le_39 (t : Z) : 0 <= t <= 39 -> 1 <= 2 ^ t <= 2 ^ 39.
Proof.
  intros H. split.
  - pose proof (Z.pow_pos_nonneg 2 t ltac:(lia) ltac:(lia)). lia.
  - apply Z.pow_le_mono_r; lia.
Qed.

(** X3. The pause after failure number [t] is [10ms * 2^t] for
    [1 <= t <= 39], twice the one before; at [t = 40] the product no
    longer fits an [int64] and the pause is negative, so that [time.Sleep]
    returns at once, and from [t = 64] on it is zero. *)
Theorem backoff_doubles_then_overflows :
  (forall t, 0 <= t <= 39 -> backoff t = 10 * Millisecond * 2 ^ t)
  /\ (forall t, 0 <= t < 39 -> backoff (t + 1) = 2 * backoff t)
  /\ backoff 40 < 0
  /\ (forall t, 64 <= t -> backoff t = 0).
Proof.
  assert (H39 : forall t, 0 <= t <= 39 -> backoff t = 10 * Millisecond * 2 ^ t).
  { intros t Ht. unfold backoff, Millisecond.
    destruct (Z.ltb_spec t 64); [|lia].
    rewrite Z.shiftl_1_l.
    pose proof (pow2_le_39 t Ht) as Hp.
    change (2 ^ 39) with 549755813888 in Hp.
    rewrite (int64_small (2 ^ t)) by (cbn; lia).
    rewrite (int64_small (2 ^ t * 10)) by (cbn; lia).
    rewrite int64_small by (cbn; lia). lia. }
  split; [exact H39|]. split; [|split].
  - intros t Ht. rewrite !H39 by lia.
    rewrite Z.pow_add_r by lia. change (2 ^ 1) with 2. lia.
  - vm_compute. reflexivity.
  - intros t Ht. unfold backoff.
    destruct (Z.ltb_spec t 64); [lia|]. reflexivity.
Qed.

Lemma backoff_doubles_then_overflows_witness :
  backoff 1 = 20 * Millisecond /\ backoff 10 = 10240 * Millisecond
  /\ backoff 64 = 0.
Proof.
  split; [|split].
  - apply (proj1 backoff_doubles_then_overflows 1). lia.
  - apply (proj1 backoff_doubles_then_overflows 10). lia.
  - apply (proj2 (proj2 (proj2 backoff_doubles_then_overflows)) 64). lia.
Defined.

Lemma attempts_snoc (k : nat) :
  attempts (S k) = (attempts k ++ [Z.of_nat (S k)])%list.
Proof.
  unfold attempts. rewrite seq_S, map_app. reflexivity.
Qed.

Lemma pauses_snoc (k : nat) :
  pauses (S k)
  = (pauses k ++ [Invoked; Slept (backoff (Z.of_nat (S k)))])%list.
Proof.
  unfold pauses. rewrite attempts_snoc, flat_map_app. cbn [flat_map].
  rewrite app_nil_r. reflexivity.
Qed.

(** The loop after [j] failures of the operation, each followed by its
    pause. *)
Lemma retryExpSleeping_loop {S : Type} (fn : S -> option error * S)
  (tries : Z) (s0 : S) (fuel : nat) :
  tries < maxUint ->
  forall (j : nat) (s' : S) (log : list Tick) (res : option error),
    Z.of_nat j <= tries ->
    retryExpSleeping fuel fn tries (Z.of_nat j) (after fn j s0) (pauses j)
    = Some (res, s', log) ->
    exists k,
      log = ticks k
      /\ s' = after fn (Datatypes.S k) s0
      /\ res = errAt fn k s0
      /\ (j <= k)%nat /\ Z.of_nat k <= tries
      /\ (res <> None -> Z.of_nat k = tries).
Proof.
  intros Ht. induction fuel as [|fuel IH]; intros j s' log res Hj H;
    [discriminate|].
  cbn [retryExpSleeping] in H.
  assert (Hs1 : after fn (Datatypes.S j) s0 = snd (fn (after fn j s0)))
    by apply after_succ_r.
  assert (He : errAt fn j s0 = fst (fn (after fn j s0))) by reflexivity.
  destruct (fn (after fn j s0)) as [[e|] s1]; cbn [fst snd] in Hs1, He.
  - rewrite uintSucc_small in H by lia.
    destruct (Z.of_nat j + 1 >? tries) eqn:Hgt.
    + injection H as <- <- <-. exists j.
      rewrite Z.gtb_ltb in Hgt. apply Z.ltb_lt in Hgt.
      split; [reflexivity|]. split; [congruence|]. split; [congruence|].
      repeat split; lia.
    + rewrite Z.gtb_ltb in Hgt. apply Z.ltb_ge in Hgt.
      replace (Z.of_nat j + 1) with (Z.of_nat (Datatypes.S j)) in H by lia.
      rewrite <- app_assoc in H. cbn [List.app] in H.
      rewrite <- pauses_snoc, <- Hs1 in H.
      apply IH in H; [|lia].
      destruct H as (k & Hl & Hs & Hr & Hk & Hle & Hex).
      exists k. repeat split; try assumption. lia.
  - injection H as <- <- <-. exists j.
    split; [reflexivity|]. split; [congruence|]. split; [congruence|].
    repeat split; [lia | exact Hj | congruence].
Qed.

Lemma retryExpSleeping_erase {S : Type} (fn : S -> option error * S)
  (tries : Z) (fuel : nat) :
  forall (try : Z) (s : S) (log : list Tick),
    retryExpLoop fuel fn tries try s
    = match retryExpSleeping fuel fn tries try s log with
      | Some (res, s', _) => Some (res, s')
      | None => None
      end.
Proof.
  induction fuel as [|fuel IH]; intros try s log; [reflexivity|].
  cbn [retryExpLoop retryExpSleeping].
  destruct (fn s) as [[e|] s1]; [|reflexivity].
  destruct (uintSucc try >? tries); [reflexivity | apply IH].
Qed.

(** X2. [retryExp] pauses between two invocations and nowhere else: with
    a budget below the largest [uint], a run is [k + 1] invocations of the
    operation with the pauses [backoff 1, ..., backoff k] between them,
    in this order; it returns what invocation [k + 1] returned, with
    [k <= tries], and [k = tries] when it returns an error.  Leaving the
    pauses out gives the loop as it is modelled without them. *)
Theorem retryExp_sleeps {S : Type} (fn : S -> option error * S)
  (tries : Z) (fuel : nat) (s : S) :
  0 <= tries < maxUint ->
  (forall res s' log,
     retryExpSleeping fuel fn tries 0 s [] = Some (res, s', log) ->
     retryExp fuel fn tries s = Some (res, s')
     /\ exists k : nat,
         log = ticks k
         /\ s' = after fn (Datatypes.S k) s
         /\ res = errAt fn k s
         /\ Z.of_nat k <= tries
         /\ (res <> None -> Z.of_nat k = tries))
  /\ ((Z.to_nat tries < fuel)%nat ->
      exists r, retryExpSleeping fuel fn tries 0 s [] = Some r).
Proof.
  intros Ht. split.
  - intros res s' log H. split.
    + unfold retryExp. change (uint 0) with 0.
      rewrite (retryExpSleeping_erase fn tries fuel 0 s []), H. reflexivity.
    + destruct (retryExpSleeping_loop fn tries s fuel ltac:(lia) 0%nat s'
                  log res ltac:(lia) H)
        as (k & Hl & Hs & Hr & _ & Hle & Hex).
      exists k. auto.
  - intros Hfuel.
    destruct (retryExpLoop_returns fn tries fuel ltac:(lia) 0 s ltac:(lia))
      as [[res s'] Hr]; [rewrite Z.sub_0_r; exact Hfuel|].
    rewrite (retryExpSleeping_erase fn tries fuel 0 s []) in Hr.
    destruct (retryExpSleeping fuel fn tries 0 s []) as [r|];
      [eauto | discriminate].
Qed.

Lemma retryExp_sleeps_witness :
  retryExpSleeping 11 (counted (flaky 2)) 10 0 (0%nat, 0%nat) []
  = Some (None, (3%nat, 3%nat),
          [Invoked; Slept (20 * Millisecond);
           Invoked; Slept (40 * Millisecond); Invoked]).
Proof.
  assert (Ht : 0 <= 10 < maxUint) by (unfold maxUint, uintSize; cbn; lia).
  assert (Hf : (Z.to_nat 10 < 11)%nat) by (cbn; lia).
  destruct (proj2 (retryExp_sleeps (counted (flaky 2)) 10 11 (0%nat, 0%nat)
                     Ht) Hf) as [r Hr].
  rewrite Hr. vm_compute in Hr. injection Hr as <-. vm_compute. reflexivity.
Defined.

(** ** What the loop does to the network *)

Section Traffic.

Context {net : Network} {eng : Engine}.
Local Open Scope list_scope.

Lemma Recovery_writes (tries : Z) (c c' : Conn) (buf : string)
  (inPlace : bool) (evs : list Event) (res : option error) :
  Recovery tries c buf inPlace evs res c' -> Forall (writesOnly buf) evs.
Proof.
  assert (Hw : forall errs, Forall (writesOnly buf) (failedWrites c buf errs)).
  { intros errs. unfold failedWrites. apply Forall_map, Forall_forall.
    intros e _. reflexivity. }
  assert (Hd : forall derrs, Forall (writesOnly buf) (failedDials derrs)).
  { intros derrs. unfold failedDials. apply Forall_map, Forall_forall.
    intros e _. exact I. }
  intros [errs _ | ip errs derrs c2 r _ _ | ip errs derrs e _ _];
    repeat (apply Forall_app; split); auto;
    repeat constructor.
Qed.

Lemma Recovery_length (tries : Z) (c c' : Conn) (buf : string)
  (inPlace : bool) (evs : list Event) (res : option error) :
  0 <= tries < maxUint ->
  Recovery tries c buf inPlace evs res c' ->
  1 <= Z.of_nat (List.length evs) <= 2 * tries + 3.
Proof.
  intros Ht [errs Hle | ip errs derrs c2 r He Hd | ip errs derrs e He Hd];
    rewrite ?length_app; unfold failedWrites, failedDials;
    rewrite ?length_map; cbn [List.length].
  - specialize (Hle ltac:(lia)). lia.
  - specialize (Hd ltac:(lia)).
    destruct ip; [|subst errs; cbn [List.length]]; lia.
  - destruct ip; [|subst errs; cbn [List.length]]; lia.
Qed.

(** X4. One recovery is bounded work: with a budget below the largest
    [uint], [retry] returns, on fuel above the budget, after at most
    [2 * retryCount + 3] writes and dials, and every one of its writes
    carries the bytes of the write that failed. *)
Theorem retry_bounded_work (fuel : nat) (buf : string) (err : error)
  (a : Adapter) (s : State) :
  0 <= retryCount (globals s) < maxUint ->
  (forall res a' s',
     retry fuel buf err a s = Some (res, (a', s')) ->
     exists evs,
       trace s' = trace s ++ evs
       /\ 1 <= Z.of_nat (List.length evs) <= 2 * retryCount (globals s) + 3
       /\ Forall (writesOnly buf) evs)
  /\ ((Z.to_nat (retryCount (globals s)) < fuel)%nat ->
      exists r, retry fuel buf err a s = Some r).
Proof.
  intros Ht. split.
  - intros res a' s' H.
    apply retry_Recovery in H; [|unfold isUint; lia].
    destruct H as (_ & _ & evs & Htr & Hrec).
    exists evs. split; [exact Htr|]. split.
    + eapply Recovery_length; eassumption.
    + eapply Recovery_writes; eassumption.
  - intros Hfuel. apply retry_returns; assumption.
Qed.

(** After its first write of a record the loop only adds to the trace. *)
Lemma Stream_step_extends (fuel : nat) (a a' : Adapter) (m : Message)
  (rest : list Message) (s s1 s' : State) (out : Outcome) (b fb : string)
  (err : option error) :
  isUint (retryCount (globals s)) ->
  Render (globals s) m (tmpl a) = Ok b ->
  framed (conn a) (tcpFraming (globals s)) b = Ok fb ->
  connWrite (conn a) fb s = (err, s1) ->
  Stream fuel a (m :: rest) s = Some (out, (a', s')) ->
  exists evs, trace s' = trace s1 ++ evs.
Proof.
  intros Hu Hr Hf Hw H. cbn [Stream] in H. rewrite Hr, Hf, Hw in H.
  pose proof (connWrite_spec _ _ _ _ _ Hw) as [Hg _].
  assert (Hnext : forall a2 s2 evs2,
            trace s2 = trace s1 ++ evs2 -> globals s2 = globals s ->
            Stream fuel a2 rest s2 = Some (out, (a', s')) ->
            exists evs, trace s' = trace s1 ++ evs).
  { intros a2 s2 evs2 Htr2 Hg2 Hs.
    apply Stream_extends in Hs; [|rewrite Hg2; exact Hu].
    destruct Hs as (_ & _ & evs & Htr').
    exists (evs2 ++ evs). rewrite Htr', Htr2, <- app_assoc. reflexivity. }
  destruct err as [e|];
    [|apply (Hnext a s1 []); auto; now rewrite app_nil_r].
  assert (Hretry :
    match retry fuel fb e a s1 with
    | Some (Some err0, as_) => Some (RetryPanic err0, as_)
    | Some (None, (a0, s0)) => Stream fuel a0 rest s0
    | None => None
    end = Some (out, (a', s')) ->
    exists evs, trace s' = trace s1 ++ evs).
  { clear H. intros H.
    destruct (retry fuel fb e a s1) as [[res [a2 s2]]|] eqn:Er;
      [|discriminate].
    apply retry_Recovery in Er; [|rewrite Hg; exact Hu].
    destruct Er as (_ & Hg2 & evs & Htr2 & _).
    destruct res as [e'|].
    - injection H as <- <- <-. exists evs. exact Htr2.
    - apply (Hnext a2 s2 evs); auto. congruence. }
  destruct (connKind (conn a)); try (apply Hretry; exact H).
  apply (Hnext a s1 []); auto. now rewrite app_nil_r.
Qed.

Lemma writesRecords_of_writesOnly (g : Globals) (t : Template.t)
  (msgs : list Message) (buf : string) (ev : Event) :
  recordBytes g t msgs buf -> writesOnly buf ev -> writesRecords g t msgs ev.
Proof.
  intros Hb Hw. destruct ev as [d|c b r]; [exact I|].
  cbn in Hw |- *. subst b. exact Hb.
Qed.

Lemma writesRecords_cons (g : Globals) (t : Template.t) (m : Message)
  (msgs : list Message) (ev : Event) :
  writesRecords g t msgs ev -> writesRecords g t (m :: msgs) ev.
Proof.
  destruct ev as [d|c b r]; [auto|].
  intros (m' & b' & c' & Hin & Hr & Hf).
  exists m', b', c'. repeat split; [right; exact Hin | exact Hr | exact Hf].
Qed.

(** X5. Whatever the network does, the loop writes nothing but records:
    the bytes of every write in its trace, retries and the write after a
    reconnect included, are what a record of the stream renders to, with
    its framing. *)
Theorem Stream_writes_only_records (fuel : nat) (msgs : list Message) :
  forall (a a' : Adapter) (s s' : State) (out : Outcome),
    isUint (retryCount (globals s)) ->
    Stream fuel a msgs s = Some (out, (a', s')) ->
    exists evs,
      trace s' = trace s ++ evs
      /\ Forall (writesRecords (globals s) (tmpl a) msgs) evs.
Proof.
  induction msgs as [|m msgs IH]; intros a a' s s' out Hu H.
  - injection H as <- <- <-. exists []. split; [now rewrite app_nil_r|].
    constructor.
  - cbn [Stream] in H.
    destruct (Render (globals s) m (tmpl a)) as [b|e] eqn:Er;
      [|injection H as <- <- <-; exists []; split;
        [now rewrite app_nil_r | constructor]].
    destruct (framed (conn a) (tcpFraming (globals s)) b) as [fb|v] eqn:Ef;
      [|injection H as <- <- <-; exists []; split;
        [now rewrite app_nil_r | constructor]].
    destruct (connWrite (conn a) fb s) as [err s1] eqn:Ew.
    apply connWrite_spec in Ew. destruct Ew as [Hg Htr].
    assert (Hfb : recordBytes (globals s) (tmpl a) (m :: msgs) fb).
    { exists m, b, (conn a). repeat split; [left; reflexivity | exact Er | exact Ef]. }
    assert (Hnext : forall a2 s2 evs2,
              sameButConn a a2 -> globals s2 = globals s ->
              trace s2 = trace s1 ++ evs2 ->
              Forall (writesOnly fb) evs2 ->
              Stream fuel a2 msgs s2 = Some (out, (a', s')) ->
              exists evs,
                trace s' = trace s ++ evs
                /\ Forall (writesRecords (globals s) (tmpl a) (m :: msgs)) evs).
    { intros a2 s2 evs2 (_ & Ht & _) Hg2 Htr2 Hall Hs.
      apply IH in Hs; [|rewrite Hg2; exact Hu].
      destruct Hs as (evs3 & Htr3 & Hall3). rewrite Hg2, Ht in Hall3.
      exists ([EvWrite (conn a) fb err] ++ evs2 ++ evs3).
      split; [rewrite Htr3, Htr2, Htr, <- !app_assoc; reflexivity|].
      apply Forall_app. split; [repeat constructor; exact Hfb|].
      apply Forall_app. split.
      - eapply Forall_impl; [|exact Hall].
        intros ev. apply writesRecords_of_writesOnly. exact Hfb.
      - eapply Forall_impl; [|exact Hall3].
        intros ev. apply writesRecords_cons. }
    assert (Hhere : sameButConn a a) by (unfold sameButConn; auto).
    destruct err as [err|];
      [|apply (Hnext a s1 []); auto; now rewrite app_nil_r].
    assert (Hretry :
      match retry fuel fb err a s1 with
      | Some (Some err0, as_) => Some (RetryPanic err0, as_)
      | Some (None, (a0, s0)) => Stream fuel a0 msgs s0
      | None => None
      end = Some (out, (a', s')) ->
      exists evs,
        trace s' = trace s ++ evs
        /\ Forall (writesRecords (globals s) (tmpl a) (m :: msgs)) evs).
    { clear H. intros H.
      destruct (retry fuel fb err a s1) as [[res [a2 s2]]|] eqn:Ert;
        [|discriminate].
      apply retry_Recovery in Ert; [|rewrite Hg; exact Hu].
      destruct Ert as (Hsame & Hg2 & evs & Htr2 & Hrec).
      apply Recovery_writes in Hrec.
      destruct res as [e|].
      - injection H as <- <- <-.
        exists ([EvWrite (conn a) fb (Some err)] ++ evs).
        split; [rewrite Htr2, Htr, <- app_assoc; reflexivity|].
        apply Forall_app. split; [repeat constructor; exact Hfb|].
        eapply Forall_impl; [|exact Hrec].
        intros ev. apply writesRecords_of_writesOnly. exact Hfb.
      - apply (Hnext a2 s2 evs); auto. congruence. }
    destruct (connKind (conn a)); try (apply Hretry; exact H).
    apply (Hnext a s1 []); auto. now rewrite app_nil_r.
Qed.

(** X6. As long as no write fails the loop keeps its connection and dials
    nothing: its trace is one successful write for each record, in the
    order of the stream, of the framed bytes of the record, up to the end
    of the stream or to the first record that does not render or, with an
    unknown framing on a TCP connection, cannot be framed. *)
Theorem Stream_without_failed_write (fuel : nat) (msgs : list Message)
  (a : Adapter) :
  forall (a' : Adapter) (s s' : State) (out : Outcome) (evs : list Event),
    isUint (retryCount (globals s)) ->
    Stream fuel a msgs s = Some (out, (a', s')) ->
    trace s' = trace s ++ evs ->
    (forall c b e, ~ In (EvWrite c b (Some e)) evs) ->
    a' = a
    /\ exists bufs,
        evs = map (fun fb => EvWrite (conn a) fb None) bufs
        /\ match out with
           | Closed => Forall2 (framedRender (globals s) a) msgs bufs
           | RenderFailed e =>
               exists pre m post,
                 msgs = pre ++ m :: post
                 /\ Forall2 (framedRender (globals s) a) pre bufs
                 /\ Render (globals s) m (tmpl a) = Err e
           | FramingPanic v =>
               exists pre m post b,
                 msgs = pre ++ m :: post
                 /\ Forall2 (framedRender (globals s) a) pre bufs
                 /\ Render (globals s) m (tmpl a) = Ok b
                 /\ framed (conn a) (tcpFraming (globals s)) b = Err v
           | RetryPanic _ => False
           end.
Proof.
  induction msgs as [|m msgs IH]; intros a' s s' out evs Hu H Htr Hno.
  - injection H as <- <- <-.
    rewrite <- (app_nil_r (trace s)) in Htr at 1.
    apply app_inv_head in Htr. subst evs.
    split; [reflexivity|]. exists []. split; [reflexivity | constructor].
  - pose proof H as Hstep. cbn [Stream] in H.
    destruct (Render (globals s) m (tmpl a)) as [b|e] eqn:Er.
    2:{ injection H as <- <- <-.
        rewrite <- (app_nil_r (trace s)) in Htr at 1.
        apply app_inv_head in Htr. subst evs.
        split; [reflexivity|]. exists []. split; [reflexivity|].
        exists [], m, msgs. repeat split; [constructor | exact Er]. }
    destruct (framed (conn a) (tcpFraming (globals s)) b) as [fb|v] eqn:Ef.
    2:{ injection H as <- <- <-.
        rewrite <- (app_nil_r (trace s)) in Htr at 1.
        apply app_inv_head in Htr. subst evs.
        split; [reflexivity|]. exists []. split; [reflexivity|].
        exists [], m, msgs, b. repeat split; [constructor | exact Er | exact Ef]. }
    destruct (connWrite (conn a) fb s) as [err s1] eqn:Ew.
    destruct (Stream_step_extends _ _ _ _ _ _ _ _ _ _ _ _ Hu Er Ef Ew Hstep)
      as (evs1 & Htr1).
    apply connWrite_spec in Ew. destruct Ew as [Hg Htrw].
    rewrite Htrw, <- app_assoc in Htr1. rewrite Htr1 in Htr.
    apply app_inv_head in Htr. subst evs.
    destruct err as [err|].
    + exfalso. apply (Hno (conn a) fb err). left. reflexivity.
    + destruct (IH a' s1 s' out evs1) as (-> & bufs & Hevs & Hout).
      * rewrite Hg. exact Hu.
      * exact H.
      * rewrite Htr1, Htrw, <- app_assoc. reflexivity.
      * intros c b' e Hin. apply (Hno c b' e). right. exact Hin.
      * split; [reflexivity|]. exists (fb :: bufs).
        split; [cbn [map List.app]; rewrite Hevs; reflexivity|].
        assert (Hm : framedRender (globals s) a m fb)
          by (exists b; split; assumption).
        rewrite Hg in Hout. destruct out.
        -- constructor; assumption.
        -- destruct Hout as (pre & m' & post & -> & Hpre & Hm').
           exists (m :: pre), m', post.
           repeat split; [constructor; assumption | exact Hm'].
        -- destruct Hout as (pre & m' & post & b' & -> & Hpre & Hm' & Hf').
           exists (m :: pre), m', post, b'.
           repeat split; [constructor; assumption | exact Hm' | exact Hf'].
        -- exact Hout.
Qed.

End Traffic.

Lemma retry_bounded_work_witness :
  exists r,
    retry (net := scripted) 11 ("54 " ++ sampleLine) timeoutErr
      (adapterFor noEnv tcpRoute tcp1)
      (scriptedState 1 "octet-counted"
         (mkScript [Some timeoutErr; Some resetErr]
            [Err (ErrOther "refused"); Ok tcp2]))
    = Some r.
Proof.
  assert (Ht : 0 <= 1 < maxUint) by (unfold maxUint, uintSize; cbn; lia).
  refine (proj2 (retry_bounded_work (net := scripted) 11 ("54 " ++ sampleLine)
                   timeoutErr (adapterFor noEnv tcpRoute tcp1)
                   (scriptedState 1 "octet-counted"
                      (mkScript [Some timeoutErr; Some resetErr]
                         [Err (ErrOther "refused"); Ok tcp2])) Ht) _).
  cbn. lia.
Defined.

Lemma Stream_writes_only_records_witness :
  exists out a' s' evs,
    Stream (net := scripted) (eng := plainOnly)
        11 (adapterFor noEnv tcpRoute tcp1)
      [sampleMessage]
      (scriptedState 1 "octet-counted"
         (mkScript [Some timeoutErr; Some timeoutErr; Some resetErr]
            [Err (ErrOther "refused"); Ok tcp2]))
    = Some (out, (a', s'))
    /\ trace s' = (nil ++ evs)%list
    /\ Forall (writesRecords (eng := plainOnly)
                 (mkGlobals "box" 1 "octet-counted")
                 (tmpl (adapterFor noEnv tcpRoute tcp1)) [sampleMessage]) evs.
Proof.
  assert (Hu : isUint 1) by (unfold isUint, maxUint, uintSize; cbn; lia).
  destruct (Stream (net := scripted) (eng := plainOnly)
      11 (adapterFor noEnv tcpRoute tcp1)
              [sampleMessage]
              (scriptedState 1 "octet-counted"
                 (mkScript [Some timeoutErr; Some timeoutErr; Some resetErr]
                    [Err (ErrOther "refused"); Ok tcp2])))
    as [[out [a' s']]|] eqn:E; [|vm_compute in E; discriminate E].
  destruct (Stream_writes_only_records (net := scripted) (eng := plainOnly)
      11 [sampleMessage]
              (adapterFor noEnv tcpRoute tcp1) a'
              (scriptedState 1 "octet-counted"
                 (mkScript [Some timeoutErr; Some timeoutErr; Some resetErr]
                    [Err (ErrOther "refused"); Ok tcp2]))
              s' out Hu E)
    as (evs & Htr & Hall).
  exists out, a', s', evs. split; [reflexivity|]. split; assumption.
Defined.

Lemma Stream_without_failed_write_witness :
  exists out a' s',
    Stream (net := scripted) (eng := plainOnly)
        11 (adapterFor noEnv tcpRoute tcp1)
      [sampleMessage; sampleMessage]
      (scriptedState 10 "traditional" (mkScript [] []))
    = Some (out, (a', s'))
    /\ a' = adapterFor noEnv tcpRoute tcp1.
Proof.
  assert (Hu : isUint 10) by (unfold isUint, maxUint, uintSize; cbn; lia).
  destruct (Stream (net := scripted) (eng := plainOnly)
      11 (adapterFor noEnv tcpRoute tcp1)
              [sampleMessage; sampleMessage]
              (scriptedState 10 "traditional" (mkScript [] [])))
    as [[out [a' s']]|] eqn:E; [|vm_compute in E; discriminate E].
  exists out, a', s'. split; [reflexivity|].
  refine (proj1 (Stream_without_failed_write (net := scripted) (eng := plainOnly) 11
                   [sampleMessage; sampleMessage]
                   (adapterFor noEnv tcpRoute tcp1) a'
                   (scriptedState 10 "traditional" (mkScript [] []))
                   s' out (trace s') Hu E eq_refl _)).
  pose proof E as E2. vm_compute in E2. injection E2 as _ _ <-.
  intros c b e [H|[H|[]]]; discriminate H.
Defined.

(** ** The retry budget, again *)

Lemma utoa_head (k : N) :
  exists c r,
    utoa k = String c r
    /\ Ascii.eqb c "-" = false /\ Ascii.eqb c "+" = false.
Proof.
  pose proof (utoa_nonempty k) as Hne. unfold utoa in *.
  destruct (N.to_uint k); cbn [NilEmpty.string_of_uint] in *;
    [congruence | ..]; eexists; eexists; repeat split.
Qed.

(** [strconv.Atoi] reads back what [strconv.Itoa] writes. *)
Lemma Atoi_Itoa (n : Z) : minInt <= n <= maxInt -> Atoi (Itoa n) = Some n.
Proof.
  intros Hr.
  assert (Hin : forall v, v = n ->
            (if ((minInt <=? v) && (v <=? maxInt))%bool then Some v else None)
            = Some n).
  { intros v ->.
    replace ((minInt <=? n) && (n <=? maxInt))%bool with true; [reflexivity|].
    symmetry. apply andb_true_iff. split; apply Z.leb_le; lia. }
  unfold Itoa. destruct (Z.ltb_spec n 0) as [Hneg|Hpos].
  - destruct (utoa_head (Z.abs_N n)) as (c & r & Hs & _).
    pose proof (parseDigits_utoa (Z.abs_N n)) as Hp.
    unfold Atoi. cbn [Ascii.eqb Bool.eqb orb]. rewrite Hs in Hp |- *.
    rewrite Hp. apply Hin. lia.
  - destruct (utoa_head (Z.to_N n)) as (c & r & Hs & Hm & Hp').
    pose proof (parseDigits_utoa (Z.to_N n)) as Hp.
    rewrite Hs in Hp |- *. unfold Atoi. rewrite Hm, Hp'. cbn [orb].
    rewrite Hp. apply Hin. lia.
Qed.

Lemma Itoa_nonempty (n : Z) : Itoa n <> EmptyString.
Proof.
  unfold Itoa. destruct (n <? 0); [discriminate | apply utoa_nonempty].
Qed.

(** X7. Whatever RETRY_COUNT holds, [setRetryCount] stores a [uint] and
    touches no other setting.  When the variable holds the decimal of an
    [n] between 0 and the largest [int], as [strconv.Itoa] writes it, the
    budget is [n]; when it is empty or not set, the budget is 10. *)
Theorem setRetryCount_budget (env : Env) (g : Globals) :
  isUint (retryCount (setRetryCount env g))
  /\ hostname (setRetryCount env g) = hostname g
  /\ tcpFraming (setRetryCount env g) = tcpFraming g
  /\ (forall n, 0 <= n <= maxInt -> Getenv env "RETRY_COUNT" = Itoa n ->
        retryCount (setRetryCount env g) = n)
  /\ (Getenv env "RETRY_COUNT" = "" -> retryCount (setRetryCount env g) = 10).
Proof.
  assert (Hmod : forall z, isUint (uint z)).
  { intros z. unfold isUint, uint, maxUint, uintSize.
    pose proof (Z.mod_pos_bound z (2 ^ 64) ltac:(lia)). lia. }
  unfold setRetryCount.
  split; [|split; [|split; [|split]]].
  - destruct (Atoi _); apply Hmod.
  - destruct (Atoi _); reflexivity.
  - destruct (Atoi _); reflexivity.
  - intros n Hn Henv. unfold GetEnvDefault. rewrite Henv.
    destruct (String.eqb_spec (Itoa n) "") as [E|_];
      [exfalso; exact (Itoa_nonempty n E)|].
    rewrite Atoi_Itoa by (unfold minInt, maxInt, uintSize in *; cbn in *; lia).
    cbn [retryCount]. unfold uint, uintSize.
    unfold maxInt, uintSize in Hn. cbn in Hn.
    apply Z.mod_small. lia.
  - intros Henv. unfold GetEnvDefault. rewrite Henv. reflexivity.
Qed.

Lemma setRetryCount_budget_witness :
  retryCount (setRetryCount (setenv "RETRY_COUNT" "3" noEnv)
                (mkGlobals "box" 0 "")) = 3
  /\ retryCount (setRetryCount noEnv (mkGlobals "box" 0 "")) = 10.
Proof.
  split.
  - apply (proj1 (proj2 (proj2 (proj2
             (setRetryCount_budget (setenv "RETRY_COUNT" "3" noEnv)
                (mkGlobals "box" 0 ""))))) 3).
    + unfold maxInt, uintSize. cbn. lia.
    + reflexivity.
  - apply (proj2 (proj2 (proj2 (proj2
             (setRetryCount_budget noEnv (mkGlobals "box" 0 "")))))).
    reflexivity.
Defined.

(** ** The host name *)

Lemma TrimRightCRLF_cons (c : ascii) (r : string) :
  TrimRightCRLF (String c r)
  = match TrimRightCRLF r with
    | EmptyString =>
        if (Ascii.eqb c CR || Ascii.eqb c LF)%bool then EmptyString
        else String c EmptyString
    | r' => String c r'
    end.
Proof. reflexivity. Qed.

Lemma TrimRightCRLF_split (s : string) :
  exists tail, s = TrimRightCRLF s ++ tail /\ allCRLF tail = true.
Proof.
  induction s as [|c r (tail & Hr & Ht)]; [exists ""; split; reflexivity|].
  rewrite TrimRightCRLF_cons.
  destruct (TrimRightCRLF r) as [|d r'] eqn:E.
  - cbn [append] in Hr. subst tail.
    destruct (Ascii.eqb c CR || Ascii.eqb c LF)%bool eqn:Ec.
    + exists (String c r). split; [reflexivity|].
      cbn [allCRLF]. rewrite Ec, Ht. reflexivity.
    + exists r. split; [reflexivity | exact Ht].
  - exists tail. split; [|exact Ht].
    cbn [append] in Hr |- *. rewrite <- Hr. reflexivity.
Qed.

Lemma TrimRightCRLF_last (s : string) (c : ascii) :
  lastByte (TrimRightCRLF s) = Some c ->
  (Ascii.eqb c CR || Ascii.eqb c LF)%bool = false.
Proof.
  induction s as [|a r IH]; [discriminate|].
  rewrite TrimRightCRLF_cons.
  destruct (TrimRightCRLF r) as [|d r'] eqn:E.
  - destruct (Ascii.eqb a CR || Ascii.eqb a LF)%bool eqn:Ea; [discriminate|].
    intros [= <-]. exact Ea.
  - exact IH.
Qed.

Lemma TrimRightCRLF_allCRLF (s : string) :
  allCRLF s = true -> TrimRightCRLF s = EmptyString.
Proof.
  induction s as [|a r IH]; [reflexivity|].
  cbn [allCRLF]. intros H. apply andb_true_iff in H. destruct H as [Ha Hr].
  rewrite TrimRightCRLF_cons, (IH Hr), Ha. reflexivity.
Qed.

(** X8. [getHostname] stores what it returns in [hostname] and leaves
    the other settings.  A file /etc/host_hostname that can be read and is
    not empty wins over SYSLOG_HOSTNAME: the host name is its content
    without the line ends at its end, and only those; a file of nothing
    but line ends gives the empty host name, not the fallback.  Without
    such a file the host name is SYSLOG_HOSTNAME, or the text
    [{{.Container.Config.Hostname}}]. *)
Theorem getHostname_sources (env : Env) (g : Globals) :
  hostname (snd (getHostname env g)) = fst (getHostname env g)
  /\ retryCount (snd (getHostname env g)) = retryCount g
  /\ tcpFraming (snd (getHostname env g)) = tcpFraming g
  /\ (forall content,
        host_hostname env = Some content -> content <> "" ->
        (exists tail,
           content = fst (getHostname env g) ++ tail /\ allCRLF tail = true)
        /\ (forall c, lastByte (fst (getHostname env g)) = Some c ->
                      c <> CR /\ c <> LF)
        /\ (allCRLF content = true -> fst (getHostname env g) = ""))
  /\ (host_hostname env = None \/ host_hostname env = Some "" ->
      fst (getHostname env g)
      = GetEnvDefault env "SYSLOG_HOSTNAME" "{{.Container.Config.Hostname}}").
Proof.
  unfold getHostname. cbn [fst snd hostname retryCount tcpFraming].
  split; [reflexivity|]. split; [reflexivity|]. split; [reflexivity|]. split.
  - intros content -> Hne.
    destruct content as [|a r]; [congruence|].
    cbn [String.length Nat.ltb Nat.leb]. split; [|split].
    + apply TrimRightCRLF_split.
    + intros c Hc. apply TrimRightCRLF_last in Hc.
      apply orb_false_iff in Hc. destruct Hc as [H1 H2].
      apply Ascii.eqb_neq in H1, H2. auto.
    + apply TrimRightCRLF_allCRLF.
  - intros [-> | ->]; reflexivity.
Qed.

Lemma getHostname_sources_witness :
  fst (getHostname
         (mkEnv (fun _ => "") (Some ("myhost" ++ String CR (String LF ""))))
         (mkGlobals "box" 10 "")) = "myhost"
  /\ fst (getHostname (setenv "SYSLOG_HOSTNAME" "collector" noEnv)
            (mkGlobals "box" 10 "")) = "collector".
Proof.
  split.
  - destruct (proj1 (proj2 (proj2 (proj2
               (getHostname_sources
                  (mkEnv (fun _ => "")
                     (Some ("myhost" ++ String CR (String LF ""))))
                  (mkGlobals "box" 10 "")))))
               ("myhost" ++ String CR (String LF "")) eq_refl
               ltac:(discriminate)) as [_ _].
    reflexivity.
  - rewrite (proj2 (proj2 (proj2 (proj2
               (getHostname_sources (setenv "SYSLOG_HOSTNAME" "collector" noEnv)
                  (mkGlobals "box" 10 ""))))) (or_introl eq_refl)).
    reflexivity.
Defined.

(** ** What construction does to the settings and to the network *)

Section ConstructionEffects.

Context {net : Network} {eng : Engine}.
Local Open Scope list_scope.
Local Arguments truncateString : simpl never.

(** The state that the template part of [NewSyslogAdapter] returns. *)
Lemma template_part_state (X : result error string) (st st' : State)
  (k : Template.t -> Adapter) (res : result error Adapter) :
  match X with
  | Err err => (Err err, st)
  | Ok tmplStr =>
      match Template.Parse tmplStr with
      | Err err => (Err err, st)
      | Ok t => (Ok (k t), st)
      end
  end = (res, st') ->
  st' = st.
Proof.
  destruct X as [str|e]; [destruct (Template.Parse str)|];
    intros [= _ <-]; reflexivity.
Qed.

(** X9. [NewSyslogAdapter] dials at most once and never touches the retry
    budget.  Without a transport it fails before it dials and changes
    nothing; when the dial fails it returns the error of the dial and
    leaves the settings.  Once the dial has succeeded, whether it then
    builds an adapter or not, [hostname] holds the host name text of
    [getHostname]; and [tcpFraming] is either left as it was or holds one
    of the two framings. *)
Theorem NewSyslogAdapter_effects (env : Env) (r : Route) (s : State) :
  (Lookup r = None ->
   NewSyslogAdapter env r s
   = (Err (ErrOther ("bad transport: " ++ Route_Adapter r)%string), s))
  /\ (forall t e w,
        Lookup r = Some t ->
        Dial t (Route_Address r) (Route_Options r) (world s) = (Err e, w) ->
        exists s',
          NewSyslogAdapter env r s = (Err e, s')
          /\ globals s' = globals s
          /\ trace s' = trace s ++ [EvDial (Err e)])
  /\ (forall res s',
        NewSyslogAdapter env r s = (res, s') ->
        retryCount (globals s') = retryCount (globals s)
        /\ (trace s' = trace s \/ exists d, trace s' = trace s ++ [EvDial d])
        /\ (tcpFraming (globals s') = tcpFraming (globals s)
            \/ validFraming (tcpFraming (globals s')))
        /\ (forall t c w,
              Lookup r = Some t ->
              Dial t (Route_Address r) (Route_Options r) (world s)
              = (Ok c, w) ->
              hostname (globals s') = hostnameText env
              /\ trace s' = trace s ++ [EvDial (Ok c)])).
Proof.
  split; [|split].
  - intros Hl. unfold NewSyslogAdapter. rewrite Hl. reflexivity.
  - intros t e w Hl Hd. unfold NewSyslogAdapter, transportDial.
    rewrite Hl, Hd. eexists. split; [reflexivity|]. split; reflexivity.
  - intros res s' H. unfold NewSyslogAdapter in H.
    destruct (Lookup r) as [t|] eqn:Hl.
    2:{ injection H as _ <-.
        split; [reflexivity|]. split; [left; reflexivity|].
        split; [left; reflexivity|]. intros ? ? ? [=]. }
    unfold transportDial in H.
    destruct (Dial t (Route_Address r) (Route_Options r) (world s))
      as [[c|e] w] eqn:Hd.
    2:{ injection H as _ <-. cbn [globals trace].
        split; [reflexivity|]. split; [right; eauto|].
        split; [left; reflexivity|].
        intros t0 c0 w0 [= <-] Hd'. rewrite Hd in Hd'. discriminate Hd'. }
    cbn [globals getHostname setGlobals world trace] in H.
    assert (Hst : forall st : State,
              retryCount (globals st) = retryCount (globals s) ->
              trace st = trace s ++ [EvDial (Ok c)] ->
              hostname (globals st) = hostnameText env ->
              (tcpFraming (globals st) = tcpFraming (globals s)
               \/ validFraming (tcpFraming (globals st))) ->
              s' = st ->
              retryCount (globals s') = retryCount (globals s)
              /\ (trace s' = trace s
                  \/ exists d, trace s' = trace s ++ [EvDial d])
              /\ (tcpFraming (globals s') = tcpFraming (globals s)
                  \/ validFraming (tcpFraming (globals s')))
              /\ (forall t0 c0 w0,
                    Some t = Some t0 ->
                    Dial t0 (Route_Address r) (Route_Options r) (world s)
                    = (Ok c0, w0) ->
                    hostname (globals s') = hostnameText env
                    /\ trace s' = trace s ++ [EvDial (Ok c0)])).
    { intros st H1 H2 H3 H4 ->.
      split; [exact H1|]. split; [right; eauto|]. split; [exact H4|].
      intros t0 c0 w0 [= <-] Hd'. rewrite Hd in Hd'. injection Hd' as <- _.
      split; [exact H3 | exact H2]. }
    destruct (isTCPConnecion c).
    + match type of H with
      | context [setTCPFraming env ?g] =>
          destruct (setTCPFraming_spec env g) as [[Hv Hs]|[Hv Hs]];
            rewrite Hs in H
      end.
      * cbn [globals setGlobals world trace] in H.
        apply template_part_state in H.
        refine (Hst _ _ _ _ _ H);
          [reflexivity | reflexivity | reflexivity | right; exact Hv].
      * injection H as _ H. symmetry in H.
        refine (Hst _ _ _ _ _ H);
          [reflexivity | reflexivity | reflexivity | left; reflexivity].
    + cbn [globals setGlobals world trace] in H.
      apply template_part_state in H.
      refine (Hst _ _ _ _ _ H);
        [reflexivity | reflexivity | reflexivity | left; reflexivity].
Qed.

End ConstructionEffects.

Lemma NewSyslogAdapter_effects_witness :
  exists s',
    NewSyslogAdapter (net := scripted) (eng := plainOnly) noEnv tcpRoute
      (scriptedState 10 "" (mkScript [] [Err (ErrOther "refused")]))
    = (Err (ErrOther "refused"), s')
    /\ globals s' = mkGlobals "box" 10 "".
Proof.
  destruct (proj1 (proj2 (NewSyslogAdapter_effects (net := scripted) (eng := plainOnly) noEnv
                            tcpRoute
                            (scriptedState 10 ""
                               (mkScript [] [Err (ErrOther "refused")]))))
              tt (ErrOther "refused") (mkScript [] []) eq_refl eq_refl)
    as (s' & H & Hg & _).
  exists s'. split; [exact H | exact Hg].
Defined.

(** ** The parts of a container name *)

Lemma stripPrefix_spec (p : string) :
  forall s r, stripPrefix p s = Some r -> s = p ++ r.
Proof.
  induction p as [|a p IH]; intros s r H.
  - injection H as <-. reflexivity.
  - cbn [stripPrefix] in H. destruct s as [|b s]; [discriminate|].
    destruct (Ascii.eqb_spec a b) as [<-|]; [|discriminate].
    cbn [append]. f_equal. apply IH. exact H.
Qed.

Lemma cutSep_spec (sep : string) :
  forall s before rest,
    cutSep sep s = Some (before, rest) -> s = before ++ sep ++ rest.
Proof.
  induction s as [|c r IH]; intros before rest H.
  - cbn [cutSep] in H.
    destruct (stripPrefix sep "") as [x|] eqn:E; [|discriminate].
    injection H as <- <-. apply stripPrefix_spec in E. exact E.
  - cbn [cutSep] in H.
    destruct (stripPrefix sep (String c r)) as [x|] eqn:E.
    + injection H as <- <-. apply stripPrefix_spec in E. exact E.
    + destruct (cutSep sep r) as [[b q]|] eqn:Ec; [|discriminate].
      injection H as <- <-. cbn [append]. f_equal. apply IH. reflexivity.
Qed.

Lemma splitLoop_cons (k : nat) (s sep : string) :
  exists x l, splitLoop k s sep = x :: l.
Proof.
  destruct k as [|k]; cbn [splitLoop]; [eauto|].
  destruct (cutSep sep s) as [[b q]|]; eauto.
Qed.

Lemma splitLoop_join (sep : string) (k : nat) :
  forall s, Join (splitLoop k s sep) sep = s.
Proof.
  unfold Join. induction k as [|k IH]; intros s; [reflexivity|].
  cbn [splitLoop]. destruct (cutSep sep s) as [[b q]|] eqn:E; [|reflexivity].
  apply cutSep_spec in E. specialize (IH q).
  destruct (splitLoop_cons k q sep) as (x & l & Hl). rewrite Hl in IH |- *.
  change (String.concat sep (b :: x :: l))
    with (b ++ sep ++ String.concat sep (x :: l)).
  rewrite IH. symmetry. exact E.
Qed.

Lemma splitLoop_length (sep : string) (k : nat) :
  forall s, (List.length (splitLoop k s sep) <= S k)%nat.
Proof.
  induction k as [|k IH]; intros s; [cbn; lia|].
  cbn [splitLoop]. destruct (cutSep sep s) as [[b q]|]; [|cbn; lia].
  cbn [List.length]. specialize (IH q). lia.
Qed.

Lemma countSep_nonneg (sep : string) (fuel : nat) :
  forall s, 0 <= countSep fuel s sep.
Proof.
  induction fuel as [|fuel IH]; intros s; cbn [countSep]; [lia|].
  destruct (cutSep sep s) as [[b q]|]; [specialize (IH q)|]; lia.
Qed.

(** [strings.SplitN] with a separator that is not empty: the parts joined
    by the separator are the string, and they are at most [n] for a
    positive [n]. *)
Lemma SplitN_join (explode : string -> Z -> list string) (s sep : string)
  (n : Z) :
  sep <> "" -> n <> 0 ->
  Join (SplitN explode s sep n) sep = s
  /\ SplitN explode s sep n <> []
  /\ (0 < n -> Z.of_nat (List.length (SplitN explode s sep n)) <= n).
Proof.
  intros Hsep Hn. unfold SplitN.
  apply Z.eqb_neq in Hn. rewrite Hn.
  apply String.eqb_neq in Hsep. rewrite Hsep. cbv zeta.
  split; [apply splitLoop_join|]. split.
  - match goal with
    | |- splitLoop ?k _ _ <> [] =>
        destruct (splitLoop_cons k s sep) as (x & l & ->)
    end.
    discriminate.
  - intros Hpos. destruct (Z.ltb_spec n 0); [lia|].
    match goal with
    | |- Z.of_nat (List.length (splitLoop ?k _ _)) <= _ =>
        pose proof (splitLoop_length sep k s) as Hl;
          assert (Hk : Z.of_nat k <= n - 1)
    end.
    { destruct (n >? Z.of_nat (String.length s) + 1) eqn:E; [|lia].
      rewrite Z.gtb_ltb in E. apply Z.ltb_lt in E. lia. }
    lia.
Qed.

(** X10. [ContainerNameSplitN] panics on a container without a name and
    on no other.  For a separator that is not empty and [n] other than 0,
    its parts, joined by the separator, are the name without its first
    byte; there is at least one part, and at most [n] when [n] is
    positive.  With [n = 0] there is no part. *)
Theorem ContainerNameSplitN_parts (explode : string -> Z -> list string)
  (m : Message) (sep : string) (n : Z) :
  (Container_Name (Message_Container m) = "" <->
   ContainerNameSplitN explode m sep n = None)
  /\ (forall c name,
        Container_Name (Message_Container m) = String c name ->
        exists parts,
          ContainerNameSplitN explode m sep n = Some parts
          /\ (n = 0 -> parts = [])
          /\ (sep <> "" -> n <> 0 ->
              Join parts sep = name /\ parts <> []
              /\ (0 < n -> Z.of_nat (List.length parts) <= n))).
Proof.
  unfold ContainerNameSplitN, ContainerName. split.
  - destruct (Container_Name (Message_Container m));
      split; intros H; (reflexivity || discriminate).
  - intros c name ->. eexists. split; [reflexivity|]. split.
    + intros ->. reflexivity.
    + intros Hsep Hn. apply SplitN_join; assumption.
Qed.

Lemma ContainerNameSplitN_parts_witness :
  ContainerNameSplitN (fun _ _ => []) longNameMessage "_" 3
  = Some ["k8s"; "nginx-ingress-controller";
          "nginx-ingress-controller-7d9f8b6c4-x2x9k_prod_0"].
Proof.
  destruct (proj2 (ContainerNameSplitN_parts (fun _ _ => []) longNameMessage
                     "_" 3) "/"%char longName eq_refl)
    as (parts & H & _).
  rewrite H. vm_compute in H. injection H as <-. reflexivity.
Defined.

(** ** The line under the defaults *)

Section DefaultLine.

Context {net : Network} {eng : Engine}.
Local Arguments truncateString : simpl never.

Lemma defaults_texts (env : Env) (r : Route) :
  defaults env r ->
  hostnameText env = "{{.Container.Config.Hostname}}"
  /\ tagText env r = "{{.ContainerName}}"
  /\ structuredDataText env r = "-"
  /\ GetEnvDefault env "SYSLOG_PRIORITY" "{{.Priority}}" = "{{.Priority}}"
  /\ GetEnvDefault env "SYSLOG_TIMESTAMP" "{{.Timestamp}}" = "{{.Timestamp}}"
  /\ GetEnvDefault env "SYSLOG_PID" "{{.Container.State.Pid}}"
     = "{{.Container.State.Pid}}"
  /\ GetEnvDefault env "SYSLOG_DATA" "{{.Data}}" = "{{.Data}}".
Proof.
  intros (Hh & Hv & Ha & Hsd).
  assert (G : forall v d, In v lineVariables -> GetEnvDefault env v d = d).
  { intros v d Hin. unfold GetEnvDefault. rewrite (Hv v Hin). reflexivity. }
  split.
  { unfold hostnameText, getHostname. cbn [fst].
    destruct Hh as [-> | ->]; cbn [String.length Nat.ltb Nat.leb];
      apply G; cbn; auto 10. }
  split.
  { unfold tagText. rewrite Ha. apply G; cbn; auto 10. }
  split.
  { unfold structuredDataText. rewrite Hsd.
    rewrite (G "SYSLOG_STRUCTURED_DATA" "") by (cbn; auto 10). reflexivity. }
  repeat split; apply G; cbn; auto 10.
Qed.

Lemma defaults_template (env : Env) (r : Route) :
  defaults env r ->
  textBeforeTag env ++ " "
  ++ truncateString (tagPrecision (formatOf env)) (tagText env r)
  ++ textAfterTag env r
  = if String.eqb (formatOf env) "rfc5424" then
      "<{{.Priority}}>1 {{.Timestamp}} {{.Container.Config.Hostname}} {{.ContainerName}} {{.Container.State.Pid}} - - {{.Data}}"
      ++ String LF ""
    else
      "<{{.Priority}}>{{.Timestamp}} {{.Container.Config.Hostname}} {{.ContainerName}}[{{.Container.State.Pid}}]: {{.Data}}"
      ++ String LF "".
Proof.
  intros Hd.
  destruct (defaults_texts env r Hd) as (Hh & Ht & Hs & Hp & Hts & Hpid & Hda).
  unfold textBeforeTag, textAfterTag, tagPrecision.
  rewrite Hh, Ht, Hs, Hp, Hts, Hpid, Hda.
  destruct (String.eqb (formatOf env) "rfc5424"); vm_compute; reflexivity.
Qed.

(** What the template of the defaults renders a record to, whatever the
    settings. *)
Lemma defaults_Render (env : Env) (r : Route) (t : Template.t) :
  defaults env r ->
  Template.Parse
    (textBeforeTag env ++ " "
     ++ truncateString (tagPrecision (formatOf env)) (tagText env r)
     ++ textAfterTag env r) = Ok t ->
  forall (g : Globals) (m : Message),
    Render g m t
    = match ContainerName m with
      | None => Err (ErrTemplateExec ["ContainerName"])
      | Some name => Ok (defaultLine env m name)
      end.
Proof.
  intros Hd Hparse g m. unfold defaultLine.
  rewrite (defaults_template env r Hd) in Hparse.
  destruct (String.eqb (formatOf env) "rfc5424").
  - assert (Hp :
      Template.Parse
        ("<{{.Priority}}>1 {{.Timestamp}} {{.Container.Config.Hostname}} {{.ContainerName}} {{.Container.State.Pid}} - - {{.Data}}"
         ++ String LF "")
      = Ok [Template.Text "<"; Template.Field ["Priority"];
            Template.Text ">1 "; Template.Field ["Timestamp"];
            Template.Text " ";
            Template.Field ["Container"; "Config"; "Hostname"];
            Template.Text " "; Template.Field ["ContainerName"];
            Template.Text " "; Template.Field ["Container"; "State"; "Pid"];
            Template.Text " - - "; Template.Field ["Data"];
            Template.Text (String LF "")])
      by (vm_compute; reflexivity).
    rewrite Hp in Hparse. injection Hparse as <-.
    unfold Render, rfc5424Line. cbn [Template.Execute].
    change (Template.field g m ["Priority"])
      with (@Ok error string (Itoa (Priority m))).
    change (Template.field g m ["Timestamp"])
      with (@Ok error string (Timestamp m)).
    change (Template.field g m ["Container"; "Config"; "Hostname"])
      with (@Ok error string (Config_Hostname (Message_Container m))).
    change (Template.field g m ["Container"; "State"; "Pid"])
      with (@Ok error string (Itoa (State_Pid (Message_Container m)))).
    change (Template.field g m ["Data"])
      with (@Ok error string (Message_Data m)).
    change (Template.field g m ["ContainerName"])
      with (match ContainerName m with
            | Some n => @Ok error string n
            | None => Err (ErrTemplateExec ["ContainerName"])
            end).
    cbv iota. destruct (ContainerName m) as [name|]; [|reflexivity].
    cbv iota. cbn [append]. rewrite !append_assoc. cbn [append].
    reflexivity.
  - assert (Hp :
      Template.Parse
        ("<{{.Priority}}>{{.Timestamp}} {{.Container.Config.Hostname}} {{.ContainerName}}[{{.Container.State.Pid}}]: {{.Data}}"
         ++ String LF "")
      = Ok [Template.Text "<"; Template.Field ["Priority"];
            Template.Text ">"; Template.Field ["Timestamp"];
            Template.Text " ";
            Template.Field ["Container"; "Config"; "Hostname"];
            Template.Text " "; Template.Field ["ContainerName"];
            Template.Text "["; Template.Field ["Container"; "State"; "Pid"];
            Template.Text "]: "; Template.Field ["Data"];
            Template.Text (String LF "")])
      by (vm_compute; reflexivity).
    rewrite Hp in Hparse. injection Hparse as <-.
    unfold Render, rfc3164Line. cbn [Template.Execute].
    change (Template.field g m ["Priority"])
      with (@Ok error string (Itoa (Priority m))).
    change (Template.field g m ["Timestamp"])
      with (@Ok error string (Timestamp m)).
    change (Template.field g m ["Container"; "Config"; "Hostname"])
      with (@Ok error string (Config_Hostname (Message_Container m))).
    change (Template.field g m ["Container"; "State"; "Pid"])
      with (@Ok error string (Itoa (State_Pid (Message_Container m)))).
    change (Template.field g m ["Data"])
      with (@Ok error string (Message_Data m)).
    change (Template.field g m ["ContainerName"])
      with (match ContainerName m with
            | Some n => @Ok error string n
            | None => Err (ErrTemplateExec ["ContainerName"])
            end).
    cbv iota. destruct (ContainerName m) as [name|]; [|reflexivity].
    cbv iota. cbn [append]. rewrite !append_assoc. cbn [append].
    reflexivity.
Qed.

(** X11. Under the defaults a record of a container with a name renders to
    the line of its format, made of the priority, the time, the host name
    of the container, the container name without its first byte, the pid
    and the payload; a record of a container without a name fails to
    render, at [ContainerName]. *)
Theorem Render_default_line (env : Env) (r : Route) (s s' : State)
  (a : Adapter) (m : Message) :
  NewSyslogAdapter env r s = (Ok a, s') ->
  defaults env r ->
  Render (globals s') m (tmpl a)
  = match ContainerName m with
    | None => Err (ErrTemplateExec ["ContainerName"])
    | Some name =>
        Ok (if String.eqb (formatOf env) "rfc5424" then rfc5424Line m name
            else rfc3164Line m name)
    end.
Proof.
  intros Hok Hd. apply NewSyslogAdapter_Ok in Hok.
  destruct Hok as (t & w & _ & _ & _ & _ & _ & _ & _ & _ & _ & Hparse).
  exact (defaults_Render env r (tmpl a) Hd Hparse (globals s') m).
Qed.

(** What the loop has rendered when it ends: every record when the channel
    was closed, the records before the one that failed otherwise. *)
Lemma Stream_rendered (fuel : nat) (msgs : list Message) :
  forall (a a' : Adapter) (s s' : State) (out : Outcome),
    isUint (retryCount (globals s)) ->
    Stream fuel a msgs s = Some (out, (a', s')) ->
    match out with
    | Closed => Forall (renders (globals s) (tmpl a)) msgs
    | RenderFailed e =>
        exists pre m post,
          msgs = (pre ++ m :: post)%list
          /\ Forall (renders (globals s) (tmpl a)) pre
          /\ Render (globals s) m (tmpl a) = Err e
    | _ => True
    end.
Proof.
  induction msgs as [|m msgs IH]; intros a a' s s' out Hu H.
  - injection H as <- <- <-. constructor.
  - cbn [Stream] in H.
    destruct (Render (globals s) m (tmpl a)) as [b|e] eqn:Er.
    2:{ injection H as <- <- <-. exists [], m, msgs.
        split; [reflexivity|]. split; [constructor | exact Er]. }
    destruct (framed (conn a) (tcpFraming (globals s)) b) as [fb|v];
      [|injection H as <- <- <-; exact I].
    destruct (connWrite (conn a) fb s) as [err s1] eqn:Ew.
    apply connWrite_spec in Ew. destruct Ew as [Hg Htr].
    assert (Hm : renders (globals s) (tmpl a) m) by (exists b; exact Er).
    assert (Hnext : forall a2 s2,
              tmpl a2 = tmpl a -> globals s2 = globals s ->
              Stream fuel a2 msgs s2 = Some (out, (a', s')) ->
              match out with
              | Closed => Forall (renders (globals s) (tmpl a)) (m :: msgs)
              | RenderFailed e =>
                  exists pre m0 post,
                    (m :: msgs) = (pre ++ m0 :: post)%list
                    /\ Forall (renders (globals s) (tmpl a)) pre
                    /\ Render (globals s) m0 (tmpl a) = Err e
              | _ => True
              end).
    { intros a2 s2 Ht Hg2 Hs.
      apply IH in Hs; [|rewrite Hg2; exact Hu].
      rewrite Hg2, Ht in Hs. destruct out; try exact I.
      - constructor; assumption.
      - destruct Hs as (pre & m0 & post & -> & Hpre & Hm0).
        exists (m :: pre), m0, post. split; [reflexivity|].
        split; [constructor; assumption | exact Hm0]. }
    destruct err as [err|]; [|apply (Hnext a s1); auto].
    assert (Hretry :
      match retry fuel fb err a s1 with
      | Some (Some err0, as_) => Some (RetryPanic err0, as_)
      | Some (None, (a0, s0)) => Stream fuel a0 msgs s0
      | None => None
      end = Some (out, (a', s')) ->
      match out with
      | Closed => Forall (renders (globals s) (tmpl a)) (m :: msgs)
      | RenderFailed e =>
          exists pre m0 post,
            (m :: msgs) = (pre ++ m0 :: post)%list
            /\ Forall (renders (globals s) (tmpl a)) pre
            /\ Render (globals s) m0 (tmpl a) = Err e
      | _ => True
      end).
    { clear H. intros H.
      destruct (retry fuel fb err a s1) as [[res [a2 s2]]|] eqn:Ert;
        [|discriminate].
      apply retry_Recovery in Ert; [|rewrite Hg; exact Hu].
      destruct Ert as ((_ & Ht & _) & Hg2 & _).
      destruct res as [e|].
      - injection H as <- <- <-. exact I.
      - apply (Hnext a2 s2); [exact Ht | congruence | exact H]. }
    destruct (connKind (conn a)); try (apply Hretry; exact H).
    apply (Hnext a s1); auto.
Qed.

(** X12. The loop of an adapter built under the defaults stops at a record
    that does not render only at a record of a container without a name:
    the error is that of [ContainerName], the records before it all have a
    name, and when the loop ends with the channel closed every record had
    one. *)
Theorem Stream_defaults_stops_at_nameless (fuel : nat) (env : Env)
  (r : Route) (s0 s s' : State) (a a' : Adapter) (msgs : list Message)
  (out : Outcome) :
  NewSyslogAdapter env r s0 = (Ok a, s) ->
  defaults env r ->
  isUint (retryCount (globals s)) ->
  Stream fuel a msgs s = Some (out, (a', s')) ->
  match out with
  | Closed => Forall named msgs
  | RenderFailed e =>
      e = ErrTemplateExec ["ContainerName"]
      /\ exists pre m post,
           msgs = (pre ++ m :: post)%list
           /\ Forall named pre
           /\ Container_Name (Message_Container m) = ""
  | _ => True
  end.
Proof.
  intros Hok Hd Hu H. apply NewSyslogAdapter_Ok in Hok.
  destruct Hok as (t & w & _ & _ & _ & _ & _ & _ & _ & _ & _ & Hparse).
  pose proof (defaults_Render env r (tmpl a) Hd Hparse (globals s)) as HR.
  assert (Hnamed : forall m, renders (globals s) (tmpl a) m -> named m).
  { intros m [b Hb]. rewrite HR in Hb. unfold named.
    destruct (ContainerName m); [discriminate | discriminate Hb]. }
  apply Stream_rendered in H; [|exact Hu].
  destruct out; try exact I.
  - eapply Forall_impl; [exact Hnamed | exact H].
  - destruct H as (pre & m & post & -> & Hpre & Hm).
    rewrite HR in Hm. unfold ContainerName in Hm.
    destruct (Container_Name (Message_Container m)) eqn:En;
      [|discriminate Hm].
    injection Hm as <-. split; [reflexivity|].
    exists pre, m, post. split; [reflexivity|].
    split; [|exact En].
    eapply Forall_impl; [exact Hnamed | exact Hpre].
Qed.

(** X13. After a construction that succeeded, [Hostname] no longer returns
    the host name that [init] stored but the text that [getHostname] chose,
    which without a host file and without SYSLOG_HOSTNAME is the text of a
    template action; the budget of [init] is kept. *)
Theorem Hostname_after_construction (env : Env) (os : string) (r : Route)
  (w : World) (tr : list Event) (a : Adapter) (s' : State) (m : Message) :
  NewSyslogAdapter env r (mkState (init env os) w tr) = (Ok a, s') ->
  Hostname (globals s') m = hostnameText env
  /\ Template.field (globals s') m ["Hostname"] = Ok (hostnameText env)
  /\ retryCount (globals s') = retryCount (init env os)
  /\ ((host_hostname env = None \/ host_hostname env = Some "") ->
      Getenv env "SYSLOG_HOSTNAME" = "" ->
      Hostname (globals s') m = "{{.Container.Config.Hostname}}").
Proof.
  intros Hok. apply NewSyslogAdapter_Ok in Hok.
  destruct Hok as (t & w' & _ & _ & _ & _ & _ & Hrc & Hh & _).
  cbn [globals] in Hrc, Hh.
  assert (HH : Hostname (globals s') m = hostnameText env).
  { unfold Hostname. rewrite Hh. reflexivity. }
  split; [exact HH|]. split.
  { change (Template.field (globals s') m ["Hostname"])
      with (@Ok error string (Hostname (globals s') m)).
    rewrite HH. reflexivity. }
  split; [exact Hrc|].
  intros Hf Hv. rewrite HH. unfold hostnameText, getHostname, GetEnvDefault.
  cbn [fst]. rewrite Hv.
  destruct Hf as [-> | ->]; reflexivity.
Qed.

End DefaultLine.

Lemma Render_default_line_witness :
  Render (eng := plainOnly)
      (globals (snd (build noEnv udpRoute udp0))) sampleMessage
    (tmpl (adapterFor noEnv udpRoute udp0))
  = Ok sampleLine.
Proof.
  assert (Hb : build noEnv udpRoute udp0
               = (Ok (adapterFor noEnv udpRoute udp0),
                  snd (build noEnv udpRoute udp0)))
    by (vm_compute; reflexivity).
  assert (Hd : defaults noEnv udpRoute).
  { split; [left; reflexivity|].
    split; [intros v _; reflexivity|]. split; reflexivity. }
  rewrite (Render_default_line (net := scripted) (eng := plainOnly)
      noEnv udpRoute _ _ _
             sampleMessage Hb Hd).
  vm_compute. reflexivity.
Defined.

Lemma Stream_defaults_stops_at_nameless_witness :
  exists pre m post,
    [sampleMessage; namelessMessage; sampleMessage] = (pre ++ m :: post)%list
    /\ Forall named pre
    /\ Container_Name (Message_Container m) = "".
Proof.
  assert (Hb : build noEnv tcpRoute tcp1
               = (Ok (adapterFor noEnv tcpRoute tcp1),
                  snd (build noEnv tcpRoute tcp1)))
    by (vm_compute; reflexivity).
  assert (Hd : defaults noEnv tcpRoute).
  { split; [left; reflexivity|].
    split; [intros v _; reflexivity|]. split; reflexivity. }
  assert (Hu : isUint (retryCount (globals (snd (build noEnv tcpRoute tcp1)))))
    by (vm_compute; split; discriminate).
  assert (Hs : Stream (net := scripted) (eng := plainOnly) 11
                 (adapterFor noEnv tcpRoute tcp1)
                 [sampleMessage; namelessMessage; sampleMessage]
                 (snd (build noEnv tcpRoute tcp1))
               = Some (RenderFailed (ErrTemplateExec ["ContainerName"]),
                       (adapterFor noEnv tcpRoute tcp1,
                        mkState (net := scripted)
                          (mkGlobals "{{.Container.Config.Hostname}}" 10
                             "traditional")
                          (mkScript [] [])
                          [EvDial (Ok tcp1);
                           EvWrite tcp1 sampleLine None])))
    by (vm_compute; reflexivity).
  exact (proj2 (Stream_defaults_stops_at_nameless (net := scripted) (eng := plainOnly) 11 noEnv
                  tcpRoute _ _ _ _ _ _ _ Hb Hd Hu Hs)).
Defined.

Lemma Hostname_after_construction_witness :
  Hostname (globals (snd (build noEnv udpRoute udp0))) sampleMessage
  = "{{.Container.Config.Hostname}}".
Proof.
  assert (Hb : NewSyslogAdapter (net := scripted) (eng := plainOnly)
      noEnv udpRoute
                 (mkState (net := scripted) (init noEnv "box")
                    (mkScript [] [Ok udp0]) [])
               = (Ok (adapterFor noEnv udpRoute udp0),
                  snd (build noEnv udpRoute udp0)))
    by (vm_compute; reflexivity).
  exact (proj2 (proj2 (proj2
           (Hostname_after_construction (net := scripted) (eng := plainOnly)
               noEnv "box"
              udpRoute (mkScript [] [Ok udp0]) [] _ _ sampleMessage Hb)))
           (or_introl eq_refl) eq_refl).
Defined.
